(** * pptx2beamer: a shallow embedding of [pptx2beamer.py]

    The development follows the source file function by function:
    [sanitize_for_latex], [escape_latex], [parse_slides_for_content],
    [parse_title_page_info], [convert_ppt_to_beamer_position],
    [parse_presentation_xml], [is_full_slide_background],
    [generate_main_tex] and the block of [main] that processes the archive.

    Conventions.
    - A Python [str] is a [string] holding its UTF-8 bytes.  The letters and
      marks the program tests for are ASCII, and bytes of a multi-byte
      character are all above 127, so a test per byte and a test per code
      point agree; blanks and decimal digits, which Python reads from all of
      Unicode, are matched by their UTF-8 encodings.
    - A Python [int] is a [Z]; a Python [float] is a binary64 [spec_float].
    - A raised exception is the [Err] branch of [result]; [try]/[except]
      blocks are written out where the source has them.
    - A [dict] is a [gmap]; [None] is the [None] of [option]. *)

From Stdlib Require Import ZArith Bool Ascii String List Sorted Lia.
From Stdlib Require Import Floats.SpecFloat.
From stdpp Require Import base option list strings gmap.

Local Open Scope Z_scope.
Local Open Scope string_scope.
Local Open Scope list_scope.

Set Warnings "-register-all".

(** ** Exceptions and results *)

Inductive exn : Set :=
| AttributeError
| ParseError
| ValueError
| ZeroDivisionError
| OverflowError.

Inductive result (A : Type) : Type :=
| OK (a : A)
| Err (e : exn).
Arguments OK {A} a.
Arguments Err {A} e.

#[global] Instance result_ret : MRet result := fun A a => OK a.

#[global] Instance result_bind : MBind result :=
  fun A B k r =>
    match r with
    | OK a => k a
    | Err e => Err e
    end.

(** ** Python string operations used by the program *)

Module PyStr.

Definition code (c : ascii) : N := N_of_ascii c.

Definition in_range (lo hi : N) (c : ascii) : bool :=
  (N.leb lo (code c) && N.leb (code c) hi)%bool.

Definition is_digit (c : ascii) : bool := in_range 48 57 c.
Definition is_upper (c : ascii) : bool := in_range 65 90 c.
Definition is_lower (c : ascii) : bool := in_range 97 122 c.
Definition is_alnum (c : ascii) : bool :=
  (is_lower c || is_upper c || is_digit c)%bool.

Definition lower_char (c : ascii) : ascii :=
  if is_upper c then ascii_of_N (code c + 32) else c.

Fixpoint map_chars (f : ascii -> ascii) (s : string) : string :=
  match s with
  | EmptyString => EmptyString
  | String c r => String (f c) (map_chars f r)
  end.

(** [s.lower()]; only the ASCII letters change, which is all the suffix
    tests of the program can observe. *)
Definition lower (s : string) : string := map_chars lower_char s.

Fixpoint filter_chars (p : ascii -> bool) (s : string) : string :=
  match s with
  | EmptyString => EmptyString
  | String c r => if p c then String c (filter_chars p r) else filter_chars p r
  end.

(** ["".join(f(ch) for ch in s)] *)
Fixpoint join_map (f : ascii -> string) (s : string) : string :=
  match s with
  | EmptyString => EmptyString
  | String c r => f c +:+ join_map f r
  end.

(** ["".join(l)] *)
Definition join (l : list string) : string := fold_right String.append EmptyString l.

Fixpoint startswith (s p : string) : bool :=
  match p, s with
  | EmptyString, _ => true
  | String a p', String b s' => (Ascii.eqb a b && startswith s' p')%bool
  | String _ _, EmptyString => false
  end.

Fixpoint drop (n : nat) (s : string) : string :=
  match n, s with
  | O, _ => s
  | S n', String _ r => drop n' r
  | S _, EmptyString => EmptyString
  end.

Fixpoint take (n : nat) (s : string) : string :=
  match n, s with
  | S n', String c r => String c (take n' r)
  | _, _ => EmptyString
  end.

Definition endswith (s p : string) : bool :=
  (Nat.leb (String.length p) (String.length s)
   && String.eqb (drop (String.length s - String.length p) s) p)%bool.

(** [s[:-n]] for [n > 0] *)
Definition drop_last (n : nat) (s : string) : string :=
  take (String.length s - n) s.

Definition is_empty (s : string) : bool :=
  match s with EmptyString => true | _ => false end.

(** [s.replace(old, new)] for a non-empty [old]: every occurrence, scanning
    from the left, without overlaps.  [fuel] bounds the scan by the length. *)
Fixpoint replace_fuel (fuel : nat) (s old new : string) : string :=
  match fuel with
  | O => s
  | S fuel' =>
      match s with
      | EmptyString => EmptyString
      | String c r =>
          if startswith s old
          then new +:+ replace_fuel fuel' (drop (String.length old) s) old new
          else String c (replace_fuel fuel' r old new)
      end
  end.

Definition replace (s old new : string) : string :=
  replace_fuel (String.length s) s old new.

(** [s.split(sep)[-1]] for a one-character separator: the part after the
    last separator. *)
Fixpoint after_last (sep : ascii) (s : string) (acc : string) : string :=
  match s with
  | EmptyString => acc
  | String c r => if Ascii.eqb c sep then after_last sep r r else after_last sep r acc
  end.

Definition split_last (sep : ascii) (s : string) : string := after_last sep s s.

Definition rev (s : string) : string :=
  string_of_list_ascii (List.rev (list_ascii_of_string s)).

Definition bytes (l : list N) : string :=
  string_of_list_ascii (map ascii_of_N l).

(** The characters [str.strip()] removes (those with [str.isspace()]), each
    as its UTF-8 encoding. *)
Definition whitespace : list string :=
  map bytes
    [ [9]; [10]; [11]; [12]; [13]; [28]; [29]; [30]; [31]; [32];
      [194; 133]; [194; 160]; [225; 154; 128];
      [226; 128; 128]; [226; 128; 129]; [226; 128; 130]; [226; 128; 131];
      [226; 128; 132]; [226; 128; 133]; [226; 128; 134]; [226; 128; 135];
      [226; 128; 136]; [226; 128; 137]; [226; 128; 138];
      [226; 128; 168]; [226; 128; 169]; [226; 128; 175];
      [226; 129; 159]; [227; 128; 128] ]%N.

Fixpoint first_prefix (ps : list string) (s : string) : option string :=
  match ps with
  | [] => None
  | p :: ps' => if startswith s p then Some p else first_prefix ps' s
  end.

Fixpoint lstrip_fuel (fuel : nat) (ws : list string) (s : string) : string :=
  match fuel with
  | O => s
  | S fuel' =>
      match first_prefix ws s with
      | Some p => lstrip_fuel fuel' ws (drop (String.length p) s)
      | None => s
      end
  end.

Definition lstrip (s : string) : string :=
  lstrip_fuel (String.length s) whitespace s.

Definition rstrip (s : string) : string :=
  rev (lstrip_fuel (String.length s) (map rev whitespace) (rev s)).

Definition strip (s : string) : string := rstrip (lstrip s).

(** The UTF-8 encoding of a code point. *)
Definition utf8 (cp : N) : string :=
  if (cp <? 128)%N then bytes [cp]
  else if (cp <? 2048)%N then bytes [192 + cp / 64; 128 + cp mod 64]%N
  else if (cp <? 65536)%N
  then bytes [224 + cp / 4096; 128 + (cp / 64) mod 64; 128 + cp mod 64]%N
  else bytes [240 + cp / 262144; 128 + (cp / 4096) mod 64;
              128 + (cp / 64) mod 64; 128 + cp mod 64]%N.

(** The decimal digits of Unicode (category Nd; version 14.0 of the
    character database, the one of CPython 3.11) come in runs of ten, zero
    to nine: the code point of each zero.  These are the characters with
    [str.isdecimal()], the ones the pattern [\d] matches on a [str] and the
    ones [int] reads as digits. *)
Definition decimal_zeros : list N :=
  [ 0x30; 0x660; 0x6f0; 0x7c0; 0x966; 0x9e6; 0xa66; 0xae6; 0xb66; 0xbe6;
    0xc66; 0xce6; 0xd66; 0xde6; 0xe50; 0xed0; 0xf20; 0x1040; 0x1090;
    0x17e0; 0x1810; 0x1946; 0x19d0; 0x1a80; 0x1a90; 0x1b50; 0x1bb0; 0x1c40;
    0x1c50; 0xa620; 0xa8d0; 0xa900; 0xa9d0; 0xa9f0; 0xaa50; 0xabf0; 0xff10;
    0x104a0; 0x10d30; 0x11066; 0x110f0; 0x11136; 0x111d0; 0x112f0; 0x11450;
    0x114d0; 0x11650; 0x116c0; 0x11730; 0x118e0; 0x11950; 0x11c50; 0x11d50;
    0x11da0; 0x16a60; 0x16ac0; 0x16b50; 0x1d7ce; 0x1d7d8; 0x1d7e2; 0x1d7ec;
    0x1d7f6; 0x1e140; 0x1e2f0; 0x1e950; 0x1fbf0 ]%N.

(** Every decimal digit: its UTF-8 encoding and its value. *)
Definition decimal_digits : list (string * Z) :=
  flat_map (fun zero => map (fun i => (utf8 (zero + i), Z.of_N i))
                            [0; 1; 2; 3; 4; 5; 6; 7; 8; 9]%N)
           decimal_zeros.

Fixpoint first_digit (table : list (string * Z)) (s : string)
  : option (string * Z) :=
  match table with
  | [] => None
  | d :: table' => if startswith s (fst d) then Some d else first_digit table' s
  end.

(** The decimal digit [s] starts with, if any: its encoding and its value. *)
Definition leading_digit (s : string) : option (string * Z) :=
  first_digit decimal_digits s.

(** The blanks [int] skips around a number: those of [str.strip()] but for
    U+001C to U+001F, which [int] does not take for blanks. *)
Definition int_whitespace : list string :=
  map bytes
    [ [9]; [10]; [11]; [12]; [13]; [32];
      [194; 133]; [194; 160]; [225; 154; 128];
      [226; 128; 128]; [226; 128; 129]; [226; 128; 130]; [226; 128; 131];
      [226; 128; 132]; [226; 128; 133]; [226; 128; 134]; [226; 128; 135];
      [226; 128; 136]; [226; 128; 137]; [226; 128; 138];
      [226; 128; 168]; [226; 128; 169]; [226; 128; 175];
      [226; 129; 159]; [227; 128; 128] ]%N.

Definition int_strip (s : string) : string :=
  let t := lstrip_fuel (String.length s) int_whitespace s in
  rev (lstrip_fuel (String.length t) (map rev int_whitespace) (rev t)).

(** The sign [int] reads: whether it is a minus, and the text after it. *)
Definition split_sign (s : string) : bool * string :=
  match s with
  | String c r =>
      if Ascii.eqb c "-" then (true, r)
      else if Ascii.eqb c "+" then (false, r)
      else (false, s)
  | EmptyString => (false, s)
  end.

(** The digits after the sign: decimal digits in groups joined by single
    underscores.  The value read and the number of digits; [None] where the
    text is no number.  Every step takes at least one byte, so a [fuel]
    above the length of [s] is never used up. *)
Fixpoint digits_value (fuel : nat) (s : string) (acc : Z) (count : nat)
    (after_digit : bool) : option (Z * nat) :=
  match fuel with
  | O => None
  | S fuel' =>
      match leading_digit s with
      | Some d =>
          digits_value fuel' (drop (String.length (fst d)) s)
                       (10 * acc + snd d) (S count) true
      | None =>
          match s with
          | EmptyString => if after_digit then Some (acc, count) else None
          | String c r =>
              if (Ascii.eqb c "_" && after_digit)%bool
              then digits_value fuel' r acc count false
              else None
          end
      end
  end.

(** [sys.get_int_max_str_digits()], by default. *)
Definition max_str_digits : nat := 4300.

(** [int(s)] for a [str]: surrounding blanks, a sign, then the digits;
    [None] where [int] raises [ValueError], which it also does for a number
    of more than [max_str_digits] digits. *)
Definition int (s : string) : option Z :=
  let '(minus, r) := split_sign (int_strip s) in
  match digits_value (S (String.length r)) r 0 0 false with
  | Some (v, count) =>
      if Nat.leb count max_str_digits
      then Some (if minus then Z.opp v else v)
      else None
  | None => None
  end.

End PyStr.

(** ** MD5 ([hashlib.md5], RFC 1321) on bytes given as numbers below 256 *)

Module MD5.

Definition mask32 : Z := 0xffffffff.
Definition add32 (a b : Z) : Z := Z.land (a + b) mask32.
Definition not32 (a : Z) : Z := Z.lxor a mask32.
Definition rotl32 (x c : Z) : Z :=
  Z.lor (Z.land (Z.shiftl x c) mask32) (Z.shiftr x (32 - c)).

Definition K : list Z :=
  [ 0xd76aa478; 0xe8c7b756; 0x242070db; 0xc1bdceee; 0xf57c0faf; 0x4787c62a;
    0xa8304613; 0xfd469501; 0x698098d8; 0x8b44f7af; 0xffff5bb1; 0x895cd7be;
    0x6b901122; 0xfd987193; 0xa679438e; 0x49b40821; 0xf61e2562; 0xc040b340;
    0x265e5a51; 0xe9b6c7aa; 0xd62f105d; 0x02441453; 0xd8a1e681; 0xe7d3fbc8;
    0x21e1cde6; 0xc33707d6; 0xf4d50d87; 0x455a14ed; 0xa9e3e905; 0xfcefa3f8;
    0x676f02d9; 0x8d2a4c8a; 0xfffa3942; 0x8771f681; 0x6d9d6122; 0xfde5380c;
    0xa4beea44; 0x4bdecfa9; 0xf6bb4b60; 0xbebfbc70; 0x289b7ec6; 0xeaa127fa;
    0xd4ef3085; 0x04881d05; 0xd9d4d039; 0xe6db99e5; 0x1fa27cf8; 0xc4ac5665;
    0xf4292244; 0x432aff97; 0xab9423a7; 0xfc93a039; 0x655b59c3; 0x8f0ccc92;
    0xffeff47d; 0x85845dd1; 0x6fa87e4f; 0xfe2ce6e0; 0xa3014314; 0x4e0811a1;
    0xf7537e82; 0xbd3af235; 0x2ad7d2bb; 0xeb86d391 ].

Definition shifts : list Z :=
  [ 7; 12; 17; 22; 7; 12; 17; 22; 7; 12; 17; 22; 7; 12; 17; 22;
    5; 9; 14; 20; 5; 9; 14; 20; 5; 9; 14; 20; 5; 9; 14; 20;
    4; 11; 16; 23; 4; 11; 16; 23; 4; 11; 16; 23; 4; 11; 16; 23;
    6; 10; 15; 21; 6; 10; 15; 21; 6; 10; 15; 21; 6; 10; 15; 21 ].

Definition state : Type := Z * Z * Z * Z.

Definition init : state := (0x67452301, 0xefcdab89, 0x98badcfe, 0x10325476).

(** A word from its bytes, least significant first. *)
Definition le_word (bs : list Z) : Z :=
  fold_right (fun b acc => b + 256 * acc) 0 bs.

Fixpoint words (n : nat) (bs : list Z) : list Z :=
  match n with
  | O => []
  | S n' => le_word (take 4 bs) :: words n' (drop 4 bs)
  end.

Definition step (M : list Z) (st : state) (i : nat) : state :=
  let '(a, b, c, d) := st in
  let iz := Z.of_nat i in
  let '(f, g) :=
    match (i / 16)%nat with
    | 0%nat => (Z.lor (Z.land b c) (Z.land (not32 b) d), iz)
    | 1%nat => (Z.lor (Z.land d b) (Z.land (not32 d) c), (5 * iz + 1) mod 16)
    | 2%nat => (Z.lxor (Z.lxor b c) d, (3 * iz + 5) mod 16)
    | _ => (Z.lxor c (Z.lor b (not32 d)), (7 * iz) mod 16)
    end in
  let f' := add32 (add32 (add32 f a) (List.nth i K 0)) (List.nth (Z.to_nat g) M 0) in
  (d, add32 b (rotl32 f' (List.nth i shifts 0)), b, c).

Definition compress (st : state) (block : list Z) : state :=
  let M := words 16 block in
  let '(a0, b0, c0, d0) := st in
  let '(a, b, c, d) := fold_left (step M) (seq 0 64) st in
  (add32 a0 a, add32 b0 b, add32 c0 c, add32 d0 d).

Definition le_bytes (n : nat) (x : Z) : list Z :=
  map (fun i => Z.shiftr x (8 * Z.of_nat i) mod 256) (seq 0 n).

Definition pad (msg : list Z) : list Z :=
  let len := length msg in
  msg ++ [0x80] ++ repeat 0 ((119 - len mod 64) mod 64)%nat
      ++ le_bytes 8 ((8 * Z.of_nat len) mod 2 ^ 64).

Fixpoint blocks (n : nat) (bs : list Z) (st : state) : state :=
  match n with
  | O => st
  | S n' => blocks n' (drop 64 bs) (compress st (take 64 bs))
  end.

Definition digest (msg : list Z) : list Z :=
  let p := pad msg in
  let '(a, b, c, d) := blocks (length p / 64) p init in
  le_bytes 4 a ++ le_bytes 4 b ++ le_bytes 4 c ++ le_bytes 4 d.

Definition hex_digit (n : Z) : ascii :=
  List.nth (Z.to_nat (n mod 16))
    (list_ascii_of_string "0123456789abcdef") "0"%char.

Definition hex_byte (b : Z) : string :=
  String (hex_digit (b / 16)) (String (hex_digit b) EmptyString).

Definition is_hex (c : ascii) : bool :=
  (PyStr.is_digit c || PyStr.in_range 97 102 c)%bool.

Definition encode (text : string) : list Z :=
  map (fun c => Z.of_N (N_of_ascii c)) (list_ascii_of_string text).

(** [hashlib.md5(text.encode('utf-8')).hexdigest()] *)
Definition hexdigest (text : string) : string :=
  PyStr.join (map hex_byte (digest (encode text))).

End MD5.

(** ** [sanitize_for_latex] and [escape_latex] *)

(** [re.sub(r'[^a-zA-Z0-9]', '', text)] *)
Definition re_sub_non_alnum (text : string) : string :=
  PyStr.filter_chars PyStr.is_alnum text.

Definition sanitize_for_latex (text : string) : string :=
  let sanitized := re_sub_non_alnum text in
  if PyStr.is_empty sanitized
  then "layout" +:+ PyStr.take 8 (MD5.hexdigest text)
  else sanitized.

Definition replacements : gmap ascii string :=
  list_to_map
    [ ("\"%char, "\textbackslash{}");
      ("&"%char, "\&");
      ("%"%char, "\%");
      ("$"%char, "\$");
      ("#"%char, "\#");
      ("_"%char, "\_");
      ("{"%char, "\{");
      ("}"%char, "\}");
      ("~"%char, "\textasciitilde{}");
      ("^"%char, "\textasciicircum{}") ].

(** [replacements.get(ch, ch)] *)
Definition replacements_get (ch : ascii) : string :=
  default (String ch EmptyString) (replacements !! ch).

Definition escape_latex (text : option string) : string :=
  match text with
  | None => ""
  | Some t => PyStr.join_map replacements_get t
  end.

(** ** XML documents as [xml.etree.ElementTree] presents them *)

Module ET.

Inductive element : Type :=
| Element (tag : string) (attrib : list (string * string))
          (text : option string) (children : list element).

Definition tag (e : element) : string :=
  match e with Element t _ _ _ => t end.
Definition attrib (e : element) : list (string * string) :=
  match e with Element _ a _ _ => a end.
Definition text (e : element) : option string :=
  match e with Element _ _ t _ => t end.
Definition children (e : element) : list element :=
  match e with Element _ _ _ c => c end.

(** [e.get(key)] *)
Fixpoint lookup_attr (key : string) (l : list (string * string)) : option string :=
  match l with
  | [] => None
  | (k, v) :: l' => if String.eqb k key then Some v else lookup_attr key l'
  end.

Definition get (e : element) (key : string) : option string :=
  lookup_attr key (attrib e).

(** [e.iter()]: the element and its descendants in document order. *)
Fixpoint iter (e : element) : list element :=
  match e with
  | Element _ _ _ cs =>
      e :: (fix go (l : list element) : list element :=
              match l with
              | [] => []
              | c :: l' => iter c ++ go l'
              end) cs
  end.

Definition descendants (e : element) : list element :=
  flat_map iter (children e).

Definition has_tag (t : string) (e : element) : bool := String.eqb (tag e) t.

(** [e.findall('.//t')] *)
Definition findall_desc (t : string) (e : element) : list element :=
  List.filter (has_tag t) (descendants e).

(** [e.findall('t')] *)
Definition findall_child (t : string) (e : element) : list element :=
  List.filter (has_tag t) (children e).

(** [e.find('.//t')] *)
Definition find_desc (t : string) (e : element) : option element :=
  head (findall_desc t e).

(** [e.find('.//t/u')] *)
Definition find_desc_child (t u : string) (e : element) : option element :=
  head (flat_map (findall_child u) (findall_desc t e)).

(** A file handed to [ET.parse]: either the parser raises on it, or it
    yields a tree with this root. *)
Inductive xml_file : Type :=
| Malformed
| Document (root : element).

(** [ET.parse(f).getroot()] *)
Definition parse (f : xml_file) : result element :=
  match f with
  | Malformed => Err ParseError
  | Document root => OK root
  end.

End ET.

(** Qualified names, [{namespace}local]. *)
Definition qname (ns local : string) : string := "{" +:+ ns +:+ "}" +:+ local.

Definition ns_p : string := "http://schemas.openxmlformats.org/presentationml/2006/main".
Definition ns_a : string := "http://schemas.openxmlformats.org/drawingml/2006/main".
Definition ns_r : string :=
  "http://schemas.openxmlformats.org/officeDocument/2006/relationships".
Definition ns_rel : string :=
  "http://schemas.openxmlformats.org/package/2006/relationships".

(** ** The extracted archive *)

Record ppt_dir : Type := {
  (** [ppt/slides]: [None] when the directory does not exist, else its
      entries in the order the directory lists them. *)
  slides_listing : option (list (string * ET.xml_file));
  (** [ppt/slides/_rels], by file name. *)
  slides_rels : gmap string ET.xml_file;
  (** [ppt/presentation.xml] *)
  presentation_xml : option ET.xml_file
}.

(** ** Slide records *)

Module Position.
Record t : Type := { x : Z; y : Z; width : Z; height : Z }.
Definition zero : t := {| x := 0; y := 0; width := 0; height := 0 |}.
End Position.

Record image : Type := { name : string; position : Position.t }.

Record slide_info : Type := {
  number : string;
  images : list image;
  title : string;
  texts : list string
}.

Definition set_title (s : string) (i : slide_info) : slide_info :=
  {| number := number i; images := images i; title := s; texts := texts i |}.

Definition append_text (s : string) (i : slide_info) : slide_info :=
  {| number := number i; images := images i; title := title i;
     texts := texts i ++ [s] |}.

Definition append_images (l : list image) (i : slide_info) : slide_info :=
  {| number := number i; images := images i ++ l; title := title i;
     texts := texts i |}.

(** ** [parse_slides_for_content] *)

(** [fnmatch]: the pattern [slide*.xml] *)
Definition glob_slide_xml (name : string) : bool :=
  (PyStr.startswith name "slide" && PyStr.endswith (PyStr.drop 5 name) ".xml")%bool.

(** [\d+] at the start of [s]: the longest run of decimal digits and the
    rest of [s].  A digit takes at least one byte, so a [fuel] of the length
    of [s] is enough. *)
Fixpoint span_digits_fuel (fuel : nat) (s : string) : string * string :=
  match fuel with
  | O => (EmptyString, s)
  | S fuel' =>
      match PyStr.leading_digit s with
      | Some d =>
          let '(ds, rest) :=
            span_digits_fuel fuel' (PyStr.drop (String.length (fst d)) s) in
          (fst d +:+ ds, rest)
      | None => (EmptyString, s)
      end
  end.

Definition span_digits (s : string) : string * string :=
  span_digits_fuel (String.length s) s.

(** The pattern [slide(\d+)\.xml] matched at the start of [s]; the digits
    are group 1. *)
Definition match_slide_here (s : string) : option string :=
  if PyStr.startswith s "slide"
  then let '(ds, rest) := span_digits (PyStr.drop 5 s) in
       if (negb (PyStr.is_empty ds) && PyStr.startswith rest ".xml")%bool
       then Some ds else None
  else None.

(** [re.search(r'slide(\d+)\.xml', s)]: the leftmost match, [None] without one. *)
Fixpoint re_search_slide (s : string) : option string :=
  match match_slide_here s with
  | Some ds => Some ds
  | None =>
      match s with
      | EmptyString => None
      | String _ r => re_search_slide r
      end
  end.

(** [re.search(...).group(1)]: [None] has no [group]. *)
Definition slide_group1 (name : string) : result string :=
  match re_search_slide name with
  | Some ds => OK ds
  | None => Err AttributeError
  end.

(** The sort key, [int(re.search(...).group(1))]. *)
Definition slide_key (name : string) : result Z :=
  ds ← slide_group1 name;
  match PyStr.int ds with
  | Some k => OK k
  | None => Err ValueError
  end.

Section StableSort.
Context {A : Type}.

Fixpoint insert_by_key (kx : Z * A) (l : list (Z * A)) : list (Z * A) :=
  match l with
  | [] => [kx]
  | ky :: l' =>
      if (fst ky <? fst kx)%Z then ky :: insert_by_key kx l' else kx :: ky :: l'
  end.

(** [sorted(l, key=...)] on the keyed list: ascending, equal keys keep
    their order. *)
Definition sorted_by_key (l : list (Z * A)) : list (Z * A) :=
  fold_right insert_by_key [] l.
End StableSort.

(** The relationship table: a [dict] from [r.get('Id')] to [r.get('Target')],
    later entries replacing earlier ones. *)
Definition build_rels (rel_root : ET.element) : gmap (option string) (option string) :=
  fold_left (fun m r => <[ET.get r "Id" := ET.get r "Target"]> m)
            (ET.findall_child (qname ns_rel "Relationship") rel_root) ∅.

(** One pass of the loop over [p:sp] shapes. *)
Definition scan_shape (info : slide_info) (sp : ET.element) : slide_info :=
  let ph := ET.find_desc_child (qname ns_p "nvPr") (qname ns_p "ph") sp in
  let ph_type := ph ≫= (fun e => ET.get e "type") in
  let texts :=
    omap (fun t => match ET.text t with
                   | Some s => if PyStr.is_empty s then None else Some s
                   | None => None
                   end)
         (ET.findall_desc (qname ns_a "t") sp) in
  match texts with
  | [] => info
  | _ =>
      let text := PyStr.strip (PyStr.join texts) in
      if PyStr.is_empty text then info
      else
        match ph_type with
        | Some "title" | Some "ctrTitle" =>
            if PyStr.startswith (title info) "Slide "
            then set_title text info
            else info
        | Some "subtitle" => info
        | _ => append_text text info
        end
  end.

(** [int(e.get(key, dflt))] *)
Definition int_attr (e : ET.element) (key : string) (dflt : Z) : result Z :=
  match ET.get e key with
  | None => OK dflt
  | Some s =>
      match PyStr.int s with
      | Some z => OK z
      | None => Err ValueError
      end
  end.

Definition read_position (pic : ET.element) : result Position.t :=
  match ET.find_desc (qname ns_a "xfrm") pic with
  | None => OK Position.zero
  | Some xfrm =>
      let off := ET.find_desc (qname ns_a "off") xfrm in
      let ext := ET.find_desc (qname ns_a "ext") xfrm in
      '(px, py) ← match off with
                  | Some o => vx ← int_attr o "x" 0; vy ← int_attr o "y" 0; OK (vx, vy)
                  | None => OK (0, 0)
                  end;
      '(pw, ph) ← match ext with
                  | Some e => vw ← int_attr e "cx" 0; vh ← int_attr e "cy" 0; OK (vw, vh)
                  | None => OK (0, 0)
                  end;
      OK {| Position.x := px; Position.y := py;
            Position.width := pw; Position.height := ph |}
  end.

(** One pass of the loop over [p:pic] pictures: the image to append, if any. *)
Definition scan_picture (rels : gmap (option string) (option string))
    (pic : ET.element) : result (option image) :=
  let blip :=
    match ET.find_desc_child (qname ns_p "blipFill") (qname ns_a "blip") pic with
    | Some b => Some b
    | None => ET.find_desc (qname ns_a "blip") pic
    end in
  match blip with
  | None => OK None
  | Some b =>
      let rId := ET.get b (qname ns_r "embed") in
      match rels !! rId with
      | None => OK None
      | Some target =>
          tgt ← match target with
                | Some s => OK s
                | None => Err AttributeError
                end;
          let img_path := PyStr.split_last "/" tgt in
          let lower_img := PyStr.lower img_path in
          let img_path :=
            if PyStr.endswith lower_img ".jfif"
            then PyStr.drop_last 5 img_path +:+ ".jpg"
            else img_path in
          pos ← read_position pic;
          OK (Some {| name := img_path; position := pos |})
      end
  end.

(** The loop over pictures: the images appended before the loop ended or
    raised, and how it ended. *)
Fixpoint scan_pictures (rels : gmap (option string) (option string))
    (pics : list ET.element) : list image * result unit :=
  match pics with
  | [] => ([], OK ())
  | pic :: rest =>
      match scan_picture rels pic with
      | Err e => ([], Err e)
      | OK oi =>
          let '(imgs, r) := scan_pictures rels rest in
          (match oi with Some i => i :: imgs | None => imgs end, r)
      end
  end.

(** The body of the [try] block: the record as the block left it, and how
    the block ended. *)
Definition try_slide (slide_file : ET.xml_file)
    (rels : gmap (option string) (option string)) (info : slide_info)
  : slide_info * result unit :=
  match ET.parse slide_file with
  | Err e => (info, Err e)
  | OK root =>
      let info := fold_left scan_shape (ET.findall_desc (qname ns_p "sp") root) info in
      let '(imgs, r) := scan_pictures rels (ET.findall_desc (qname ns_p "pic") root) in
      (append_images imgs info, r)
  end.

Definition default_slide_info (slide_num : string) : slide_info :=
  {| number := slide_num; images := []; title := "Slide " +:+ slide_num; texts := [] |}.

(** The body of the loop over slide files. *)
Definition process_slide (d : ppt_dir) (slide_file : string * ET.xml_file)
  : result slide_info :=
  slide_num ← slide_group1 (fst slide_file);
  let rels_file := slides_rels d !! (fst slide_file +:+ ".rels") in
  let info := default_slide_info slide_num in
  match rels_file with
  | None => OK info
  | Some rf =>
      rel_root ← ET.parse rf;
      let rels := build_rels rel_root in
      (* try: ... except Exception: pass *)
      OK (fst (try_slide (snd slide_file) rels info))
  end.

Definition parse_slides_for_content (d : ppt_dir) : result (list slide_info) :=
  match slides_listing d with
  | None => OK []
  | Some listing =>
      let globbed := List.filter (fun f => glob_slide_xml (fst f)) listing in
      keyed ← mapM (fun f => k ← slide_key (fst f); OK (k, f)) globbed;
      let slide_files := map snd (sorted_by_key keyed) in
      mapM (process_slide d) slide_files
  end.

(** ** Floats: binary64, as the interpreter computes them *)

Module Float.

Definition prec : Z := 53.
Definition emax : Z := 1024.

(** An integer as an exact (unrounded) operand. *)
Definition of_int (z : Z) : spec_float :=
  match z with
  | Z0 => S754_zero false
  | Zpos p => S754_finite false p 0
  | Zneg p => S754_finite true p 0
  end.

(** [a / b] on two [int]s: the quotient rounded to nearest-even;
    [ZeroDivisionError] for a zero divisor, [OverflowError] when the
    rounded quotient is out of range. *)
Definition true_div (a b : Z) : result spec_float :=
  if (b =? 0)%Z then Err ZeroDivisionError
  else
    match SFdiv prec emax (of_int a) (of_int b) with
    | S754_infinity _ => Err OverflowError
    | q => OK q
    end.

(** The literal [m / 10^k] written in decimal, e.g. [0.02] is [decimal 2 2]. *)
Definition decimal (m : Z) (k : Z) : spec_float :=
  SFdiv prec emax (of_int m) (of_int (10 ^ k)).

Definition sub (a b : spec_float) : spec_float := SFsub prec emax a b.

(** [a <= b] and [a >= b] *)
Definition le (a b : spec_float) : bool := SFleb a b.
Definition ge (a b : spec_float) : bool := SFleb b a.

End Float.

(** ** [convert_ppt_to_beamer_position] *)

Record pos_rel : Type := {
  x_rel : spec_float;
  y_rel : spec_float;
  width_rel : spec_float;
  height_rel : spec_float
}.

Definition default_paper_width : Z := 12192000.
Definition default_paper_height : Z := 6858000.

Definition convert_ppt_to_beamer_position (position : Position.t)
    (paper_width paper_height : Z) : result pos_rel :=
  xr ← Float.true_div (Position.x position) paper_width;
  yr ← Float.true_div (Position.y position) paper_height;
  wr ← Float.true_div (Position.width position) paper_width;
  hr ← Float.true_div (Position.height position) paper_height;
  OK {| x_rel := xr; y_rel := yr; width_rel := wr; height_rel := hr |}.

(** ** [parse_presentation_xml] *)

Module Size.
Record t : Type := { width : Z; height : Z }.
End Size.

Definition parse_presentation_xml (d : ppt_dir) : Size.t :=
  let size := {| Size.width := default_paper_width;
                 Size.height := default_paper_height |} in
  match presentation_xml d with
  | None => size
  | Some pres_xml =>
      (* try: ... except: pass; the record keeps what was stored before
         the exception *)
      match ET.parse pres_xml with
      | Err _ => size
      | OK root =>
          match ET.find_desc (qname ns_p "sldSz") root with
          | None => size
          | Some sldSz =>
              match int_attr sldSz "cx" default_paper_width with
              | Err _ => size
              | OK w =>
                  let size := {| Size.width := w; Size.height := Size.height size |} in
                  match int_attr sldSz "cy" default_paper_height with
                  | Err _ => size
                  | OK h => {| Size.width := Size.width size; Size.height := h |}
                  end
              end
          end
      end
  end.

(** ** [is_full_slide_background] *)

Definition default_tol : spec_float := Float.decimal 2 2.
Definition one : spec_float := Float.decimal 1 0.

Definition is_full_slide_background (p : pos_rel) (tol : spec_float) : bool :=
  (Float.le (x_rel p) tol
   && Float.le (y_rel p) tol
   && Float.ge (width_rel p) (Float.sub one tol)
   && Float.ge (height_rel p) (Float.sub one tol))%bool.

(** ** [generate_main_tex] *)

Definition nl : string := String (ascii_of_N 10) EmptyString.

(** [escape_latex(title_info.get(key, ''))] *)
Definition title_field (title_info : gmap string (option string)) (key : string)
  : string :=
  escape_latex (default (Some "") (title_info !! key)).

Definition preamble (title_info : gmap string (option string)) : list string :=
  [ "\documentclass{beamer}" +:+ nl;
    "\input{../0-package.tex}" +:+ nl;
    "\input{../0-macro.tex}" +:+ nl +:+ nl;
    "\author{" +:+ title_field title_info "author" +:+ "}" +:+ nl;
    "\title{" +:+ title_field title_info "title" +:+ "}" +:+ nl;
    "\subtitle{" +:+ title_field title_info "subtitle" +:+ "}" +:+ nl;
    "\institute{" +:+ title_field title_info "institute" +:+ "}" +:+ nl;
    "\date{" +:+ title_field title_info "date" +:+ "}" +:+ nl;
    nl;
    "\begin{document}" +:+ nl +:+ nl;
    "\kaishu" +:+ nl;
    "\begin{frame}" +:+ nl;
    "    \titlepage" +:+ nl;
    "    \begin{figure}[htpb]" +:+ nl;
    "        \begin{center}" +:+ nl;
    "            \includegraphics[width=0.618\linewidth]{../pic/szu_logo.png}" +:+ nl;
    "        \end{center}" +:+ nl;
    "    \end{figure}" +:+ nl;
    "\end{frame}" +:+ nl +:+ nl ].

Definition includegraphics (img_path : string) : list string :=
  [ "  \begin{center}" +:+ nl;
    "    \includegraphics[width=0.85\linewidth]{" +:+ img_path +:+ "}" +:+ nl;
    "  \end{center}" +:+ nl ].

(** The name the emitter references: the [.emf] rewriting. *)
Definition emf_to_pdf (img_path : string) : string :=
  if PyStr.endswith (PyStr.lower img_path) ".emf"
  then PyStr.replace img_path ".emf" ".pdf"
  else img_path.

(** One pass of the loop over a slide's images: what it writes.  (The
    assignment after the [continue] of the TIFF test is never reached.) *)
Definition emit_image (img : image) (paper_width paper_height : Z)
  : result (list string) :=
  pos ← convert_ppt_to_beamer_position (position img) paper_width paper_height;
  let img_path := emf_to_pdf (name img) in
  if (PyStr.endswith (PyStr.lower img_path) ".tiff"
      || PyStr.endswith (PyStr.lower img_path) ".tif")%bool
  then OK []
  else if is_full_slide_background pos default_tol
  then OK []
  else OK (includegraphics img_path).

(** What a loop wrote before it ended or raised, and how it ended. *)
Definition written : Type := list string * result unit.

Fixpoint emit_images (imgs : list image) (paper_width paper_height : Z) : written :=
  match imgs with
  | [] => ([], OK ())
  | img :: rest =>
      match emit_image img paper_width paper_height with
      | Err e => ([], Err e)
      | OK ls =>
          let '(more, r) := emit_images rest paper_width paper_height in
          (ls ++ more, r)
      end
  end.

Definition itemize (ts : list string) : list string :=
  match ts with
  | [] => []
  | _ =>
      ["  \begin{itemize}" +:+ nl]
        ++ map (fun t => "    \item " +:+ escape_latex (Some t) +:+ nl) ts
        ++ ["  \end{itemize}" +:+ nl]
  end.

Definition emit_slide (slide : slide_info) (paper_width paper_height : Z) : written :=
  if String.eqb (number slide) "1" then ([], OK ())
  else
    let head :=
      [ "% Slide " +:+ number slide +:+ nl;
        "\begin{frame}" +:+ "{" +:+ escape_latex (Some (title slide)) +:+ "}" +:+ nl ] in
    let '(imgs, r) := emit_images (images slide) paper_width paper_height in
    match r with
    | OK _ => (head ++ itemize (texts slide) ++ imgs ++ ["\end{frame}" +:+ nl +:+ nl], OK ())
    | Err e => (head ++ itemize (texts slide) ++ imgs, Err e)
    end.

Fixpoint emit_slides (slides : list slide_info) (paper_width paper_height : Z)
  : written :=
  match slides with
  | [] => ([], OK ())
  | slide :: rest =>
      let '(ls, r) := emit_slide slide paper_width paper_height in
      match r with
      | Err e => (ls, Err e)
      | OK _ =>
          let '(more, r') := emit_slides rest paper_width paper_height in
          (ls ++ more, r')
      end
  end.

(** The text written to [overview_eng.tex], and how the function ended. *)
Definition generate_main_tex (slides_content : list slide_info)
    (paper_width paper_height : Z) (title_info : gmap string (option string))
  : written :=
  let '(body, r) := emit_slides slides_content paper_width paper_height in
  match r with
  | OK _ => (preamble title_info ++ body ++ ["\end{document}" +:+ nl], OK ())
  | Err e => (preamble title_info ++ body, Err e)
  end.

(** ** The escape table, written out character by character *)

(** The image of one character under LaTeX escaping, as the specification
    lists it: ten characters have an escape sequence, every other character
    is its own image. *)
Definition latex_image (c : ascii) : string :=
  if Ascii.eqb c "\" then "\textbackslash{}"
  else if Ascii.eqb c "&" then "\&"
  else if Ascii.eqb c "%" then "\%"
  else if Ascii.eqb c "$" then "\$"
  else if Ascii.eqb c "#" then "\#"
  else if Ascii.eqb c "_" then "\_"
  else if Ascii.eqb c "{" then "\{"
  else if Ascii.eqb c "}" then "\}"
  else if Ascii.eqb c "~" then "\textasciitilde{}"
  else if Ascii.eqb c "^" then "\textasciicircum{}"
  else String c EmptyString.

(** ** Sample documents *)

Module Sample.
Import ET.

Definition ph (type : string) : element :=
  Element (qname ns_p "ph") [("type", type)] None [].

(** A [p:sp] shape with an optional placeholder type and one text run. *)
Definition shape (ph_type : option string) (txt : string) : element :=
  Element (qname ns_p "sp") [] None
    [ Element (qname ns_p "nvSpPr") [] None
        [ Element (qname ns_p "nvPr") [] None
            (match ph_type with Some t => [ph t] | None => [] end) ];
      Element (qname ns_p "txBody") [] None
        [ Element (qname ns_a "p") [] None
            [ Element (qname ns_a "r") [] None
                [ Element (qname ns_a "t") [] (Some txt) [] ] ] ] ].

(** A [p:pic] picture with its embed id, offset and extent. *)
Definition picture (rId x y cx cy : string) : element :=
  Element (qname ns_p "pic") [] None
    [ Element (qname ns_p "blipFill") [] None
        [ Element (qname ns_a "blip") [(qname ns_r "embed", rId)] None [] ];
      Element (qname ns_p "spPr") [] None
        [ Element (qname ns_a "xfrm") [] None
            [ Element (qname ns_a "off") [("x", x); ("y", y)] None [];
              Element (qname ns_a "ext") [("cx", cx); ("cy", cy)] None [] ] ] ].

Definition slide (content : list element) : xml_file :=
  Document
    (Element (qname ns_p "sld") [] None
       [ Element (qname ns_p "cSld") [] None
           [ Element (qname ns_p "spTree") [] None content ] ]).

Definition relationship (entry : string * string) : element :=
  Element (qname ns_rel "Relationship")
    [("Id", fst entry); ("Target", snd entry)] None [].

Definition rels (entries : list (string * string)) : xml_file :=
  Document (Element (qname ns_rel "Relationships") [] None (map relationship entries)).

Definition presentation (cx cy : string) : xml_file :=
  Document
    (Element (qname ns_p "presentation") [] None
       [ Element (qname ns_p "sldSz") [("cx", cx); ("cy", cy)] None [] ]).

(** Two slides; the relationships of slide 2 do not parse. *)
Definition broken_rels : ppt_dir :=
  {| slides_listing :=
       Some [ ("slide1.xml", slide [shape (Some "title") "Intro"]);
              ("slide2.xml", slide [shape (Some "title") "Methods"]) ];
     slides_rels :=
       <["slide1.xml.rels" := rels []]> (<["slide2.xml.rels" := Malformed]> ∅);
     presentation_xml := None |}.

(** Two slides; slide 2 does not parse, its relationships do. *)
Definition broken_slide : ppt_dir :=
  {| slides_listing :=
       Some [ ("slide2.xml", Malformed);
              ("slide1.xml", slide [shape (Some "title") "Intro"]) ];
     slides_rels :=
       <["slide1.xml.rels" := rels []]> (<["slide2.xml.rels" := rels []]> ∅);
     presentation_xml := None |}.



(** One slide with two title shapes, the first reading "Slide Rules". *)
Definition two_titles : ppt_dir :=
  {| slides_listing :=
       Some [ ("slide2.xml",
               slide [ shape (Some "title") "Slide Rules";
                       shape (Some "ctrTitle") "Second" ]) ];
     slides_rels := <["slide2.xml.rels" := rels []]> ∅;
     presentation_xml := None |}.

(** A slides directory that also holds [slidefoo.xml]. *)
Definition stray_file : ppt_dir :=
  {| slides_listing :=
       Some [ ("slide1.xml", slide [shape (Some "title") "Intro"]);
              ("slidefoo.xml", slide []) ];
     slides_rels := <["slide1.xml.rels" := rels []]> ∅;
     presentation_xml := None |}.

(** Slides listed out of order, with a picture on slide 2. *)
Definition deck : ppt_dir :=
  {| slides_listing :=
       Some [ ("slide10.xml", slide [shape None "Last"]);
              ("slide2.xml",
               slide [ shape (Some "title") "Methods";
                       shape (Some "body") "Point A";
                       picture "rId2" "600000" "1500000" "9000000" "4000000" ]);
              ("notes.txt", Malformed);
              ("slide1.xml", slide [shape (Some "ctrTitle") "Intro"]) ];
     slides_rels :=
       <["slide1.xml.rels" := rels []]>
         (<["slide2.xml.rels" := rels [("rId2", "../media/image1.JFIF")]]>
            (<["slide10.xml.rels" := rels []]> ∅));
     presentation_xml := Some (presentation "12192000" "6858000") |}.

Definition chart_emf : image :=
  {| name := "CHART.EMF";
     position := {| Position.x := 600000; Position.y := 1500000;
                    Position.width := 9000000; Position.height := 4000000 |} |}.

Definition scan_tiff : image :=
  {| name := "Scan.TIFF";
     position := {| Position.x := 600000; Position.y := 1500000;
                    Position.width := 9000000; Position.height := 4000000 |} |}.

Definition backdrop : image :=
  {| name := "backdrop.png";
     position := {| Position.x := 0; Position.y := 68580;
                    Position.width := 12192000; Position.height := 6789420 |} |}.


End Sample.

(** ** Statements read off the specification *)


(** "With both declared dimensions positive the conversion is total": every
    position converts. *)
Definition conversion_total_for_positive_size : Prop :=
  forall (position : Position.t) (paper_width paper_height : Z),
    0 < paper_width -> 0 < paper_height ->
    exists p : pos_rel,
      convert_ppt_to_beamer_position position paper_width paper_height = OK p.

(** Coordinates whose quotient by a non-zero integer is in the range of a
    float. *)
Definition in_float_range (position : Position.t) : Prop :=
  Z.abs (Position.x position) < 2 ^ 1023
  /\ Z.abs (Position.y position) < 2 ^ 1023
  /\ Z.abs (Position.width position) < 2 ^ 1023
  /\ Z.abs (Position.height position) < 2 ^ 1023.

(** ** [parse_title_page_info] *)

(** The text of a shape as both shape loops compute it: the non-empty runs
    joined and stripped; [None] where the loop [continue]s. *)
Definition shape_text (sp : ET.element) : option string :=
  let texts :=
    omap (fun t => match ET.text t with
                   | Some s => if PyStr.is_empty s then None else Some s
                   | None => None
                   end)
         (ET.findall_desc (qname ns_a "t") sp) in
  match texts with
  | [] => None
  | _ =>
      let text := PyStr.strip (PyStr.join texts) in
      if PyStr.is_empty text then None else Some text
  end.

(** The dictionary the function starts from. *)
Definition empty_title_info : gmap string (option string) :=
  <["title" := Some ""]>
    (<["subtitle" := Some ""]>
       (<["author" := Some ""]>
          (<["institute" := Some ""]> (<["date" := Some ""]> ∅)))).

(** [not info[key]]: the value is empty.  The dictionary holds its five keys
    throughout, so the lookup itself cannot fail. *)
Definition unset (info : gmap string (option string)) (key : string) : bool :=
  match info !! key with
  | Some (Some s) => PyStr.is_empty s
  | _ => true
  end.

(** One pass of the loop over the shapes of the first slide. *)
Definition scan_title_shape (info : gmap string (option string)) (sp : ET.element)
  : gmap string (option string) :=
  match ET.find_desc_child (qname ns_p "nvPr") (qname ns_p "ph") sp with
  | None => info
  | Some ph =>
      let ph_type := default "" (ET.get ph "type") in
      match shape_text sp with
      | None => info
      | Some text =>
          if (String.eqb ph_type "title" && unset info "title")%bool
          then <["title" := Some text]> info
          else if (String.eqb ph_type "subtitle" && unset info "subtitle")%bool
          then <["subtitle" := Some text]> info
          else if (String.eqb ph_type "ctrTitle" && unset info "title")%bool
          then <["title" := Some text]> info
          else if String.eqb ph_type "body"
          then
            if unset info "author" then <["author" := Some text]> info
            else if unset info "institute" then <["institute" := Some text]> info
            else if unset info "date" then <["date" := Some text]> info
            else info
          else info
      end
  end.

(** A file of a directory listing, by name. *)
Fixpoint lookup_file (name : string) (listing : list (string * ET.xml_file))
  : option ET.xml_file :=
  match listing with
  | [] => None
  | (n, f) :: rest => if String.eqb n name then Some f else lookup_file name rest
  end.

(** [ppt/slides/slide1.xml], if it exists. *)
Definition slide1_xml (d : ppt_dir) : option ET.xml_file :=
  match slides_listing d with
  | None => None
  | Some listing => lookup_file "slide1.xml" listing
  end.

Definition parse_title_page_info (d : ppt_dir) : gmap string (option string) :=
  let info := empty_title_info in
  match slide1_xml d with
  | None => info
  | Some slide_path =>
      (* try: ... except Exception: pass *)
      match ET.parse slide_path with
      | Err _ => info
      | OK root =>
          fold_left scan_title_shape (ET.findall_desc (qname ns_p "sp") root) info
      end
  end.

(** The value of a field, as [generate_main_tex] reads it. *)
Definition title_value (info : gmap string (option string)) (key : string) : string :=
  match info !! key with
  | Some (Some s) => s
  | _ => ""
  end.

(** The placeholder type of a shape as the title-page loop reads it:
    [None] without a placeholder, the empty text without a [type]. *)
Definition placeholder_type (sp : ET.element) : option string :=
  option_map (fun ph => default "" (ET.get ph "type"))
             (ET.find_desc_child (qname ns_p "nvPr") (qname ns_p "ph") sp).

(** The text of a shape whose placeholder type is one of [types]. *)
Definition typed_text (types : list string) (sp : ET.element) : option string :=
  match placeholder_type sp with
  | Some ty => if existsb (String.eqb ty) types then shape_text sp else None
  | None => None
  end.

(** The texts of the shapes with a placeholder type of [types], in document
    order. *)
Definition typed_texts (types : list string) (shapes : list ET.element)
  : list string :=
  omap (typed_text types) shapes.

(** The five values of the dictionary. *)
Definition title_page_view (info : gmap string (option string))
  : string * string * string * string * string :=
  (title_value info "title", title_value info "subtitle", title_value info "author",
   title_value info "institute", title_value info "date").

(** The five values as the shapes determine them. *)
Definition title_page_of_shapes (shapes : list ET.element)
  : string * string * string * string * string :=
  (List.nth 0 (typed_texts ["title"; "ctrTitle"] shapes) "",
   List.nth 0 (typed_texts ["subtitle"] shapes) "",
   List.nth 0 (typed_texts ["body"] shapes) "",
   List.nth 1 (typed_texts ["body"] shapes) "",
   List.nth 2 (typed_texts ["body"] shapes) "").

(** ** [main]: the media files and the processing of the archive *)

(** The name a media file gets in [fig/]. *)
Definition media_target_name (name : string) : string :=
  if PyStr.endswith (PyStr.lower name) ".jfif"
  then PyStr.drop_last 5 name +:+ ".jpg"
  else name.

Section Media.
Context {A : Type}.

(** One pass of the loop over [ppt/media]: an entry is a name and, for a
    regular file, its content; [shutil.copy2] replaces a file of that name. *)
Definition copy_media_file (fig_dir : gmap string A) (entry : string * option A)
  : gmap string A :=
  match snd entry with
  | Some content => <[media_target_name (fst entry) := content]> fig_dir
  | None => fig_dir
  end.

(** The loop; [None] when [ppt/media] does not exist. *)
Definition copy_media (media : option (list (string * option A)))
    (fig_dir : gmap string A) : gmap string A :=
  match media with
  | None => fig_dir
  | Some entries => fold_left copy_media_file entries fig_dir
  end.

(** The block of [main] that processes the extracted archive: the files of
    [fig/] and the text written to [overview_eng.tex].  An exception of
    [parse_slides_for_content] leaves [main] before anything is copied or
    written. *)
Definition process_archive (d : ppt_dir) (media : option (list (string * option A)))
    (fig_dir : gmap string A) : result (gmap string A * written) :=
  let slide_size := parse_presentation_xml d in
  let paper_width := Size.width slide_size in
  let paper_height := Size.height slide_size in
  slides_content ← parse_slides_for_content d;
  let title_info := parse_title_page_info d in
  let fig_dir := copy_media media fig_dir in
  OK (fig_dir, generate_main_tex slides_content paper_width paper_height title_info).

End Media.

(** ** Predicates on records and texts *)

(** A record with a non-empty title and no empty text. *)
Definition has_content (info : slide_info) : Prop :=
  PyStr.is_empty (title info) = false
  /\ Forall (fun t => PyStr.is_empty t = false) (texts info).

(** The last line of a complete document. *)
Definition end_document : string := "\end{document}" +:+ nl.

(** No character of [s] is [sep]. *)
Fixpoint lacks (sep : ascii) (s : string) : bool :=
  match s with
  | EmptyString => true
  | String c r => (negb (Ascii.eqb c sep) && lacks sep r)%bool
  end.

(** Every character of [s] satisfies [p]. *)
Fixpoint all_chars (p : ascii -> bool) (s : string) : bool :=
  match s with
  | EmptyString => true
  | String c r => (p c && all_chars p r)%bool
  end.

(** The characters LaTeX reads as syntax even in running text. *)
Definition needs_backslash (c : ascii) : bool :=
  (Ascii.eqb c "&" || Ascii.eqb c "%" || Ascii.eqb c "$"
   || Ascii.eqb c "#" || Ascii.eqb c "_")%bool.

(** In [s], read after a character that is a backslash or not ([after]),
    every [&], [%], [$], [#] and [_] directly follows a backslash, and there
    is no [~] and no [^]. *)
Fixpoint guarded (after : bool) (s : string) : bool :=
  match s with
  | EmptyString => true
  | String c r =>
      (negb (Ascii.eqb c "~") && negb (Ascii.eqb c "^")
       && (negb (needs_backslash c) || after)
       && guarded (Ascii.eqb c "\") r)%bool
  end.

(** A reader of escaped text, the inverse of [escape_latex] on its outputs:
    after a backslash it looks for the rest of an escape sequence. *)
Definition escape_tails : list (string * ascii) :=
  [ ("textbackslash{}", "\"%char); ("&", "&"%char); ("%", "%"%char);
    ("$", "$"%char); ("#", "#"%char); ("_", "_"%char); ("{", "{"%char);
    ("}", "}"%char); ("textasciitilde{}", "~"%char);
    ("textasciicircum{}", "^"%char) ].

Fixpoint find_tail (tails : list (string * ascii)) (s : string)
  : option (string * ascii) :=
  match tails with
  | [] => None
  | t :: rest => if PyStr.startswith s (fst t) then Some t else find_tail rest s
  end.

Fixpoint unescape_fuel (fuel : nat) (s : string) : string :=
  match fuel with
  | O => EmptyString
  | S fuel' =>
      match s with
      | EmptyString => EmptyString
      | String c r =>
          if Ascii.eqb c "\"
          then match find_tail escape_tails r with
               | Some t =>
                   String (snd t) (unescape_fuel fuel' (PyStr.drop (String.length (fst t)) r))
               | None => String c (unescape_fuel fuel' r)
               end
          else String c (unescape_fuel fuel' r)
      end
  end.

Definition unescape (s : string) : string := unescape_fuel (String.length s) s.

(** Two texts neither of which is a prefix of the other. *)
Definition diverge (a b : string) : bool :=
  (negb (PyStr.startswith a b) && negb (PyStr.startswith b a))%bool.

(** No text of [l] is a prefix of another. *)
Fixpoint pairwise_diverge (l : list string) : bool :=
  match l with
  | [] => true
  | a :: l' => (forallb (diverge a) l' && pairwise_diverge l')%bool
  end.

(** The encoding of a decimal digit. *)
Definition is_decimal_digit (d : string) : Prop :=
  exists v : Z, In (d, v) PyStr.decimal_digits.

(** A text that is not empty, starts with no blank of [int] and no sign, and
    ends with no blank of [int]. *)
Definition apart_from_blanks (d : string) : bool :=
  (negb (PyStr.is_empty d)
   && forallb (diverge d) (PyStr.int_whitespace ++ ["-"; "+"])
   && forallb (diverge (PyStr.rev d)) (map PyStr.rev PyStr.int_whitespace))%bool.

(** ** More sample documents *)

Module Sample2.
Import ET.

(** A title slide: title, subtitle and four body placeholders, with a shape
    without placeholder in between. *)
Definition title_slide : xml_file :=
  Sample.slide
    [ Sample.shape (Some "ctrTitle") "Intro";
      Sample.shape None "free text";
      Sample.shape (Some "subtitle") "Sub";
      Sample.shape (Some "body") "Dr. X";
      Sample.shape (Some "title") "Ignored";
      Sample.shape (Some "body") "Dept. Y";
      Sample.shape (Some "body") "2024";
      Sample.shape (Some "body") "extra" ].

Definition title_deck : ppt_dir :=
  {| slides_listing :=
       Some [ ("slide2.xml",
               Sample.slide [ Sample.shape (Some "title") "Methods";
                              Sample.shape (Some "body") "Point A";
                              Sample.picture "rId2" "600000" "1500000"
                                             "9000000" "4000000";
                              Sample.picture "rId3" "oops" "0" "1" "1" ]);
              ("slide1.xml", title_slide) ];
     slides_rels :=
       <["slide1.xml.rels" := Sample.rels []]>
         (<["slide2.xml.rels" :=
              Sample.rels [("rId2", "../media/image1.JFIF");
                           ("rId3", "../media/image2.png")]]> ∅);
     presentation_xml := Some (Sample.presentation "12192000" "6858000") |}.

(** The same deck on a presentation that declares width 0. *)
Definition zero_width_deck : ppt_dir :=
  {| slides_listing := slides_listing title_deck;
     slides_rels := slides_rels title_deck;
     presentation_xml := Some (Sample.presentation "0" "6858000") |}.

Definition media : option (list (string * option nat)) :=
  Some [ ("image1.JFIF", Some 1%nat); ("image2.png", Some 2%nat);
         ("thumbs", None) ].

End Sample2.

(** * Properties *)

(** ** The model against the interpreter, on known values *)

Example md5_empty : MD5.hexdigest "" = "d41d8cd98f00b204e9800998ecf8427e".
Proof. vm_compute. reflexivity. Qed.

Example md5_abc : MD5.hexdigest "abc" = "900150983cd24fb0d6963f7d28e17f72".
Proof. vm_compute. reflexivity. Qed.

Example md5_two_blocks :
  MD5.hexdigest "aaaaaaaaaaaaaaaaaaaaaaaaaaaaaaaaaaaaaaaaaaaaaaaaaaaaaaaaaaaaaaaa"
  = "014842d480b571495a4a0363793f7367".
Proof. vm_compute. reflexivity. Qed.

Example true_div_third :
  Float.true_div 1 3 = OK (S754_finite false 6004799503160661 (-54)).
Proof. vm_compute. reflexivity. Qed.

Example true_div_negative_zero : Float.true_div 0 (-5) = OK (S754_zero true).
Proof. vm_compute. reflexivity. Qed.

Example true_div_largest : 
  Float.true_div (2 ^ 1024 - 2 ^ 970 - 1) 1
  = OK (S754_finite false 9007199254740991 971).
Proof. vm_compute. reflexivity. Qed.

Example true_div_subnormal :
  Float.true_div 3 (2 ^ 1075) = OK (S754_finite false 2 (-1074)).
Proof. vm_compute. reflexivity. Qed.

Example int_underscores : PyStr.int " 1_000 " = Some 1000.
Proof. vm_compute. reflexivity. Qed.

Example int_rejects_text : PyStr.int "12a" = None.
Proof. vm_compute. reflexivity. Qed.

(** [int] reads the digits of every script, here ARABIC-INDIC DIGIT THREE
    and FULLWIDTH DIGIT FOUR between a no-break space and an ideographic
    space. *)
Example int_unicode_digits :
  PyStr.int (PyStr.bytes [194; 160; 45; 217; 163; 239; 188; 148; 227; 128; 128]%N)
  = Some (-34).
Proof. vm_compute. reflexivity. Qed.

(** U+001C is a blank for [str.strip] and none for [int]. *)
Example int_separator_is_no_blank :
  PyStr.strip (PyStr.bytes [28; 53]%N) = "5" /\ PyStr.int (PyStr.bytes [28; 53]%N) = None.
Proof. vm_compute. split; reflexivity. Qed.

(** A width that is no number leaves the default size, whatever the height. *)
Example malformed_width_ignored :
  parse_presentation_xml
    {| slides_listing := None; slides_rels := ∅;
       presentation_xml := Some (Sample.presentation "12192000 emu" "0") |}
  = {| Size.width := default_paper_width; Size.height := default_paper_height |}.
Proof. vm_compute. reflexivity. Qed.

Example strip_blanks : PyStr.strip "  Point A   " = "Point A".
Proof. vm_compute. reflexivity. Qed.

Example search_inner_match : re_search_slide "slideXslide2.xml" = Some "2".
Proof. vm_compute. reflexivity. Qed.

(** [\d] matches FULLWIDTH DIGIT TWO, and [int] reads it as 2. *)
Example search_fullwidth_digit :
  re_search_slide ("slide" +:+ PyStr.bytes [239; 188; 146]%N +:+ ".xml")
  = Some (PyStr.bytes [239; 188; 146]%N)
  /\ slide_key ("slide" +:+ PyStr.bytes [239; 188; 146]%N +:+ ".xml") = OK 2.
Proof. vm_compute. split; reflexivity. Qed.

Example deck_parsed :
  parse_slides_for_content Sample.deck
  = OK [ {| number := "1"; images := []; title := "Intro"; texts := [] |};
         {| number := "2";
            images := [ {| name := "image1.jpg";
                           position := {| Position.x := 600000;
                                          Position.y := 1500000;
                                          Position.width := 9000000;
                                          Position.height := 4000000 |} |} ];
            title := "Methods"; texts := ["Point A"] |};
         {| number := "10"; images := []; title := "Slide 10"; texts := ["Last"] |} ].
Proof. vm_compute. reflexivity. Qed.

(** ** Strings *)

Lemma append_cons (ch : ascii) (a b : string) :
  String ch a +:+ b = String ch (a +:+ b).
Proof. reflexivity. Qed.

Lemma append_assoc (a b c : string) : (a +:+ b) +:+ c = a +:+ (b +:+ c).
Proof.
  induction a as [|ch a IH]; [reflexivity |].
  rewrite !append_cons. now f_equal.
Qed.

Lemma append_empty_r (a : string) : a +:+ "" = a.
Proof.
  induction a as [|ch a IH]; [reflexivity |].
  rewrite append_cons. now f_equal.
Qed.

Lemma join_map_app (f : ascii -> string) (a b : string) :
  PyStr.join_map f (a +:+ b) = PyStr.join_map f a +:+ PyStr.join_map f b.
Proof.
  induction a as [|ch a IH]; [reflexivity |].
  change (String ch a +:+ b) with (String ch (a +:+ b)).
  cbn [PyStr.join_map]. now rewrite IH, append_assoc.
Qed.

Lemma join_map_ext (f g : ascii -> string) (s : string) :
  (forall c, f c = g c) -> PyStr.join_map f s = PyStr.join_map g s.
Proof.
  intros Hfg. induction s as [|ch s IH]; cbn [PyStr.join_map]; [reflexivity |].
  now rewrite Hfg, IH.
Qed.

Lemma join_map_as_join (f : ascii -> string) (s : string) :
  PyStr.join_map f s = PyStr.join (map f (list_ascii_of_string s)).
Proof.
  induction s as [|ch s IH]; [reflexivity |].
  cbn [PyStr.join_map list_ascii_of_string map]. rewrite IH. reflexivity.
Qed.


(** ** [escape_latex] *)

Lemma replacements_get_image (c : ascii) : replacements_get c = latex_image c.
Proof. destruct c as [[] [] [] [] [] [] [] []]; vm_compute; reflexivity. Qed.

(** C8: LaTeX escaping is a per-character substitution.  For every input
    string the output is the concatenation, in input order, of the images of
    its characters, where backslash, ampersand, percent, dollar, hash,
    underscore, left brace, right brace, tilde and caret have the fixed
    escape sequences of [latex_image] and every other character is its own
    image; in particular escaping distributes over concatenation. *)
Theorem escape_latex_per_character :
  (forall text : string,
      escape_latex (Some text)
      = PyStr.join (map latex_image (list_ascii_of_string text)))
  /\ (forall a b : string,
         escape_latex (Some (a +:+ b))
         = escape_latex (Some a) +:+ escape_latex (Some b))
  /\ (forall c : ascii,
         escape_latex (Some (String c "")) = latex_image c).
Proof.
  split; [| split].
  - intros text. unfold escape_latex.
    rewrite (join_map_ext _ latex_image) by apply replacements_get_image.
    apply join_map_as_join.
  - intros a b. unfold escape_latex. apply join_map_app.
  - intros c. unfold escape_latex. simpl.
    rewrite append_empty_r. apply replacements_get_image.
Qed.

(** C10: the escaper tolerates an absent text.  [escape_latex None] is the
    empty string, so a title-page field that is missing from the dictionary
    or present with the value [None] is written as an empty argument. *)
Theorem escape_latex_none :
  escape_latex None = ""
  /\ (forall (title_info : gmap string (option string)) (key : string),
         title_info !! key = Some None -> title_field title_info key = "")
  /\ (forall (title_info : gmap string (option string)) (key : string),
         title_info !! key = None -> title_field title_info key = "")
  /\ (forall title_info : gmap string (option string),
         title_info !! "author" = Some None ->
         preamble title_info !! 3%nat = Some ("\author{}" +:+ nl)).
Proof.
  repeat split.
  - intros ti key H. unfold title_field. now rewrite H.
  - intros ti key H. unfold title_field. now rewrite H.
  - intros ti H. unfold preamble, title_field. simpl. now rewrite H.
Qed.

(** ** [sanitize_for_latex] *)

Lemma hex_digit_is_hex (n : Z) : MD5.is_hex (MD5.hex_digit n) = true.
Proof.
  unfold MD5.hex_digit.
  assert (Hk : (Z.to_nat (n mod 16) < 16)%nat)
    by (pose proof (Z.mod_pos_bound n 16); lia).
  revert Hk. generalize (Z.to_nat (n mod 16)). intros k Hk.
  do 16 (destruct k as [|k]; [vm_compute; reflexivity |]). lia.
Qed.

Lemma take8_hex_bytes (b0 b1 b2 b3 : Z) (rest : list Z) :
  PyStr.take 8 (PyStr.join (map MD5.hex_byte (b0 :: b1 :: b2 :: b3 :: rest)))
  = string_of_list_ascii
      [ MD5.hex_digit (b0 / 16); MD5.hex_digit b0;
        MD5.hex_digit (b1 / 16); MD5.hex_digit b1;
        MD5.hex_digit (b2 / 16); MD5.hex_digit b2;
        MD5.hex_digit (b3 / 16); MD5.hex_digit b3 ].
Proof. reflexivity. Qed.

Lemma hexdigest_prefix (text : string) :
  String.length (PyStr.take 8 (MD5.hexdigest text)) = 8%nat
  /\ forallb MD5.is_hex (list_ascii_of_string (PyStr.take 8 (MD5.hexdigest text)))
     = true.
Proof.
  unfold MD5.hexdigest, MD5.digest.
  destruct (MD5.blocks _ _ _) as [[[a b] c] d].
  change (MD5.le_bytes 4 a)
    with [ Z.shiftr a (8 * Z.of_nat 0) mod 256; Z.shiftr a (8 * Z.of_nat 1) mod 256;
           Z.shiftr a (8 * Z.of_nat 2) mod 256; Z.shiftr a (8 * Z.of_nat 3) mod 256 ].
  cbn [app]. rewrite take8_hex_bytes. split; [reflexivity |].
  cbn [string_of_list_ascii list_ascii_of_string forallb].
  now rewrite !hex_digit_is_hex.
Qed.


(** ** [parse_slides_for_content] *)

(** X1: a slide part that does not parse is isolated: with a well-formed
    relationships file the slide is recorded with its defaults. *)
Lemma malformed_slide_isolated (d : ppt_dir) (name : string)
    (rel_root : ET.element) (slide_num : string) :
  slides_rels d !! (name +:+ ".rels") = Some (ET.Document rel_root) ->
  slide_group1 name = OK slide_num ->
  process_slide d (name, ET.Malformed) = OK (default_slide_info slide_num).
Proof.
  intros Hrels Hnum. unfold process_slide. cbn [fst snd].
  rewrite Hnum. cbn. rewrite Hrels. reflexivity.
Qed.

Lemma malformed_slide_isolated_witness :
  process_slide Sample.broken_slide ("slide2.xml", ET.Malformed)
  = OK (default_slide_info "2").
Proof.
  apply (malformed_slide_isolated Sample.broken_slide "slide2.xml"
           (ET.Element (qname ns_rel "Relationships") [] None []) "2").
  - vm_compute. reflexivity.
  - vm_compute. reflexivity.
Defined.

Example malformed_slide_isolated_run :
  parse_slides_for_content Sample.broken_slide
  = OK [ {| number := "1"; images := []; title := "Intro"; texts := [] |};
         default_slide_info "2" ].
Proof. vm_compute. reflexivity. Qed.

(** C1: per-slide failure isolation.  The relationships file is parsed
    outside the [try] block: on an archive whose second slide has a
    relationships file that does not parse, the run ends with the parser's
    exception instead of recording the slide with its defaults. *)
Theorem malformed_rels_aborts_run :
  parse_slides_for_content Sample.broken_rels = Err ParseError.
Proof. vm_compute. reflexivity. Qed.




(** C3: title assignment is first-wins.  The test for "not yet set" is that
    the title starts with [Slide ]: on a slide whose first title shape reads
    [Slide Rules], the later [ctrTitle] shape replaces it. *)
Theorem title_replaced_after_slide_prefix :
  parse_slides_for_content Sample.two_titles
  = OK [ {| number := "2"; images := []; title := "Second"; texts := [] |} ].
Proof. vm_compute. reflexivity. Qed.

(** C4: slide-file selection.  [slidefoo.xml] matches the file pattern
    [slide*.xml] and has no slide number, and the sort key fails on it: the
    run ends with [AttributeError]. *)
Theorem stray_slide_file_aborts_run :
  parse_slides_for_content Sample.stray_file = Err AttributeError.
Proof. vm_compute. reflexivity. Qed.

(** ** [generate_main_tex]: images *)

Lemma drop_succ (n : nat) (s : string) :
  PyStr.drop (S n) s = PyStr.drop 1 (PyStr.drop n s).
Proof.
  revert s. induction n as [|n IH]; intros s; [reflexivity |].
  destruct s as [|c s]; [reflexivity |].
  change (PyStr.drop (S (S n)) (String c s)) with (PyStr.drop (S n) s).
  change (PyStr.drop (S n) (String c s)) with (PyStr.drop n s).
  apply IH.
Qed.

Lemma tiff_is_not_emf (s : string) :
  (PyStr.endswith s ".tiff" || PyStr.endswith s ".tif")%bool = true ->
  PyStr.endswith s ".emf" = false.
Proof.
  unfold PyStr.endswith. cbn [String.length].
  intros H. apply orb_true_iff in H.
  destruct H as [H | H]; apply andb_true_iff in H; destruct H as [Hlen Heq];
    apply Nat.leb_le in Hlen; apply String.eqb_eq in Heq.
  - replace (String.length s - 4)%nat with (S (String.length s - 5)) by lia.
    rewrite drop_succ, Heq. apply andb_false_r.
  - rewrite Heq. apply andb_false_r.
Qed.

(** X2: an image whose name ends in [.tif] or [.tiff], in any letter case,
    is never included. *)
Lemma tiff_never_included (img : image) (paper_width paper_height : Z) (p : pos_rel) :
  convert_ppt_to_beamer_position (position img) paper_width paper_height = OK p ->
  (PyStr.endswith (PyStr.lower (name img)) ".tiff"
   || PyStr.endswith (PyStr.lower (name img)) ".tif")%bool = true ->
  emit_image img paper_width paper_height = OK [].
Proof.
  intros Hpos Htiff. unfold emit_image. rewrite Hpos. cbn.
  unfold emf_to_pdf. rewrite (tiff_is_not_emf _ Htiff), Htiff. reflexivity.
Qed.

Lemma tiff_never_included_witness :
  emit_image Sample.scan_tiff default_paper_width default_paper_height = OK [].
Proof.
  apply (tiff_never_included Sample.scan_tiff default_paper_width default_paper_height
           {| x_rel := S754_finite false 7092282877748813 (-57);
              y_rel := S754_finite false 7880314308609792 (-55);
              width_rel := S754_finite false 6649015197889512 (-53);
              height_rel := S754_finite false 5253542872406528 (-53) |}).
  - vm_compute. reflexivity.
  - vm_compute. reflexivity.
Defined.

Example tiff_skipped :
  emit_image Sample.scan_tiff default_paper_width default_paper_height = OK [].
Proof. vm_compute. reflexivity. Qed.

Example lowercase_emf_rewritten :
  emit_image {| name := "chart.emf"; position := position Sample.chart_emf |}
             default_paper_width default_paper_height
  = OK (includegraphics "chart.pdf").
Proof. vm_compute. reflexivity. Qed.

(** C5: format exclusion in the emitter.  The [.emf] test lowers the name,
    the rewriting does not: for an image named [CHART.EMF] the reference is
    written with the extension unchanged. *)
Theorem uppercase_emf_not_rewritten :
  emit_image Sample.chart_emf default_paper_width default_paper_height
  = OK (includegraphics "CHART.EMF").
Proof. vm_compute. reflexivity. Qed.

(** ** [is_full_slide_background] *)

Lemma one_minus_tol : Float.sub one default_tol = Float.decimal 98 2.
Proof. vm_compute. reflexivity. Qed.

Example backdrop_excluded :
  emit_image Sample.backdrop default_paper_width default_paper_height = OK [].
Proof. vm_compute. reflexivity. Qed.

(** C6: full-bleed background classification and exclusion.  With the
    default tolerance a relative position is a full-slide background exactly
    when its x and y are at most [0.02] and its width and height are at least
    [0.98]; an image whose converted position is so classified writes no
    image inclusion.  The position (0.0, 0.01, 1.0, 0.99) is a background,
    and no position with x = 0.05 is. *)
Theorem full_slide_background_excluded :
  (forall p : pos_rel,
      is_full_slide_background p default_tol = true
      <-> Float.le (x_rel p) (Float.decimal 2 2) = true
          /\ Float.le (y_rel p) (Float.decimal 2 2) = true
          /\ Float.ge (width_rel p) (Float.decimal 98 2) = true
          /\ Float.ge (height_rel p) (Float.decimal 98 2) = true)
  /\ (forall (img : image) (paper_width paper_height : Z) (p : pos_rel),
         convert_ppt_to_beamer_position (position img) paper_width paper_height
         = OK p ->
         is_full_slide_background p default_tol = true ->
         emit_image img paper_width paper_height = OK [])
  /\ is_full_slide_background
       {| x_rel := S754_zero false; y_rel := Float.decimal 1 2;
          width_rel := one; height_rel := Float.decimal 99 2 |} default_tol = true
  /\ (forall yr wr hr : spec_float,
         is_full_slide_background
           {| x_rel := Float.decimal 5 2; y_rel := yr;
              width_rel := wr; height_rel := hr |} default_tol = false).
Proof.
  split; [| split; [| split]].
  - intros p. unfold is_full_slide_background.
    rewrite one_minus_tol, !andb_true_iff.
    change default_tol with (Float.decimal 2 2). tauto.
  - intros img pw ph p Hpos Hbg. unfold emit_image. rewrite Hpos.
    change (OK p ≫= ?k) with (k p). cbv beta zeta.
    rewrite Hbg. now destruct (_ || _)%bool.
  - vm_compute. reflexivity.
  - intros yr wr hr. unfold is_full_slide_background. cbn [x_rel].
    assert (E : Float.le (Float.decimal 5 2) default_tol = false)
      by (vm_compute; reflexivity).
    rewrite E. reflexivity.
Qed.

(** ** Range of [Float.true_div] *)

Section DivisionRange.

Local Abbreviation fexp := (SpecFloat.fexp Float.prec Float.emax).
Local Abbreviation shr_fexp := (SpecFloat.shr_fexp Float.prec Float.emax).
Local Abbreviation round_aux := (SpecFloat.binary_round_aux Float.prec Float.emax).

Lemma digits2_pos_size (p : positive) : digits2_pos p = Pos.size p.
Proof. induction p as [p IH | p IH |]; simpl; now rewrite ?IH. Qed.

Lemma Zdigits2_nonneg (m : Z) : 0 <= Zdigits2 m.
Proof. destruct m; simpl; lia. Qed.

Lemma Zdigits2_gt (m : Z) : 0 <= m -> m < 2 ^ Zdigits2 m.
Proof.
  destruct m as [|p|p]; simpl; [lia | | lia]. intros _.
  rewrite digits2_pos_size. pose proof (Pos.size_gt p) as H.
  rewrite <- Pos2Z.inj_pow. lia.
Qed.

Lemma Zdigits2_le (m k : Z) : 0 <= m -> 0 <= k -> m < 2 ^ k -> Zdigits2 m <= k.
Proof.
  destruct m as [|p|p]; simpl; [lia | | lia]. intros _ Hk Hlt.
  rewrite digits2_pos_size. pose proof (Pos.size_le p) as H.
  assert (H2 : 2 ^ Z.pos (Pos.size p) <= 2 * Z.pos p).
  { rewrite <- Pos2Z.inj_pow. lia. }
  assert (H3 : 2 ^ Z.pos (Pos.size p) < 2 ^ (k + 1)).
  { rewrite Z.pow_add_r by lia. lia. }
  apply Z.pow_lt_mono_r_iff in H3; lia.
Qed.

Lemma fexp_le (z K : Z) : z <= K -> -1021 <= K -> fexp z <= K - 53.
Proof. unfold SpecFloat.fexp, emin, Float.prec, Float.emax. lia. Qed.

Lemma shr_1_m (r : shr_record) : 0 <= shr_m r -> shr_m (shr_1 r) = shr_m r / 2.
Proof.
  destruct r as [m b s]. cbn [shr_m]. intros Hm.
  destruct m as [|[p|p|]|p]; cbn [shr_1 shr_m]; try lia.
  - reflexivity.
  - rewrite Pos2Z.inj_xI. apply Z.div_unique with (r := 1); lia.
  - rewrite Pos2Z.inj_xO. apply Z.div_unique with (r := 0); lia.
  - reflexivity.
Qed.

Lemma iter_shr_1_m (n : positive) (r : shr_record) :
  0 <= shr_m r -> shr_m (SpecFloat.iter_pos shr_1 n r) = shr_m r / 2 ^ Z.pos n.
Proof.
  revert r. induction n as [n IH | n IH |]; intros r Hr; cbn [SpecFloat.iter_pos].
  - assert (HX : 0 < 2 ^ Z.pos n) by (apply Z.pow_pos_nonneg; lia).
    assert (H1 : 0 <= shr_m (shr_1 r)) by (rewrite shr_1_m by lia; apply Z.div_pos; lia).
    assert (H2 : 0 <= shr_m (SpecFloat.iter_pos shr_1 n (shr_1 r)))
      by (rewrite IH by lia; apply Z.div_pos; lia).
    rewrite IH, IH, shr_1_m by lia.
    rewrite !Z.div_div by lia. f_equal.
    replace (Z.pos n~1) with (1 + Z.pos n + Z.pos n) by lia.
    rewrite !Z.pow_add_r by lia. ring.
  - assert (HX : 0 < 2 ^ Z.pos n) by (apply Z.pow_pos_nonneg; lia).
    assert (H2 : 0 <= shr_m (SpecFloat.iter_pos shr_1 n r))
      by (rewrite IH by lia; apply Z.div_pos; lia).
    rewrite IH, IH by lia.
    rewrite !Z.div_div by lia. f_equal.
    replace (Z.pos n~0) with (Z.pos n + Z.pos n) by lia.
    rewrite !Z.pow_add_r by lia. ring.
  - rewrite shr_1_m by lia. reflexivity.
Qed.

Lemma shr_record_of_loc_m (m : Z) (l : location) : shr_m (shr_record_of_loc m l) = m.
Proof. destruct l as [|[]]; reflexivity. Qed.

(** One normalization step keeps the mantissa non-negative and the
    magnitude within the bound [K]. *)
Lemma shr_fexp_bound (K m e : Z) (l : location) (mrs : shr_record) (e1 : Z) :
  0 <= m -> Zdigits2 m + e <= K -> e <= K - 53 -> -1021 <= K ->
  shr_fexp m e l = (mrs, e1) ->
  0 <= shr_m mrs /\ Zdigits2 (shr_m mrs) + e1 <= K /\ e1 <= K - 53.
Proof.
  intros Hm Hd He HK. unfold SpecFloat.shr_fexp, shr.
  pose proof (fexp_le (Zdigits2 m + e) K Hd HK) as Hf.
  destruct (fexp (Zdigits2 m + e) - e) as [|n|n] eqn:En; intros [= <- <-];
    rewrite ?shr_record_of_loc_m; try (repeat split; lia).
  rewrite iter_shr_1_m by (rewrite shr_record_of_loc_m; lia).
  rewrite shr_record_of_loc_m.
  assert (HX : 0 < 2 ^ Z.pos n) by (apply Z.pow_pos_nonneg; lia).
  pose proof (Zdigits2_gt m Hm) as Hgt.
  pose proof (Zdigits2_nonneg m) as Hnn.
  split; [apply Z.div_pos; lia |]. split; [| lia].
  destruct (Z_le_gt_dec (Zdigits2 m) (Z.pos n)) as [Hle | Hlt].
  - assert (Hsmall : m / 2 ^ Z.pos n = 0).
    { apply Z.div_small. split; [lia |].
      apply Z.lt_le_trans with (2 ^ Zdigits2 m); [lia |].
      apply Z.pow_le_mono_r; lia. }
    rewrite Hsmall. cbn [Zdigits2]. lia.
  - assert (Hq : Zdigits2 (m / 2 ^ Z.pos n) <= Zdigits2 m - Z.pos n).
    { apply Zdigits2_le; [apply Z.div_pos; lia | lia |].
      apply Z.div_lt_upper_bound; [lia |].
      rewrite <- Z.pow_add_r by lia.
      replace (Z.pos n + (Zdigits2 m - Z.pos n)) with (Zdigits2 m) by lia. lia. }
    lia.
Qed.

Lemma round_nearest_even_range (m : Z) (l : location) :
  m <= round_nearest_even m l <= m + 1.
Proof. destruct l as [|[]]; cbn [round_nearest_even]; try lia. destruct (Z.even m); lia. Qed.

Lemma Zdigits2_succ (m : Z) : 0 <= m -> forall m', m <= m' <= m + 1 -> Zdigits2 m' <= Zdigits2 m + 1.
Proof.
  intros Hm m' Hm'. pose proof (Zdigits2_gt m Hm) as Hgt.
  pose proof (Zdigits2_nonneg m) as Hnn.
  apply Zdigits2_le; [lia | lia |].
  rewrite Z.pow_add_r by lia. lia.
Qed.

(** Rounding a non-negative mantissa of magnitude below [2^1023] never
    overflows. *)
Lemma round_aux_not_infinity (sx : bool) (m e : Z) (l : location) :
  0 <= m -> Zdigits2 m + e <= 1023 -> e <= 970 ->
  forall s : bool, round_aux sx m e l <> S754_infinity s.
Proof.
  intros Hm Hd He s. unfold SpecFloat.binary_round_aux.
  destruct (shr_fexp m e l) as [mrs1 e1] eqn:E1.
  destruct (shr_fexp_bound 1023 m e l mrs1 e1 Hm Hd ltac:(lia) ltac:(lia) E1)
    as (Hm1 & Hd1 & He1).
  pose proof (round_nearest_even_range (shr_m mrs1) (loc_of_shr_record mrs1)) as Hr.
  pose proof (Zdigits2_succ (shr_m mrs1) Hm1 _ Hr) as Hds.
  set (mr := round_nearest_even _ _) in *.
  destruct (shr_fexp mr e1 loc_Exact) as [mrs2 e2] eqn:E2.
  assert (Hmr : 0 <= mr) by lia.
  assert (Hdr : Zdigits2 mr + e1 <= 1024) by lia.
  assert (Her : e1 <= 1024 - 53) by lia.
  assert (HK : -1021 <= 1024) by lia.
  destruct (shr_fexp_bound 1024 mr e1 loc_Exact mrs2 e2 Hmr Hdr Her HK E2)
    as (Hm2 & Hd2 & He2).
  destruct (shr_m mrs2) as [|p|p]; try discriminate.
  replace (e2 <=? Float.emax - Float.prec)%Z with true; [discriminate |].
  symmetry. apply Z.leb_le. unfold Float.emax, Float.prec. lia.
Qed.

Lemma div_core_bound (ma mb : positive) (q e : Z) (l : location) :
  Z.pos ma < 2 ^ 1023 ->
  SFdiv_core_binary Float.prec Float.emax (Z.pos ma) 0 (Z.pos mb) 0 = (q, e, l) ->
  0 <= q /\ Zdigits2 q + e <= 1023 /\ e <= 970.
Proof.
  intros Ha. unfold SFdiv_core_binary.
  set (e' := Z.min _ _).
  assert (He' : e' <= 0) by (subst e'; lia).
  set (m' := match 0 - 0 - e' with Z0 => Z.pos ma | Z.pos _ => Z.shiftl (Z.pos ma) (0 - 0 - e') | Z.neg _ => 0 end).
  assert (Hm' : 0 <= m' <= Z.pos ma * 2 ^ (- e')).
  { subst m'. destruct (0 - 0 - e') as [|n|n] eqn:Es; try lia.
    - replace (- e') with 0 by lia. rewrite Z.pow_0_r. lia.
    - rewrite Z.shiftl_mul_pow2 by lia. replace (- e') with (Z.pos n) by lia.
      assert (0 < 2 ^ Z.pos n) by (apply Z.pow_pos_nonneg; lia). nia. }
  pose proof (Z.div_eucl_eq m' (Z.pos mb)) as Hdiv.
  pose proof (Z.mod_pos_bound m' (Z.pos mb)) as Hmod.
  unfold Z.modulo in Hmod.
  destruct (Z.div_eucl m' (Z.pos mb)) as [q0 r0] eqn:Ed.
  intros [= <- <- <-].
  specialize (Hdiv ltac:(lia)). specialize (Hmod ltac:(lia)).
  assert (Hq0 : 0 <= q0 <= m') by nia.
  split; [lia |]. split; [| lia].
  assert (HX : 0 < 2 ^ (- e')) by (apply Z.pow_pos_nonneg; lia).
  assert (Hlt : q0 < 2 ^ (1023 - e')).
  { replace (1023 - e') with (1023 + - e') by lia. rewrite Z.pow_add_r by lia. nia. }
  pose proof (Zdigits2_le q0 (1023 - e') ltac:(lia) ltac:(lia) Hlt). lia.
Qed.

(** Division of an integer of magnitude below [2^1023] by a non-zero
    integer returns a float. *)
Lemma true_div_total (a b : Z) :
  b <> 0 -> Z.abs a < 2 ^ 1023 -> exists q : spec_float, Float.true_div a b = OK q.
Proof.
  intros Hb Ha. unfold Float.true_div.
  destruct (Z.eqb_spec b 0) as [-> | _]; [congruence |].
  destruct (SFdiv Float.prec Float.emax (Float.of_int a) (Float.of_int b)) as [s|s| |s m e] eqn:E;
    try (eexists; reflexivity).
  exfalso. destruct a as [|ma|ma], b as [|mb|mb]; cbn [Float.of_int SFdiv] in E;
    try discriminate; try congruence.
  all: destruct (SFdiv_core_binary _ _ _ _ _ _) as [[q e] l] eqn:Ec.
  all: destruct (div_core_bound ma mb q e l) as (Hq & Hd & He); [lia | exact Ec |].
  all: exact (round_aux_not_infinity _ q e l Hq Hd He s E).
Qed.

Lemma Zdigits2_lower (m : Z) : 0 < m -> 2 ^ (Zdigits2 m - 1) <= m.
Proof.
  destruct m as [|p|p]; try lia. intros _. cbn [Zdigits2]. rewrite digits2_pos_size.
  pose proof (Pos.size_le p) as H.
  assert (H2 : 2 ^ Z.pos (Pos.size p) <= 2 * Z.pos p)
    by (rewrite <- Pos2Z.inj_pow; lia).
  replace (Z.pos (Pos.size p)) with (1 + (Z.pos (Pos.size p) - 1)) in H2 by lia.
  rewrite Z.pow_add_r in H2 by lia. lia.
Qed.

Lemma Zdigits2_ge (m k : Z) : 0 <= k -> 2 ^ k <= m -> k + 1 <= Zdigits2 m.
Proof.
  intros Hk H. assert (Hpos : 0 < 2 ^ k) by (apply Z.pow_pos_nonneg; lia).
  pose proof (Zdigits2_gt m ltac:(lia)) as Hgt.
  pose proof (Zdigits2_nonneg m) as Hnn.
  assert (Hlt : 2 ^ k < 2 ^ Zdigits2 m) by lia.
  apply Z.pow_lt_mono_r_iff in Hlt; lia.
Qed.

Lemma Zdigits2_mono (m m' : Z) : 0 < m -> m <= m' -> Zdigits2 m <= Zdigits2 m'.
Proof.
  intros Hm Hle. pose proof (Zdigits2_lower m Hm) as Hl.
  assert (Hd : 1 <= Zdigits2 m) by (destruct m; cbn; lia).
  pose proof (Zdigits2_ge m' (Zdigits2 m - 1) ltac:(lia) ltac:(lia)). lia.
Qed.

(** One normalization step keeps the mantissa positive and the magnitude
    at least [K]. *)
Lemma shr_fexp_lower (K m e : Z) (l : location) (mrs : shr_record) (e1 : Z) :
  0 < m -> K <= Zdigits2 m + e -> -1021 <= K ->
  shr_fexp m e l = (mrs, e1) ->
  0 < shr_m mrs /\ K <= Zdigits2 (shr_m mrs) + e1 /\ K - 53 <= e1.
Proof.
  intros Hm Hd HK. unfold SpecFloat.shr_fexp, shr.
  assert (Hf : fexp (Zdigits2 m + e) = Zdigits2 m + e - 53)
    by (unfold SpecFloat.fexp, emin, Float.prec, Float.emax; lia).
  rewrite Hf.
  destruct (Zdigits2 m + e - 53 - e) as [|n|n] eqn:En; intros [= <- <-];
    rewrite ?shr_record_of_loc_m; try (repeat split; lia).
  rewrite iter_shr_1_m by (rewrite shr_record_of_loc_m; lia).
  rewrite shr_record_of_loc_m.
  assert (HX : 0 < 2 ^ Z.pos n) by (apply Z.pow_pos_nonneg; lia).
  pose proof (Zdigits2_lower m Hm) as Hlow.
  assert (Hq : 2 ^ 52 <= m / 2 ^ Z.pos n).
  { apply Z.div_le_lower_bound; [lia |]. rewrite <- Z.pow_add_r by lia.
    replace (Z.pos n + 52) with (Zdigits2 m - 1) by lia. exact Hlow. }
  pose proof (Zdigits2_ge _ 52 ltac:(lia) Hq) as Hdq.
  repeat split; lia.
Qed.

(** Rounding a positive mantissa of magnitude [2^1024] or more gives an
    infinity. *)
Lemma round_aux_infinity (sx : bool) (m e : Z) (l : location) :
  0 < m -> 1025 <= Zdigits2 m + e -> round_aux sx m e l = S754_infinity sx.
Proof.
  intros Hm Hd. unfold SpecFloat.binary_round_aux.
  destruct (shr_fexp m e l) as [mrs1 e1] eqn:E1.
  destruct (shr_fexp_lower 1025 m e l mrs1 e1 Hm Hd ltac:(lia) E1) as (Hm1 & Hd1 & He1).
  pose proof (round_nearest_even_range (shr_m mrs1) (loc_of_shr_record mrs1)) as Hr.
  pose proof (Zdigits2_mono (shr_m mrs1) _ Hm1 (proj1 Hr)) as Hmono.
  set (mr := round_nearest_even _ _) in *.
  destruct (shr_fexp mr e1 loc_Exact) as [mrs2 e2] eqn:E2.
  destruct (shr_fexp_lower 1025 mr e1 loc_Exact mrs2 e2 ltac:(lia) ltac:(lia)
              ltac:(lia) E2) as (Hm2 & Hd2 & He2).
  destruct (shr_m mrs2) as [|p|p]; try lia.
  replace (e2 <=? Float.emax - Float.prec)%Z with false; [reflexivity |].
  symmetry. apply Z.leb_gt. unfold Float.emax, Float.prec. lia.
Qed.

Lemma div_core_large (ma mb : positive) (q e : Z) (l : location) :
  2 ^ 1024 * Z.pos mb <= Z.pos ma ->
  SFdiv_core_binary Float.prec Float.emax (Z.pos ma) 0 (Z.pos mb) 0 = (q, e, l) ->
  0 < q /\ 1025 <= Zdigits2 q + e.
Proof.
  intros Ha. unfold SFdiv_core_binary.
  set (e' := Z.min _ _).
  assert (He' : e' <= 0) by (subst e'; lia).
  set (m' := match 0 - 0 - e' with Z0 => Z.pos ma | Z.pos _ => Z.shiftl (Z.pos ma) (0 - 0 - e') | Z.neg _ => 0 end).
  assert (HX : 0 < 2 ^ (- e')) by (apply Z.pow_pos_nonneg; lia).
  assert (Hm' : m' = Z.pos ma * 2 ^ (- e')).
  { subst m'. destruct (0 - 0 - e') as [|n|n] eqn:Es; try lia.
    - replace (- e') with 0 by lia. rewrite Z.pow_0_r. lia.
    - rewrite Z.shiftl_mul_pow2 by lia. now replace (- e') with (Z.pos n) by lia. }
  pose proof (Z.div_eucl_eq m' (Z.pos mb)) as Hdiv.
  pose proof (Z.mod_pos_bound m' (Z.pos mb)) as Hmod.
  assert (Hq : 2 ^ (1024 - e') <= m' / Z.pos mb).
  { apply Z.div_le_lower_bound; [lia |].
    replace (1024 - e') with (1024 + - e') by lia. rewrite Z.pow_add_r by lia.
    rewrite Hm'. nia. }
  unfold Z.div in Hq.
  destruct (Z.div_eucl m' (Z.pos mb)) as [q0 r0] eqn:Ed. cbn [fst] in Hq.
  intros [= <- <- <-].
  assert (Hpos : 0 < 2 ^ (1024 - e')) by (apply Z.pow_pos_nonneg; lia).
  pose proof (Zdigits2_ge q0 (1024 - e') ltac:(lia) Hq). lia.
Qed.

(** Division of an integer by a non-zero integer at least [2^1024] times
    smaller in magnitude raises [OverflowError]. *)
Lemma true_div_overflow (a b : Z) :
  b <> 0 -> 2 ^ 1024 * Z.abs b <= Z.abs a -> Float.true_div a b = Err OverflowError.
Proof.
  intros Hb Ha. unfold Float.true_div.
  destruct (Z.eqb_spec b 0) as [-> | _]; [congruence |].
  assert (Hpow : 0 < 2 ^ 1024) by (apply Z.pow_pos_nonneg; lia).
  destruct a as [|ma|ma], b as [|mb|mb]; try congruence; try lia;
    cbn [Float.of_int SFdiv];
    destruct (SFdiv_core_binary _ _ _ _ _ _) as [[q e] l] eqn:Ec;
    destruct (div_core_large ma mb q e l ltac:(lia) Ec) as [Hq Hd];
    now rewrite (round_aux_infinity _ q e l Hq Hd).
Qed.

Lemma true_div_zero (a : Z) : Float.true_div a 0 = Err ZeroDivisionError.
Proof. reflexivity. Qed.

Lemma true_div_not_zero_division (a b : Z) :
  b <> 0 -> Float.true_div a b <> Err ZeroDivisionError.
Proof.
  intros Hb. unfold Float.true_div.
  destruct (Z.eqb_spec b 0) as [-> | _]; [congruence |].
  destruct (SFdiv _ _ _ _); discriminate.
Qed.

End DivisionRange.

(** ** [convert_ppt_to_beamer_position] and [parse_presentation_xml] *)

Lemma convert_zero_width (position : Position.t) (paper_height : Z) :
  convert_ppt_to_beamer_position position 0 paper_height = Err ZeroDivisionError.
Proof. reflexivity. Qed.

Lemma convert_zero_height (position : Position.t) (paper_width : Z) :
  exists e : exn,
    convert_ppt_to_beamer_position position paper_width 0 = Err e.
Proof.
  unfold convert_ppt_to_beamer_position.
  destruct (Float.true_div (Position.x position) paper_width) as [xr | e].
  - exists ZeroDivisionError. reflexivity.
  - exists e. reflexivity.
Qed.

Lemma convert_zero_height_in_range (position : Position.t) (paper_width : Z) :
  Z.abs (Position.x position) < 2 ^ 1023 ->
  convert_ppt_to_beamer_position position paper_width 0 = Err ZeroDivisionError.
Proof.
  intros Hx. destruct (Z.eq_dec paper_width 0) as [-> | Hw]; [reflexivity |].
  unfold convert_ppt_to_beamer_position.
  destruct (true_div_total _ _ Hw Hx) as [xr ->]. reflexivity.
Qed.

Lemma convert_total (position : Position.t) (paper_width paper_height : Z) :
  paper_width <> 0 -> paper_height <> 0 -> in_float_range position ->
  exists p : pos_rel,
    convert_ppt_to_beamer_position position paper_width paper_height = OK p.
Proof.
  intros Hw Hh (Hx & Hy & Hcx & Hcy). unfold convert_ppt_to_beamer_position.
  destruct (true_div_total _ _ Hw Hx) as [xr ->].
  destruct (true_div_total _ _ Hh Hy) as [yr ->].
  destruct (true_div_total _ _ Hw Hcx) as [wr ->].
  destruct (true_div_total _ _ Hh Hcy) as [hr ->].
  eexists. reflexivity.
Qed.

Lemma convert_overflow (position : Position.t) (paper_width paper_height : Z) :
  paper_width <> 0 ->
  2 ^ 1024 * Z.abs paper_width <= Z.abs (Position.x position) ->
  convert_ppt_to_beamer_position position paper_width paper_height = Err OverflowError.
Proof.
  intros Hw Hx. unfold convert_ppt_to_beamer_position.
  now rewrite (true_div_overflow _ _ Hw Hx).
Qed.

Lemma convert_not_zero_division (position : Position.t) (paper_width paper_height : Z) :
  paper_width <> 0 -> paper_height <> 0 ->
  convert_ppt_to_beamer_position position paper_width paper_height
  <> Err ZeroDivisionError.
Proof.
  intros Hw Hh. unfold convert_ppt_to_beamer_position.
  pose proof (true_div_not_zero_division (Position.x position) _ Hw) as H1.
  pose proof (true_div_not_zero_division (Position.y position) _ Hh) as H2.
  pose proof (true_div_not_zero_division (Position.width position) _ Hw) as H3.
  pose proof (true_div_not_zero_division (Position.height position) _ Hh) as H4.
  destruct (Float.true_div (Position.x position) paper_width); [| intros [= ->]; now apply H1].
  destruct (Float.true_div (Position.y position) paper_height); [| intros [= ->]; now apply H2].
  destruct (Float.true_div (Position.width position) paper_width); [| intros [= ->]; now apply H3].
  destruct (Float.true_div (Position.height position) paper_height); [| intros [= ->]; now apply H4].
  discriminate.
Qed.

Example zero_width_accepted :
  parse_presentation_xml
    {| slides_listing := None; slides_rels := ∅;
       presentation_xml := Some (Sample.presentation "0" "6858000") |}
  = {| Size.width := 0; Size.height := 6858000 |}.
Proof. vm_compute. reflexivity. Qed.

Example typical_position_converts :
  convert_ppt_to_beamer_position (position Sample.backdrop)
    default_paper_width default_paper_height
  = OK {| x_rel := S754_zero false;
          y_rel := S754_finite false 5764607523034235 (-59);
          width_rel := S754_finite false 4503599627370496 (-52);
          height_rel := S754_finite false 8917127262193582 (-53) |}.
Proof. vm_compute. reflexivity. Qed.

(** C9 as stated fails: with the default, positive dimensions the position
    whose x is [10^320] does not convert; the quotient is beyond the range
    of a float and the division raises [OverflowError]. *)
Lemma conversion_total_for_positive_size_fails :
  ~ conversion_total_for_positive_size.
Proof.
  intros H.
  destruct (H {| Position.x := 10 ^ 320; Position.y := 0;
                 Position.width := 0; Position.height := 0 |}
              default_paper_width default_paper_height) as [p Hp].
  - reflexivity.
  - reflexivity.
  - vm_compute in Hp. discriminate Hp.
Qed.

(** C9, amended: the geometry conversion is partial in the declared slide
    size.  [parse_presentation_xml] stores the declared width and height as
    [int] reads them, zero included; a width that [int] rejects leaves both
    defaults, a height that [int] rejects leaves the declared width with the
    default height.  With a width or height of 0 every conversion raises,
    with [ZeroDivisionError] when the width is 0 or the x coordinate is
    below [2^1023] in magnitude.  With both dimensions non-zero, in
    particular positive, no conversion divides by zero, and every position
    with coordinates below [2^1023] in magnitude converts; an x coordinate
    of at least [2^1024] times the width in magnitude raises
    [OverflowError], as [10^320] does on the default size, on which [2^1024]
    still converts.  A presentation part that is absent, does not parse or
    has no size element gets the defaults 12192000 and 6858000, both
    positive. *)
Theorem conversion_partial_in_slide_size :
  (forall (d : ppt_dir) (root sldSz : ET.element) (w h : Z),
      presentation_xml d = Some (ET.Document root) ->
      ET.find_desc (qname ns_p "sldSz") root = Some sldSz ->
      int_attr sldSz "cx" default_paper_width = OK w ->
      int_attr sldSz "cy" default_paper_height = OK h ->
      parse_presentation_xml d = {| Size.width := w; Size.height := h |})
  /\ (forall (d : ppt_dir) (root sldSz : ET.element) (e : exn),
         presentation_xml d = Some (ET.Document root) ->
         ET.find_desc (qname ns_p "sldSz") root = Some sldSz ->
         int_attr sldSz "cx" default_paper_width = Err e ->
         parse_presentation_xml d
         = {| Size.width := default_paper_width;
              Size.height := default_paper_height |})
  /\ (forall (d : ppt_dir) (root sldSz : ET.element) (w : Z) (e : exn),
         presentation_xml d = Some (ET.Document root) ->
         ET.find_desc (qname ns_p "sldSz") root = Some sldSz ->
         int_attr sldSz "cx" default_paper_width = OK w ->
         int_attr sldSz "cy" default_paper_height = Err e ->
         parse_presentation_xml d
         = {| Size.width := w; Size.height := default_paper_height |})
  /\ parse_presentation_xml
       {| slides_listing := None; slides_rels := ∅;
          presentation_xml := Some (Sample.presentation "0" "0") |}
     = {| Size.width := 0; Size.height := 0 |}
  /\ (forall (position : Position.t) (paper_width paper_height : Z),
         paper_width = 0 \/ paper_height = 0 ->
         exists e : exn,
           convert_ppt_to_beamer_position position paper_width paper_height = Err e)
  /\ (forall (position : Position.t) (paper_height : Z),
         convert_ppt_to_beamer_position position 0 paper_height
         = Err ZeroDivisionError)
  /\ (forall (position : Position.t) (paper_width : Z),
         Z.abs (Position.x position) < 2 ^ 1023 ->
         convert_ppt_to_beamer_position position paper_width 0
         = Err ZeroDivisionError)
  /\ (forall (position : Position.t) (paper_width paper_height : Z),
         paper_width <> 0 -> paper_height <> 0 ->
         convert_ppt_to_beamer_position position paper_width paper_height
         <> Err ZeroDivisionError)
  /\ (forall (position : Position.t) (paper_width paper_height : Z),
         paper_width <> 0 -> paper_height <> 0 -> in_float_range position ->
         exists p : pos_rel,
           convert_ppt_to_beamer_position position paper_width paper_height = OK p)
  /\ (forall (position : Position.t) (paper_width paper_height : Z),
         paper_width <> 0 ->
         2 ^ 1024 * Z.abs paper_width <= Z.abs (Position.x position) ->
         convert_ppt_to_beamer_position position paper_width paper_height
         = Err OverflowError)
  /\ convert_ppt_to_beamer_position
       {| Position.x := 10 ^ 320; Position.y := 0;
          Position.width := 0; Position.height := 0 |}
       default_paper_width default_paper_height
     = Err OverflowError
  /\ convert_ppt_to_beamer_position
       {| Position.x := 2 ^ 1024; Position.y := 0;
          Position.width := 0; Position.height := 0 |}
       default_paper_width default_paper_height
     = OK {| x_rel := S754_finite false 6197331342348616 948;
             y_rel := S754_zero false;
             width_rel := S754_zero false;
             height_rel := S754_zero false |}
  /\ (forall d : ppt_dir,
         presentation_xml d = None
         \/ presentation_xml d = Some ET.Malformed
         \/ (exists root : ET.element,
                presentation_xml d = Some (ET.Document root)
                /\ ET.find_desc (qname ns_p "sldSz") root = None) ->
         parse_presentation_xml d
         = {| Size.width := default_paper_width;
              Size.height := default_paper_height |})
  /\ 0 < default_paper_width
  /\ 0 < default_paper_height.
Proof.
  repeat apply conj.
  - intros d root sldSz w h Hd Hs Hw Hh. unfold parse_presentation_xml.
    rewrite Hd. cbn [ET.parse]. rewrite Hs, Hw, Hh. reflexivity.
  - intros d root sldSz e Hd Hs Hw. unfold parse_presentation_xml.
    rewrite Hd. cbn [ET.parse]. rewrite Hs, Hw. reflexivity.
  - intros d root sldSz w e Hd Hs Hw Hh. unfold parse_presentation_xml.
    rewrite Hd. cbn [ET.parse]. rewrite Hs, Hw, Hh. reflexivity.
  - vm_compute. reflexivity.
  - intros position pw ph [-> | ->].
    + exists ZeroDivisionError. apply convert_zero_width.
    + apply convert_zero_height.
  - apply convert_zero_width.
  - apply convert_zero_height_in_range.
  - apply convert_not_zero_division.
  - apply convert_total.
  - apply convert_overflow.
  - vm_compute. reflexivity.
  - vm_compute. reflexivity.
  - intros d [Hd | [Hd | (root & Hd & Hs)]]; unfold parse_presentation_xml;
      rewrite Hd; cbn [ET.parse]; rewrite ?Hs; reflexivity.
  - reflexivity.
  - reflexivity.
Qed.

(** ** Order and selection of the slide files *)

Lemma mapM_cons_OK {A B : Type} (f : A -> result B) (a : A) (l : list A)
    (bs : list B) :
  mapM f (a :: l) = OK bs ->
  exists (b : B) (bs' : list B), f a = OK b /\ mapM f l = OK bs' /\ bs = b :: bs'.
Proof.
  cbn. destruct (f a) as [b | e]; cbn; [| discriminate].
  destruct (mapM f l) as [bs' | e]; cbn; [| discriminate].
  intros [= <-]. eauto.
Qed.

Lemma mapM_Forall2 {A B : Type} (f : A -> result B) (l : list A) (bs : list B) :
  mapM f l = OK bs -> Forall2 (fun a b => f a = OK b) l bs.
Proof.
  revert bs. induction l as [|a l IH]; intros bs H.
  - cbn in H. injection H as <-. constructor.
  - apply mapM_cons_OK in H. destruct H as (b & bs' & Hb & Hl & ->).
    constructor; auto.
Qed.

Section SortedByKey.
Context {A : Type}.

Lemma insert_by_key_Forall (P : Z * A -> Prop) (kx : Z * A) (l : list (Z * A)) :
  P kx -> Forall P l -> Forall P (insert_by_key kx l).
Proof.
  intros Hx. induction 1 as [|ky l Hy Hl IH]; cbn [insert_by_key].
  - repeat constructor; assumption.
  - destruct (fst ky <? fst kx)%Z; repeat constructor; auto.
Qed.

Lemma insert_by_key_sorted (kx : Z * A) (l : list (Z * A)) :
  StronglySorted Z.le (map fst l) ->
  StronglySorted Z.le (map fst (insert_by_key kx l)).
Proof.
  induction l as [|ky l IH]; intros Hs; cbn [insert_by_key].
  - repeat constructor.
  - cbn [map] in Hs. apply StronglySorted_inv in Hs. destruct Hs as [Hs Hall].
    destruct (Z.ltb_spec (fst ky) (fst kx)) as [Hlt | Hge]; cbn [map].
    + constructor; [auto |].
      apply Forall_map. apply insert_by_key_Forall; [lia |].
      apply (proj1 (Forall_map _ _ _) Hall).
    + constructor; [constructor; auto |].
      constructor; [lia |].
      eapply Forall_impl; [exact Hall |]. cbn. intros; lia.
Qed.

Lemma sorted_by_key_sorted (l : list (Z * A)) :
  StronglySorted Z.le (map fst (sorted_by_key l)).
Proof.
  induction l as [|kx l IH]; cbn; [constructor |].
  now apply insert_by_key_sorted.
Qed.

Lemma sorted_by_key_Forall (P : Z * A -> Prop) (l : list (Z * A)) :
  Forall P l -> Forall P (sorted_by_key l).
Proof.
  induction 1 as [|kx l Hx Hl IH]; cbn; [constructor |].
  now apply insert_by_key_Forall.
Qed.

End SortedByKey.

Lemma scan_shape_number (info : slide_info) (sp : ET.element) :
  number (scan_shape info sp) = number info.
Proof.
  unfold scan_shape.
  destruct (omap _ _); [reflexivity |].
  destruct (PyStr.is_empty _); [reflexivity |].
  repeat match goal with
         | |- context [match ?x with _ => _ end] => destruct x
         end; reflexivity.
Qed.

Lemma scan_shapes_number (shapes : list ET.element) (info : slide_info) :
  number (fold_left scan_shape shapes info) = number info.
Proof.
  revert info. induction shapes as [|sp shapes IH]; intros info; cbn; [reflexivity |].
  now rewrite IH, scan_shape_number.
Qed.

Lemma try_slide_number (f : ET.xml_file) (rels : gmap (option string) (option string))
    (info : slide_info) :
  number (fst (try_slide f rels info)) = number info.
Proof.
  unfold try_slide. destruct (ET.parse f) as [root | e]; [| reflexivity].
  destruct (scan_pictures _ _) as [imgs r]. cbn. apply scan_shapes_number.
Qed.

Lemma process_slide_number (d : ppt_dir) (f : string * ET.xml_file) (info : slide_info) :
  process_slide d f = OK info -> slide_group1 (fst f) = OK (number info).
Proof.
  unfold process_slide. destruct (slide_group1 (fst f)) as [ds | e]; cbn; [| discriminate].
  destruct (slides_rels d !! _) as [rf |]; [| now intros [= <-]].
  destruct (ET.parse rf) as [root | e]; cbn; [| discriminate].
  intros [= <-]. now rewrite try_slide_number.
Qed.

Lemma slide_key_number (name : string) (k : Z) (ds : string) :
  slide_key name = OK k -> slide_group1 name = OK ds -> PyStr.int ds = Some k.
Proof.
  unfold slide_key. intros Hk Hg. rewrite Hg in Hk. cbn in Hk.
  destruct (PyStr.int ds); now inversion Hk.
Qed.

(** X3: the slides of a completed run are in ascending order of their
    numbers read as integers. *)
Theorem slides_in_numeric_order (d : ppt_dir) (slides : list slide_info) :
  parse_slides_for_content d = OK slides ->
  exists keys : list Z,
    Forall2 (fun info k => PyStr.int (number info) = Some k) slides keys
    /\ StronglySorted Z.le keys.
Proof.
  unfold parse_slides_for_content.
  destruct (slides_listing d) as [listing |].
  2:{ intros [= <-]. exists []. split; constructor. }
  set (keyf := fun f : string * ET.xml_file => k ← slide_key (fst f); OK (k, f)).
  destruct (mapM keyf _) as [keyed | e] eqn:Ek; cbn; [| discriminate].
  intros Hrun. exists (map fst (sorted_by_key keyed)).
  split; [| apply sorted_by_key_sorted].
  assert (Hkeys : Forall (fun kf => slide_key (fst (snd kf)) = OK (fst kf))
                         (sorted_by_key keyed)).
  { apply sorted_by_key_Forall. apply mapM_Forall2 in Ek.
    clear -Ek. induction Ek as [|f kf l l' Hf Hl IH]; constructor; auto.
    unfold keyf in Hf.
    destruct (slide_key (fst f)) as [k | e] eqn:Ekey; cbn in Hf; [| discriminate].
    injection Hf as <-. exact Ekey. }
  apply mapM_Forall2 in Hrun. revert Hkeys Hrun.
  generalize (sorted_by_key keyed) as l. clear. intros l Hkeys. revert slides.
  induction Hkeys as [|kf l Hk Hl IH]; intros slides Hrun; cbn [map] in *.
  - inversion Hrun. constructor.
  - inversion Hrun as [|f info l1 l2 Hf Hrest]; subst. constructor; [| now apply IH].
    apply process_slide_number in Hf. eapply slide_key_number; eauto.
Qed.

Lemma slides_in_numeric_order_witness :
  exists keys : list Z,
    Forall2 (fun info k => PyStr.int (number info) = Some k)
      [ {| number := "1"; images := []; title := "Intro"; texts := [] |};
        default_slide_info "2" ] keys
    /\ StronglySorted Z.le keys.
Proof.
  apply (slides_in_numeric_order Sample.broken_slide).
  vm_compute. reflexivity.
Defined.

(** ** Titles *)

Lemma scan_shape_title_kept (info : slide_info) (sp : ET.element) :
  PyStr.startswith (title info) "Slide " = false ->
  title (scan_shape info sp) = title info.
Proof.
  intros Hset. unfold scan_shape.
  destruct (omap _ _); [reflexivity |].
  destruct (PyStr.is_empty _); [reflexivity |].
  rewrite Hset.
  repeat match goal with
         | |- context [match ?x with _ => _ end] => destruct x
         end; reflexivity.
Qed.

(** X4: once the title does not begin with [Slide ], no later shape
    changes it. *)
Theorem title_kept_once_set (shapes : list ET.element) (info : slide_info) :
  PyStr.startswith (title info) "Slide " = false ->
  title (fold_left scan_shape shapes info) = title info.
Proof.
  revert info. induction shapes as [|sp shapes IH]; intros info Hset; cbn; [reflexivity |].
  rewrite IH; rewrite scan_shape_title_kept; auto.
Qed.

Lemma title_kept_once_set_witness :
  title (fold_left scan_shape
           [Sample.shape (Some "title") "Second"; Sample.shape (Some "ctrTitle") "Third"]
           {| number := "2"; images := []; title := "Methods"; texts := [] |})
  = "Methods".
Proof.
  apply (title_kept_once_set
           [Sample.shape (Some "title") "Second"; Sample.shape (Some "ctrTitle") "Third"]
           {| number := "2"; images := []; title := "Methods"; texts := [] |}).
  vm_compute. reflexivity.
Defined.

(** X5: an archive without [ppt/slides] has no slides. *)
Theorem no_slides_directory (d : ppt_dir) :
  slides_listing d = None -> parse_slides_for_content d = OK [].
Proof. intros H. unfold parse_slides_for_content. now rewrite H. Qed.

Lemma no_slides_directory_witness :
  parse_slides_for_content
    {| slides_listing := None; slides_rels := ∅; presentation_xml := None |} = OK [].
Proof.
  apply (no_slides_directory
           {| slides_listing := None; slides_rels := ∅; presentation_xml := None |}).
  reflexivity.
Defined.

(** ** The title page *)

Example title_page_sample :
  let info := parse_title_page_info Sample2.title_deck in
  (title_value info "title", title_value info "subtitle", title_value info "author",
   title_value info "institute", title_value info "date")
  = ("Intro", "Sub", "Dr. X", "Dept. Y", "2024").
Proof. vm_compute. reflexivity. Qed.

(** ** [escape_latex]: nothing is lost, nothing is left bare *)

Lemma length_append (a b : string) :
  String.length (a +:+ b) = (String.length a + String.length b)%nat.
Proof.
  induction a as [|ch a IH]; [reflexivity |].
  rewrite append_cons. cbn [String.length]. now rewrite IH.
Qed.

Lemma latex_image_length (c : ascii) : (1 <= String.length (latex_image c))%nat.
Proof.
  unfold latex_image.
  repeat match goal with
         | |- context [if ?b then _ else _] => destruct b
         end; cbn; lia.
Qed.

Lemma escape_latex_cons (c : ascii) (s : string) :
  escape_latex (Some (String c s)) = latex_image c +:+ escape_latex (Some s).
Proof. unfold escape_latex. cbn [PyStr.join_map]. now rewrite replacements_get_image. Qed.

Lemma escape_latex_length (s : string) :
  (String.length s <= String.length (escape_latex (Some s)))%nat.
Proof.
  induction s as [|c s IH]; [cbn; lia |].
  rewrite escape_latex_cons, length_append.
  pose proof (latex_image_length c). cbn [String.length]. lia.
Qed.

Lemma startswith_empty (s : string) : PyStr.startswith s "" = true.
Proof. destruct s; reflexivity. Qed.

(** Moves a literal prefix out of an append and computes. *)
Ltac push_append :=
  rewrite ?append_cons;
  repeat match goal with
         | |- context [EmptyString +:+ ?r] => change (EmptyString +:+ r) with r
         end;
  cbn; rewrite ?startswith_empty; cbn.

(** Reading the image of a character gives the character back. *)
Lemma unescape_fuel_image (fuel : nat) (c : ascii) (rest : string) :
  unescape_fuel (S fuel) (latex_image c +:+ rest) = String c (unescape_fuel fuel rest).
Proof.
  unfold latex_image.
  destruct (Ascii.eqb c "\") eqn:E; [apply Ascii.eqb_eq in E; subst; now push_append |].
  repeat match goal with
         | |- context [if Ascii.eqb c ?x then _ else _] =>
             let E' := fresh "E" in
             destruct (Ascii.eqb c x) eqn:E';
             [apply Ascii.eqb_eq in E'; subst; now push_append |]
         end.
  push_append. now rewrite E.
Qed.

Lemma unescape_fuel_escape (s : string) (fuel : nat) :
  (String.length s <= fuel)%nat -> unescape_fuel fuel (escape_latex (Some s)) = s.
Proof.
  revert fuel. induction s as [|c s IH]; intros fuel Hfuel.
  - destruct fuel; reflexivity.
  - destruct fuel as [|fuel]; [cbn in Hfuel; lia |].
    rewrite escape_latex_cons, unescape_fuel_image.
    rewrite IH; [reflexivity | cbn in Hfuel; lia].
Qed.

Lemma unescape_escape (s : string) : unescape (escape_latex (Some s)) = s.
Proof. apply unescape_fuel_escape, escape_latex_length. Qed.

(** X6: escaping loses nothing: two texts with the same escaped form are
    the same text. *)
Theorem escape_latex_injective (a b : string) :
  escape_latex (Some a) = escape_latex (Some b) -> a = b.
Proof.
  intros H. rewrite <- (unescape_escape a), <- (unescape_escape b). now rewrite H.
Qed.

Lemma escape_latex_injective_witness : "a_1 & b" = "a_1 & b".
Proof. apply (escape_latex_injective "a_1 & b" "a_1 & b"). reflexivity. Defined.

Lemma guarded_image (c : ascii) (rest : string) :
  guarded false (latex_image c +:+ rest) = guarded false rest.
Proof.
  unfold latex_image.
  repeat match goal with
         | |- context [if Ascii.eqb c ?x then _ else _] =>
             let E' := fresh "E" in
             destruct (Ascii.eqb c x) eqn:E';
             [apply Ascii.eqb_eq in E'; subst; now push_append |]
         end.
  push_append. unfold needs_backslash.
  repeat match goal with H : Ascii.eqb c _ = false |- _ => rewrite H; clear H end.
  reflexivity.
Qed.

(** X7: escaped text has no bare special character: every [&], [%], [$],
    [#] and [_] of the output directly follows a backslash, and the output
    holds no [~] and no [^]. *)
Theorem escape_latex_guarded (text : option string) :
  guarded false (escape_latex text) = true.
Proof.
  destruct text as [s |]; [| reflexivity].
  induction s as [|c s IH]; [reflexivity |].
  now rewrite escape_latex_cons, guarded_image.
Qed.

(** ** [sanitize_for_latex]: the result is an identifier *)

Lemma all_chars_forallb (p : ascii -> bool) (s : string) :
  all_chars p s = forallb p (list_ascii_of_string s).
Proof. induction s as [|c s IH]; cbn; [reflexivity | now rewrite IH]. Qed.

Lemma all_chars_append (p : ascii -> bool) (a b : string) :
  all_chars p (a +:+ b) = (all_chars p a && all_chars p b)%bool.
Proof.
  induction a as [|c a IH]; [reflexivity |].
  rewrite append_cons. cbn [all_chars]. rewrite IH. apply andb_assoc.
Qed.

Lemma all_chars_impl (p q : ascii -> bool) (s : string) :
  (forall c, p c = true -> q c = true) -> all_chars p s = true -> all_chars q s = true.
Proof.
  intros Hpq. induction s as [|c s IH]; cbn; [reflexivity |].
  rewrite !andb_true_iff. intros [Hc Hs]. auto.
Qed.

Lemma filter_chars_all (p : ascii -> bool) (s : string) :
  all_chars p (PyStr.filter_chars p s) = true.
Proof.
  induction s as [|c s IH]; cbn; [reflexivity |].
  destruct (p c) eqn:E; cbn; [now rewrite E |]; assumption.
Qed.

Lemma filter_chars_id (p : ascii -> bool) (s : string) :
  all_chars p s = true -> PyStr.filter_chars p s = s.
Proof.
  induction s as [|c s IH]; cbn; [reflexivity |].
  rewrite andb_true_iff. intros [Hc Hs]. rewrite Hc. now rewrite IH.
Qed.

Lemma is_hex_alnum (c : ascii) : MD5.is_hex c = true -> PyStr.is_alnum c = true.
Proof. destruct c as [[] [] [] [] [] [] [] []]; vm_compute; congruence. Qed.

Lemma sanitize_nonempty_alnum (text : string) :
  sanitize_for_latex text <> ""
  /\ all_chars PyStr.is_alnum (sanitize_for_latex text) = true.
Proof.
  unfold sanitize_for_latex.
  destruct (re_sub_non_alnum text) as [|c s] eqn:E; cbn [PyStr.is_empty].
  - split; [discriminate |].
    rewrite all_chars_append. apply andb_true_iff. split; [reflexivity |].
    destruct (hexdigest_prefix text) as [_ Hhex].
    rewrite <- all_chars_forallb in Hhex.
    exact (all_chars_impl _ _ _ is_hex_alnum Hhex).
  - split; [discriminate |].
    rewrite <- E. apply filter_chars_all.
Qed.

(** X8: the sanitizer always returns an identifier: the result is never
    empty and holds only ASCII letters and digits. *)
Theorem sanitize_for_latex_identifier (text : string) :
  sanitize_for_latex text <> ""
  /\ all_chars PyStr.is_alnum (sanitize_for_latex text) = true.
Proof. exact (sanitize_nonempty_alnum text). Qed.

(** X9: sanitizing is idempotent: a sanitized name is its own sanitized
    form. *)
Theorem sanitize_for_latex_idempotent (text : string) :
  sanitize_for_latex (sanitize_for_latex text) = sanitize_for_latex text.
Proof.
  destruct (sanitize_nonempty_alnum text) as [Hne Hall].
  unfold sanitize_for_latex at 1. unfold re_sub_non_alnum.
  rewrite (filter_chars_id _ _ Hall).
  destruct (sanitize_for_latex text); [congruence | reflexivity].
Qed.

(** ** Media files and image names *)

Lemma drop_empty (n : nat) : PyStr.drop n "" = "".
Proof. destruct n; reflexivity. Qed.

Lemma length_drop (n : nat) (s : string) :
  String.length (PyStr.drop n s) = (String.length s - n)%nat.
Proof.
  revert s. induction n as [|n IH]; intros s; cbn [PyStr.drop].
  - lia.
  - destruct s as [|c s]; [reflexivity |]. cbn [String.length]. rewrite IH. lia.
Qed.

Lemma drop_append_le (n : nat) (a b : string) :
  (n <= String.length a)%nat -> PyStr.drop n (a +:+ b) = PyStr.drop n a +:+ b.
Proof.
  revert a. induction n as [|n IH]; intros a Hn; [reflexivity |].
  destruct a as [|c a]; [cbn in Hn; lia |].
  rewrite append_cons. cbn [PyStr.drop]. apply IH. cbn in Hn. lia.
Qed.

Lemma map_chars_append (f : ascii -> ascii) (a b : string) :
  PyStr.map_chars f (a +:+ b) = PyStr.map_chars f a +:+ PyStr.map_chars f b.
Proof.
  induction a as [|c a IH]; [reflexivity |].
  rewrite append_cons. cbn [PyStr.map_chars]. rewrite IH. now rewrite append_cons.
Qed.

Lemma string_length_one (s : string) :
  String.length s = 1%nat -> exists c : ascii, s = String c "".
Proof.
  destruct s as [|c [|c' s]]; cbn; try discriminate. intros _. now exists c.
Qed.

(** A name that ends in [.jpg] does not end in [.jfif]. *)
Lemma jpg_is_not_jfif (a : string) : PyStr.endswith (a +:+ ".jpg") ".jfif" = false.
Proof.
  unfold PyStr.endswith. rewrite length_append. cbn [String.length].
  destruct (String.length a) as [|n] eqn:Ea; [reflexivity |].
  replace (S n + 4 - 5)%nat with n by lia.
  rewrite drop_append_le by lia.
  destruct (string_length_one (PyStr.drop n a)) as [c ->];
    [rewrite length_drop; lia |].
  rewrite append_cons. cbn. destruct (Ascii.eqb c "."); apply andb_false_r.
Qed.

Lemma media_target_name_not_jfif (name : string) :
  PyStr.endswith (PyStr.lower (media_target_name name)) ".jfif" = false.
Proof.
  unfold media_target_name.
  destruct (PyStr.endswith (PyStr.lower name) ".jfif") eqn:E; [| exact E].
  unfold PyStr.lower. rewrite map_chars_append. apply jpg_is_not_jfif.
Qed.

(** X10: the renaming of media files is idempotent, and no renamed file has
    the extension [.jfif], in any letter case. *)
Theorem media_target_name_idempotent (name : string) :
  media_target_name (media_target_name name) = media_target_name name
  /\ PyStr.endswith (PyStr.lower (media_target_name name)) ".jfif" = false.
Proof.
  pose proof (media_target_name_not_jfif name) as H. split; [| exact H].
  unfold media_target_name at 1. now rewrite H.
Qed.

Section MediaFacts.
Context {A : Type}.

Lemma copy_media_file_keeps (fig_dir : gmap string A) (entry : string * option A)
    (key : string) :
  is_Some (fig_dir !! key) -> is_Some (copy_media_file fig_dir entry !! key).
Proof.
  intros H. unfold copy_media_file. destruct (snd entry) as [content |]; [| exact H].
  destruct (decide (media_target_name (fst entry) = key)) as [-> | Hne].
  - rewrite lookup_insert_eq. eauto.
  - now rewrite lookup_insert_ne.
Qed.

Lemma copy_media_keeps (entries : list (string * option A)) (fig_dir : gmap string A)
    (key : string) :
  is_Some (fig_dir !! key) ->
  is_Some (fold_left copy_media_file entries fig_dir !! key).
Proof.
  revert fig_dir. induction entries as [|e entries IH]; intros fig_dir H; [exact H |].
  cbn [fold_left]. apply IH. now apply copy_media_file_keeps.
Qed.

Lemma copy_media_file_other (fig_dir : gmap string A) (entry : string * option A)
    (key : string) :
  (forall content : A, snd entry = Some content -> media_target_name (fst entry) <> key) ->
  copy_media_file fig_dir entry !! key = fig_dir !! key.
Proof.
  intros H. unfold copy_media_file. destruct (snd entry) as [content |]; [| reflexivity].
  apply lookup_insert_ne. exact (H content eq_refl).
Qed.

(** A name that is the target of no regular file keeps what it held. *)
Lemma copy_media_untouched (entries : list (string * option A))
    (fig_dir : gmap string A) (key : string) :
  (forall (other : string) (content : A),
      In (other, Some content) entries -> media_target_name other <> key) ->
  fold_left copy_media_file entries fig_dir !! key = fig_dir !! key.
Proof.
  revert fig_dir. induction entries as [|e entries IH]; intros fig_dir H; [reflexivity |].
  cbn [fold_left]. rewrite IH by (intros other c Hin; apply (H other c); now right).
  apply copy_media_file_other. intros c Hc. apply (H (fst e) c). left.
  destruct e as [n o]. cbn [fst snd] in *. now subst o.
Qed.

(** The last regular file with a given target name is the one [fig/] holds
    under that name. *)
Lemma copy_media_last (before after : list (string * option A)) (name : string)
    (content : A) (fig_dir : gmap string A) :
  (forall (other : string) (c : A),
      In (other, Some c) after -> media_target_name other <> media_target_name name) ->
  copy_media (Some (before ++ (name, Some content) :: after)) fig_dir
    !! media_target_name name
  = Some content.
Proof.
  intros Hafter. cbn [copy_media]. rewrite fold_left_app. cbn [fold_left].
  rewrite (copy_media_untouched after _ _ Hafter).
  unfold copy_media_file at 1. cbn [fst snd]. apply lookup_insert_eq.
Qed.

(** X11: after the copy loop a regular file of [ppt/media] is in [fig/]
    under its target name, with its content, when no later regular file of
    the listing has the same target name (of [a.jfif] and [a.jpg] the later
    one is kept); a name that is the target of no regular file keeps what
    [fig/] held, and no name with the extension [.jfif] appears. *)
Theorem copy_media_complete (before after : list (string * option A)) (name : string)
    (content : A) (fig_dir : gmap string A) :
  (forall (other : string) (c : A),
      In (other, Some c) after -> media_target_name other <> media_target_name name) ->
  copy_media (Some (before ++ (name, Some content) :: after)) fig_dir
    !! media_target_name name
  = Some content
  /\ (forall key : string,
         (forall (other : string) (c : A),
             In (other, Some c) (before ++ (name, Some content) :: after) ->
             media_target_name other <> key) ->
         copy_media (Some (before ++ (name, Some content) :: after)) fig_dir !! key
         = fig_dir !! key)
  /\ (forall key : string,
         fig_dir !! key = None ->
         PyStr.endswith (PyStr.lower key) ".jfif" = true ->
         copy_media (Some (before ++ (name, Some content) :: after)) fig_dir !! key
         = None).
Proof.
  intros Hafter. split; [now apply copy_media_last |]. split.
  - intros key Hkey. cbn [copy_media]. now apply copy_media_untouched.
  - intros key Hnone Hjfif. cbn [copy_media].
    rewrite copy_media_untouched; [exact Hnone |].
    intros other c _ <-. rewrite media_target_name_not_jfif in Hjfif. discriminate.
Qed.

End MediaFacts.

Lemma copy_media_complete_witness :
  copy_media (Some ([("a.jfif", Some 1%nat)] ++ ("a.jpg", Some 2%nat) :: [("thumbs", None)]))
             (∅ : gmap string nat)
    !! media_target_name "a.jpg"
  = Some 2%nat
  /\ (forall key : string,
         (forall (other : string) (c : nat),
             In (other, Some c)
                ([("a.jfif", Some 1%nat)] ++ ("a.jpg", Some 2%nat) :: [("thumbs", None)]) ->
             media_target_name other <> key) ->
         copy_media (Some ([("a.jfif", Some 1%nat)] ++ ("a.jpg", Some 2%nat)
                             :: [("thumbs", None)])) (∅ : gmap string nat) !! key
         = (∅ : gmap string nat) !! key)
  /\ (forall key : string,
         (∅ : gmap string nat) !! key = None ->
         PyStr.endswith (PyStr.lower key) ".jfif" = true ->
         copy_media (Some ([("a.jfif", Some 1%nat)] ++ ("a.jpg", Some 2%nat)
                             :: [("thumbs", None)])) (∅ : gmap string nat) !! key
         = None).
Proof.
  apply (copy_media_complete [("a.jfif", Some 1%nat)] [("thumbs", None)] "a.jpg"
           2%nat (∅ : gmap string nat)).
  intros other c [H | []]. discriminate H.
Defined.

Lemma scan_picture_name (rels : gmap (option string) (option string))
    (pic : ET.element) (img : image) :
  scan_picture rels pic = OK (Some img) ->
  exists (rId : option string) (tgt : string),
    rels !! rId = Some (Some tgt)
    /\ name img = media_target_name (PyStr.split_last "/" tgt).
Proof.
  unfold scan_picture.
  destruct (match ET.find_desc_child _ _ pic with Some b => Some b | None => _ end)
    as [b |]; [| discriminate].
  destruct (rels !! ET.get b (qname ns_r "embed")) as [[tgt |] |] eqn:Er;
    cbn; try discriminate.
  destruct (read_position pic) as [pos | e]; cbn; [| discriminate].
  intros [= <-]. exists (ET.get b (qname ns_r "embed")), tgt. split; [exact Er |].
  reflexivity.
Qed.

(** X12: the name recorded for a picture is the [fig/] name of the last
    path component of a relationship target of the slide, and whenever that
    component is a regular file of [ppt/media] the copy loop writes a file
    of the recorded name. *)
Theorem image_names_copied_file (rels : gmap (option string) (option string))
    (pic : ET.element) (img : image) :
  scan_picture rels pic = OK (Some img) ->
  exists (rId : option string) (tgt : string),
    rels !! rId = Some (Some tgt)
    /\ name img = media_target_name (PyStr.split_last "/" tgt)
    /\ forall (A : Type) (entries : list (string * option A))
              (fig_dir : gmap string A) (content : A),
         In (PyStr.split_last "/" tgt, Some content) entries ->
         is_Some (copy_media (Some entries) fig_dir !! name img).
Proof.
  intros Hpic.
  destruct (scan_picture_name rels pic img Hpic) as (rId & tgt & Hr & Hname).
  exists rId, tgt. split; [exact Hr |]. split; [exact Hname |].
  intros A entries fig_dir content Hin. rewrite Hname.
  apply in_split in Hin. destruct Hin as (l1 & l2 & ->).
  cbn [copy_media]. rewrite fold_left_app. cbn [fold_left].
  apply copy_media_keeps. unfold copy_media_file. cbn [fst snd].
  rewrite lookup_insert_eq. eauto.
Qed.

Lemma lacks_append (sep : ascii) (a b : string) :
  lacks sep (a +:+ b) = (lacks sep a && lacks sep b)%bool.
Proof.
  induction a as [|c a IH]; [reflexivity |].
  rewrite append_cons. cbn [lacks]. rewrite IH. apply andb_assoc.
Qed.

Lemma lacks_take (sep : ascii) (n : nat) (s : string) :
  lacks sep s = true -> lacks sep (PyStr.take n s) = true.
Proof.
  revert s. induction n as [|n IH]; intros s; [reflexivity |].
  destruct s as [|c s]; [reflexivity |]. cbn [PyStr.take lacks].
  rewrite !andb_true_iff. intros [Hc Hs]. auto.
Qed.

Lemma after_last_lacks (sep : ascii) (s pre : string) :
  lacks sep pre = true -> lacks sep (PyStr.after_last sep s (pre +:+ s)) = true.
Proof.
  revert pre. induction s as [|c s IH]; intros pre Hpre; cbn [PyStr.after_last].
  - now rewrite append_empty_r.
  - destruct (Ascii.eqb c sep) eqn:E.
    + apply (IH ""). reflexivity.
    + replace (pre +:+ String c s) with ((pre +:+ String c "") +:+ s)
        by (now rewrite append_assoc).
      apply IH. rewrite lacks_append, Hpre. cbn. now rewrite E.
Qed.

(** X13: the name of a recorded image has no directory part (it holds no
    [/]) and never has the extension [.jfif], in any letter case. *)
Theorem image_name_is_basename (rels : gmap (option string) (option string))
    (pic : ET.element) (img : image) :
  scan_picture rels pic = OK (Some img) ->
  lacks "/" (name img) = true
  /\ PyStr.endswith (PyStr.lower (name img)) ".jfif" = false.
Proof.
  intros Hpic. destruct (scan_picture_name rels pic img Hpic) as (rId & tgt & _ & ->).
  split; [| apply media_target_name_not_jfif].
  assert (Hbase : lacks "/" (PyStr.split_last "/" tgt) = true)
    by (apply (after_last_lacks "/" tgt ""); reflexivity).
  unfold media_target_name. destruct (PyStr.endswith _ _); [| exact Hbase].
  rewrite lacks_append. apply andb_true_iff. split; [| reflexivity].
  now apply lacks_take.
Qed.

Lemma image_name_is_basename_witness :
  lacks "/" "image1.jpg" = true
  /\ PyStr.endswith (PyStr.lower "image1.jpg") ".jfif" = false.
Proof.
  apply (image_name_is_basename
           {[ Some "rId2" := Some "../media/image1.JFIF" ]}
           (Sample.picture "rId2" "600000" "1500000" "9000000" "4000000")
           {| name := "image1.jpg";
              position := {| Position.x := 600000; Position.y := 1500000;
                             Position.width := 9000000;
                             Position.height := 4000000 |} |}).
  vm_compute. reflexivity.
Defined.

Lemma image_names_copied_file_witness :
  exists (rId : option string) (tgt : string),
    ({[ Some "rId2" := Some "../media/image1.JFIF";
        Some "rId1" := Some "../slideLayouts/slideLayout2.xml" ]}
       : gmap (option string) (option string)) !! rId = Some (Some tgt)
    /\ "image1.jpg" = media_target_name (PyStr.split_last "/" tgt)
    /\ forall (A : Type) (entries : list (string * option A))
               (fig_dir : gmap string A) (content : A),
          In (PyStr.split_last "/" tgt, Some content) entries ->
          is_Some (copy_media (Some entries) fig_dir !! "image1.jpg").
Proof.
  apply (image_names_copied_file
           {[ Some "rId2" := Some "../media/image1.JFIF";
              Some "rId1" := Some "../slideLayouts/slideLayout2.xml" ]}
           (Sample.picture "rId2" "600000" "1500000" "9000000" "4000000")
           {| name := "image1.jpg";
              position := {| Position.x := 600000; Position.y := 1500000;
                             Position.width := 9000000;
                             Position.height := 4000000 |} |}).
  vm_compute. reflexivity.
Defined.

(** ** Slide numbers are integers *)

Lemma startswith_append (d r : string) : PyStr.startswith (d +:+ r) d = true.
Proof.
  induction d as [|c d IH]; [apply startswith_empty |].
  rewrite append_cons. cbn [PyStr.startswith]. now rewrite Ascii.eqb_refl.
Qed.

Lemma startswith_split (s p : string) :
  PyStr.startswith s p = true -> s = p +:+ PyStr.drop (String.length p) s.
Proof.
  revert s. induction p as [|a p IH]; intros s H; [reflexivity |].
  destruct s as [|b s]; [discriminate |]. cbn [PyStr.startswith] in H.
  apply andb_true_iff in H. destruct H as [Hab Hs]. apply Ascii.eqb_eq in Hab. subst b.
  rewrite append_cons. cbn [String.length PyStr.drop]. f_equal. now apply IH.
Qed.

Lemma drop_append (d r : string) : PyStr.drop (String.length d) (d +:+ r) = r.
Proof. induction d as [|c d IH]; [reflexivity | exact IH]. Qed.

Lemma diverge_append (a b r : string) :
  diverge a b = true -> PyStr.startswith (a +:+ r) b = false.
Proof.
  unfold diverge. revert b. induction a as [|c a IH]; intros b H.
  - rewrite startswith_empty, andb_false_r in H. discriminate.
  - destruct b as [|c' b]; [discriminate |].
    rewrite append_cons. cbn [PyStr.startswith] in *.
    destruct (Ascii.eqb_spec c' c) as [-> | Hne]; [| reflexivity].
    rewrite Ascii.eqb_refl in H. cbn [andb] in *. now apply IH.
Qed.

Lemma diverge_sym (a b : string) : diverge a b = diverge b a.
Proof. unfold diverge. apply andb_comm. Qed.

Lemma first_digit_In (table : list (string * Z)) (s : string) (d : string * Z) :
  PyStr.first_digit table s = Some d ->
  In d table /\ PyStr.startswith s (fst d) = true.
Proof.
  induction table as [|e table IH]; cbn [PyStr.first_digit]; [discriminate |].
  destruct (PyStr.startswith s (fst e)) eqn:E.
  - intros [= <-]. split; [now left | exact E].
  - intros H. destruct (IH H) as [Hin Hs]. split; [now right | exact Hs].
Qed.

(** In a table no entry of which is a prefix of another, a text that
    starts with an entry is read as that entry. *)
Lemma first_digit_found (table : list (string * Z)) (d : string * Z) (r : string) :
  pairwise_diverge (map fst table) = true ->
  In d table ->
  PyStr.first_digit table (fst d +:+ r) = Some d.
Proof.
  induction table as [|e table IH]; intros Hpair Hin; [destruct Hin |].
  cbn [map pairwise_diverge] in Hpair. apply andb_true_iff in Hpair.
  destruct Hpair as [Hhead Htail]. cbn [PyStr.first_digit].
  destruct Hin as [-> | Hin]; [now rewrite startswith_append |].
  assert (Hd : diverge (fst e) (fst d) = true).
  { apply (proj1 (forallb_forall _ _) Hhead). now apply in_map. }
  rewrite diverge_sym in Hd. rewrite (diverge_append _ _ r Hd). now apply IH.
Qed.

Lemma decimal_digits_diverge : pairwise_diverge (map fst PyStr.decimal_digits) = true.
Proof. vm_compute. reflexivity. Qed.

Lemma decimal_digits_apart :
  forallb (fun d => apart_from_blanks (fst d)) PyStr.decimal_digits = true.
Proof. vm_compute. reflexivity. Qed.

Lemma leading_digit_empty : PyStr.leading_digit "" = None.
Proof. vm_compute. reflexivity. Qed.

Lemma leading_digit_found (d : string * Z) (r : string) :
  In d PyStr.decimal_digits -> PyStr.leading_digit (fst d +:+ r) = Some d.
Proof. apply first_digit_found, decimal_digits_diverge. Qed.

Lemma decimal_digit_apart (d : string) :
  is_decimal_digit d -> apart_from_blanks d = true.
Proof.
  intros [v Hin].
  exact (proj1 (forallb_forall _ _) decimal_digits_apart (d, v) Hin).
Qed.

Lemma decimal_digit_length (d : string) :
  is_decimal_digit d -> (1 <= String.length d)%nat.
Proof.
  intros Hd. apply decimal_digit_apart in Hd. unfold apart_from_blanks in Hd.
  destruct d; [discriminate Hd | cbn; lia].
Qed.

Lemma first_prefix_none (ws : list string) (s : string) :
  (forall w, In w ws -> PyStr.startswith s w = false) ->
  PyStr.first_prefix ws s = None.
Proof.
  induction ws as [|w ws IH]; intros H; [reflexivity |].
  cbn [PyStr.first_prefix]. rewrite (H w) by now left.
  apply IH. intros w' Hw'. apply H. now right.
Qed.

Lemma lstrip_fuel_none (fuel : nat) (ws : list string) (s : string) :
  PyStr.first_prefix ws s = None -> PyStr.lstrip_fuel fuel ws s = s.
Proof. intros H. destruct fuel; cbn [PyStr.lstrip_fuel]; [reflexivity | now rewrite H]. Qed.

Lemma join_app (a b : list string) :
  PyStr.join (a ++ b) = PyStr.join a +:+ PyStr.join b.
Proof.
  induction a as [|x a IH]; [reflexivity |].
  cbn [app]. unfold PyStr.join in *. cbn [fold_right]. now rewrite IH, append_assoc.
Qed.

Lemma join_cons (d : string) (l : list string) :
  PyStr.join (d :: l) = d +:+ PyStr.join l.
Proof. reflexivity. Qed.

Lemma list_ascii_append (a b : string) :
  list_ascii_of_string (a +:+ b) = list_ascii_of_string a ++ list_ascii_of_string b.
Proof.
  induction a as [|c a IH]; [reflexivity |].
  rewrite append_cons. cbn [list_ascii_of_string app]. now rewrite IH.
Qed.

Lemma string_of_list_app (a b : list ascii) :
  string_of_list_ascii (a ++ b) = string_of_list_ascii a +:+ string_of_list_ascii b.
Proof.
  induction a as [|c a IH]; [reflexivity |].
  cbn [app string_of_list_ascii]. now rewrite IH.
Qed.

Lemma rev_append (a b : string) : PyStr.rev (a +:+ b) = PyStr.rev b +:+ PyStr.rev a.
Proof.
  unfold PyStr.rev. now rewrite list_ascii_append, List.rev_app_distr, string_of_list_app.
Qed.

Lemma rev_involutive (s : string) : PyStr.rev (PyStr.rev s) = s.
Proof.
  unfold PyStr.rev.
  now rewrite list_ascii_of_string_of_list_ascii, List.rev_involutive,
    string_of_list_ascii_of_string.
Qed.

(** A text of decimal digits has no blank to skip and no sign. *)
Lemma int_strip_digits (l : list string) :
  l <> [] -> Forall is_decimal_digit l -> PyStr.int_strip (PyStr.join l) = PyStr.join l.
Proof.
  intros Hne Hall. unfold PyStr.int_strip.
  assert (Hleft : PyStr.first_prefix PyStr.int_whitespace (PyStr.join l) = None).
  { destruct l as [|d l]; [congruence |]. rewrite join_cons.
    apply first_prefix_none. intros w Hw. apply diverge_append.
    pose proof (decimal_digit_apart d (Forall_inv Hall)) as Hd.
    unfold apart_from_blanks in Hd. apply andb_true_iff in Hd. destruct Hd as [Hd _].
    apply andb_true_iff in Hd. destruct Hd as [_ Hd].
    apply (proj1 (forallb_forall _ _) Hd). apply in_or_app. now left. }
  cbv zeta. rewrite (lstrip_fuel_none _ _ _ Hleft).
  assert (Hright : PyStr.first_prefix (map PyStr.rev PyStr.int_whitespace)
                     (PyStr.rev (PyStr.join l)) = None).
  { destruct (exists_last Hne) as (l0 & d & ->).
    rewrite join_app, join_cons. change (PyStr.join []) with "".
    rewrite append_empty_r, rev_append.
    apply first_prefix_none. intros w Hw. apply diverge_append.
    assert (Hdd : is_decimal_digit d).
    { apply (proj1 (List.Forall_forall _ _) Hall). apply in_or_app. right. now left. }
    pose proof (decimal_digit_apart d Hdd) as Hd.
    unfold apart_from_blanks in Hd. apply andb_true_iff in Hd. destruct Hd as [_ Hd].
    exact (proj1 (forallb_forall _ _) Hd w Hw). }
  rewrite (lstrip_fuel_none _ _ _ Hright). apply rev_involutive.
Qed.

Lemma split_sign_digits (d r : string) :
  is_decimal_digit d -> PyStr.split_sign (d +:+ r) = (false, d +:+ r).
Proof.
  intros Hd. pose proof (decimal_digit_apart d Hd) as Ha.
  unfold apart_from_blanks in Ha. apply andb_true_iff in Ha. destruct Ha as [Ha _].
  apply andb_true_iff in Ha. destruct Ha as [_ Ha].
  rewrite forallb_app in Ha. apply andb_true_iff in Ha. destruct Ha as [_ Ha].
  cbn [forallb] in Ha. rewrite andb_true_r in Ha.
  apply andb_true_iff in Ha. destruct Ha as [Hminus Hplus].
  pose proof (diverge_append d "-" r Hminus) as H1.
  pose proof (diverge_append d "+" r Hplus) as H2.
  destruct d as [|c d]; [destruct (decimal_digit_length "" Hd); cbn in *; lia |].
  rewrite append_cons in *. cbn [PyStr.startswith] in H1, H2.
  rewrite startswith_empty, andb_true_r in H1, H2.
  unfold PyStr.split_sign.
  rewrite (Ascii.eqb_sym c "-"), H1, (Ascii.eqb_sym c "+"), H2. reflexivity.
Qed.

Lemma digits_value_join (l : list string) :
  Forall is_decimal_digit l ->
  forall (fuel : nat) (acc : Z) (count : nat) (after_digit : bool),
    (String.length (PyStr.join l) < fuel)%nat ->
    l <> [] \/ after_digit = true ->
    exists v : Z,
      PyStr.digits_value fuel (PyStr.join l) acc count after_digit
      = Some (v, (count + length l)%nat).
Proof.
  induction 1 as [|d l Hd Hl IH]; intros fuel acc count b Hfuel Hne.
  - destruct fuel as [|fuel]; [lia |]. change (PyStr.join []) with "".
    cbn [PyStr.digits_value]. rewrite leading_digit_empty.
    destruct Hne as [Hne | ->]; [congruence |].
    exists acc. now rewrite Nat.add_0_r.
  - destruct fuel as [|fuel]; [lia |]. rewrite join_cons in *.
    destruct Hd as [v Hin]. cbn [PyStr.digits_value].
    rewrite (leading_digit_found (d, v) _ Hin). cbn [fst snd]. rewrite drop_append.
    pose proof (decimal_digit_length d (ex_intro _ v Hin)) as Hlen.
    rewrite length_append in Hfuel.
    destruct (IH fuel (10 * acc + v) (S count) true ltac:(lia) (or_intror eq_refl))
      as [k Hk].
    exists k. rewrite Hk. f_equal. f_equal. cbn [length]. lia.
Qed.

Lemma join_digits_length (l : list string) :
  Forall is_decimal_digit l -> (length l <= String.length (PyStr.join l))%nat.
Proof.
  induction 1 as [|d l Hd Hl IH]; [cbn; lia |].
  rewrite join_cons, length_append. pose proof (decimal_digit_length d Hd).
  cbn [length]. lia.
Qed.

(** [int] reads a non-empty text of decimal digits when, and only when,
    it has no more than [max_str_digits] digits. *)
Lemma int_digit_limit (l : list string) :
  l <> [] -> Forall is_decimal_digit l ->
  is_Some (PyStr.int (PyStr.join l)) <-> (length l <= PyStr.max_str_digits)%nat.
Proof.
  intros Hne Hall. unfold PyStr.int. rewrite (int_strip_digits l Hne Hall).
  destruct l as [|d l]; [congruence |].
  rewrite join_cons, (split_sign_digits d _ (Forall_inv Hall)), <- join_cons.
  destruct (digits_value_join (d :: l) Hall (S (String.length (PyStr.join (d :: l))))
              0 0%nat false ltac:(lia) (or_introl Hne)) as [v ->].
  change (0 + length (d :: l))%nat with (length (d :: l)).
  destruct (Nat.leb_spec (length (d :: l)) PyStr.max_str_digits) as [Hle | Hgt].
  - split; [intros _; exact Hle | intros _; eauto].
  - split; [intros [k Hk]; discriminate Hk | lia].
Qed.

Lemma int_digits (l : list string) :
  l <> [] -> Forall is_decimal_digit l ->
  (String.length (PyStr.join l) <= PyStr.max_str_digits)%nat ->
  exists k : Z, PyStr.int (PyStr.join l) = Some k.
Proof.
  intros Hne Hall Hlen. pose proof (join_digits_length l Hall) as Hcount.
  apply (int_digit_limit l Hne Hall). lia.
Qed.

Lemma span_digits_fuel_spec (fuel : nat) (s ds rest : string) :
  span_digits_fuel fuel s = (ds, rest) ->
  s = ds +:+ rest
  /\ exists l : list string, ds = PyStr.join l /\ Forall is_decimal_digit l.
Proof.
  revert s ds rest. induction fuel as [|fuel IH]; intros s ds rest;
    cbn [span_digits_fuel].
  - intros [= <- <-]. split; [reflexivity |]. exists []. now split.
  - destruct (PyStr.leading_digit s) as [d |] eqn:Ed.
    + destruct (span_digits_fuel fuel _) as [ds' rest'] eqn:Es. intros [= <- <-].
      apply first_digit_In in Ed. destruct Ed as [Hin Hsw].
      destruct (IH _ _ _ Es) as (Hs & l & -> & Hl). split.
      * rewrite append_assoc, <- Hs. now apply startswith_split.
      * exists (fst d :: l). split; [reflexivity |].
        constructor; [| exact Hl]. exists (snd d). now destruct d.
    + intros [= <- <-]. split; [reflexivity |]. exists []. now split.
Qed.

(** The run of digits is the longest one: what is left does not start with
    a digit. *)
Lemma span_digits_fuel_maximal (fuel : nat) (s ds rest : string) :
  (String.length s <= fuel)%nat ->
  span_digits_fuel fuel s = (ds, rest) ->
  PyStr.leading_digit rest = None.
Proof.
  revert s ds rest. induction fuel as [|fuel IH]; intros s ds rest Hlen;
    cbn [span_digits_fuel].
  - intros [= <- <-]. destruct s; [apply leading_digit_empty | cbn in Hlen; lia].
  - destruct (PyStr.leading_digit s) as [d |] eqn:Ed.
    + destruct (span_digits_fuel fuel _) as [ds' rest'] eqn:Es. intros [= <- <-].
      refine (IH _ _ _ _ Es).
      apply first_digit_In in Ed. destruct Ed as [Hin _].
      assert (Hd : is_decimal_digit (fst d)) by (exists (snd d); now destruct d).
      pose proof (decimal_digit_length (fst d) Hd).
      rewrite length_drop. lia.
    + intros [= <- <-]. exact Ed.
Qed.

Lemma span_digits_maximal (s ds rest : string) :
  span_digits s = (ds, rest) -> PyStr.leading_digit rest = None.
Proof. apply span_digits_fuel_maximal. lia. Qed.

(** Any fuel above the length of the text gives the same reading. *)
Lemma digits_value_fuel (fuel fuel' : nat) (s : string) (acc : Z) (count : nat)
    (after_digit : bool) :
  (String.length s < fuel)%nat -> (String.length s < fuel')%nat ->
  PyStr.digits_value fuel s acc count after_digit
  = PyStr.digits_value fuel' s acc count after_digit.
Proof.
  revert fuel' s acc count after_digit.
  induction fuel as [|fuel IH]; intros fuel' s acc count b H1 H2; [lia |].
  destruct fuel' as [|fuel']; [lia |]. cbn [PyStr.digits_value].
  destruct (PyStr.leading_digit s) as [d |] eqn:Ed.
  - apply first_digit_In in Ed. destruct Ed as [Hin Hsw].
    assert (Hd : is_decimal_digit (fst d)) by (exists (snd d); now destruct d).
    pose proof (decimal_digit_length (fst d) Hd).
    pose proof (f_equal String.length (startswith_split _ _ Hsw)) as Hs.
    rewrite length_append in Hs.
    apply IH; rewrite length_drop; lia.
  - destruct s as [|c r]; [reflexivity |].
    destruct (Ascii.eqb c "_" && b)%bool; [| reflexivity].
    cbn [String.length] in H1, H2. apply IH; lia.
Qed.

Lemma match_slide_here_digits (s ds : string) :
  match_slide_here s = Some ds ->
  (exists l : list string, l <> [] /\ ds = PyStr.join l /\ Forall is_decimal_digit l)
  /\ (String.length ds <= String.length s)%nat.
Proof.
  unfold match_slide_here. destruct (PyStr.startswith s "slide"); [| discriminate].
  destruct (span_digits (PyStr.drop 5 s)) as [ds' rest] eqn:Es.
  destruct (negb (PyStr.is_empty ds') && PyStr.startswith rest ".xml")%bool eqn:E;
    [| discriminate].
  intros [= <-]. apply andb_true_iff in E. destruct E as [Hne _].
  destruct (span_digits_fuel_spec _ _ _ _ Es) as (Hs & l & -> & Hl). split.
  - exists l. split; [| now split]. intros ->. discriminate Hne.
  - pose proof (length_drop 5 s) as Hd. rewrite Hs, length_append in Hd. lia.
Qed.

Lemma re_search_slide_digits (s ds : string) :
  re_search_slide s = Some ds ->
  (exists l : list string, l <> [] /\ ds = PyStr.join l /\ Forall is_decimal_digit l)
  /\ (String.length ds <= String.length s)%nat.
Proof.
  induction s as [|c s IH]; cbn [re_search_slide].
  - destruct (match_slide_here "") eqn:E; [| discriminate].
    intros [= <-]. exact (match_slide_here_digits _ _ E).
  - destruct (match_slide_here (String c s)) eqn:E.
    + intros [= <-]. exact (match_slide_here_digits _ _ E).
    + intros H. destruct (IH H) as [Hl Hlen]. split; [exact Hl |].
      cbn [String.length]. lia.
Qed.

(** The sort key of a file name: without a slide number the key raises
    [AttributeError]; with one, [int] reads it, the name being within the
    limit on the number of digits. *)
Lemma slide_key_cases (name : string) :
  match re_search_slide name with
  | Some ds =>
      (String.length name <= PyStr.max_str_digits)%nat ->
      exists k : Z, slide_key name = OK k /\ PyStr.int ds = Some k
  | None => slide_key name = Err AttributeError
  end.
Proof.
  unfold slide_key, slide_group1.
  destruct (re_search_slide name) as [ds |] eqn:E; [| reflexivity].
  intros Hlen.
  destruct (re_search_slide_digits _ _ E) as [(l & Hne & -> & Hall) Hds].
  destruct (int_digits l Hne Hall ltac:(lia)) as [k Hk]. exists k. cbn. now rewrite Hk.
Qed.

(** ** Outcome of [parse_slides_for_content] *)

Lemma mapM_first_error {A B : Type} (f : A -> result B) (l : list A) (e : exn) :
  Forall (fun a => (exists b, f a = OK b) \/ f a = Err e) l ->
  Exists (fun a => f a = Err e) l ->
  mapM f l = Err e.
Proof.
  induction 1 as [|a l Ha Hl IH]; intros Hex; [inversion Hex |].
  cbn. destruct Ha as [[b Hb] | Ha].
  - rewrite Hb. cbn. inversion Hex as [? ? Hhead | ? ? Htail]; subst; [congruence |].
    now rewrite (IH Htail).
  - now rewrite Ha.
Qed.


Section SortedByKeyMore.
Context {A : Type}.





End SortedByKeyMore.


Lemma mapM_some_error {A B : Type} (f : A -> result B) (l : list A) :
  Exists (fun a => exists e : exn, f a = Err e) l ->
  exists e : exn, mapM f l = Err e.
Proof.
  induction 1 as [a l [e Ha] | a l Hex [e IH]]; cbn.
  - exists e. now rewrite Ha.
  - destruct (f a) as [b | e']; cbn; [| now exists e'].
    exists e. now rewrite IH.
Qed.

(** X14: a selected file whose name holds no slide number always ends the
    run with an exception, whatever else the archive holds; the exception is
    [AttributeError] when no selected file name is longer than the limit of
    [int] on the number of digits. *)
Theorem unnumbered_file_aborts_run (d : ppt_dir)
    (listing : list (string * ET.xml_file)) (f : string * ET.xml_file) :
  slides_listing d = Some listing ->
  In f listing ->
  glob_slide_xml (fst f) = true ->
  re_search_slide (fst f) = None ->
  (exists e : exn, parse_slides_for_content d = Err e)
  /\ ((forall g, In g listing -> glob_slide_xml (fst g) = true ->
                 (String.length (fst g) <= PyStr.max_str_digits)%nat) ->
      parse_slides_for_content d = Err AttributeError).
Proof.
  intros Hd Hin Hglob Hnone. unfold parse_slides_for_content. rewrite Hd.
  assert (Hf : In f (List.filter (fun f => glob_slide_xml (fst f)) listing))
    by (apply filter_In; now split).
  assert (Hkey : slide_key (fst f) = Err AttributeError).
  { pose proof (slide_key_cases (fst f)) as Hk. now rewrite Hnone in Hk. }
  split.
  - destruct (mapM_some_error (fun f => k ← slide_key (fst f); OK (k, f))
                (List.filter (fun f => glob_slide_xml (fst f)) listing)) as [e He].
    + apply List.Exists_exists. exists f. split; [exact Hf |].
      exists AttributeError. now rewrite Hkey.
    + exists e. now rewrite He.
  - intros Hlen.
    rewrite (mapM_first_error _ _ AttributeError); [reflexivity | |].
    + apply List.Forall_forall. intros a Ha. apply filter_In in Ha.
      destruct Ha as [Ha Hg].
      pose proof (slide_key_cases (fst a)) as Hk.
      destruct (re_search_slide (fst a)) as [ds |].
      * destruct (Hk (Hlen a Ha Hg)) as (k & Hk' & _). left. exists (k, a).
        now rewrite Hk'.
      * right. now rewrite Hk.
    + apply List.Exists_exists. exists f. split; [exact Hf | now rewrite Hkey].
Qed.

Lemma unnumbered_file_aborts_run_witness :
  (exists e : exn, parse_slides_for_content Sample.stray_file = Err e)
  /\ ((forall g,
          In g [ ("slide1.xml", Sample.slide [Sample.shape (Some "title") "Intro"]);
                 ("slidefoo.xml", Sample.slide []) ] ->
          glob_slide_xml (fst g) = true ->
          (String.length (fst g) <= PyStr.max_str_digits)%nat) ->
      parse_slides_for_content Sample.stray_file = Err AttributeError).
Proof.
  apply (unnumbered_file_aborts_run Sample.stray_file
           [ ("slide1.xml", Sample.slide [Sample.shape (Some "title") "Intro"]);
             ("slidefoo.xml", Sample.slide []) ]
           ("slidefoo.xml", Sample.slide [])).
  - reflexivity.
  - right. left. reflexivity.
  - vm_compute. reflexivity.
  - vm_compute. reflexivity.
Defined.






(** ** Fields of the title page *)

Lemma unset_title_value (info : gmap string (option string)) (key : string) :
  unset info key = PyStr.is_empty (title_value info key).
Proof. unfold unset, title_value. now destruct (info !! key) as [[s |] |]. Qed.

Lemma title_value_insert (info : gmap string (option string)) (k k' t : string) :
  title_value (<[k := Some t]> info) k'
  = if String.eqb k k' then t else title_value info k'.
Proof.
  unfold title_value. destruct (String.eqb_spec k k') as [-> | Hne].
  - now rewrite lookup_insert_eq.
  - now rewrite lookup_insert_ne.
Qed.

Lemma shape_text_nonempty (sp : ET.element) (t : string) :
  shape_text sp = Some t -> PyStr.is_empty t = false.
Proof.
  unfold shape_text. destruct (omap _ _); [discriminate |].
  destruct (PyStr.is_empty _) eqn:E; [discriminate |]. now intros [= <-].
Qed.

Lemma typed_texts_nonempty (types : list string) (shapes : list ET.element) :
  Forall (fun t => PyStr.is_empty t = false) (typed_texts types shapes).
Proof.
  unfold typed_texts. induction shapes as [|sp shapes IH]; cbn [omap list_omap];
    [constructor |].
  destruct (typed_text types sp) as [t |] eqn:E; [| exact IH].
  constructor; [| exact IH].
  unfold typed_text in E. destruct (placeholder_type sp); [| discriminate].
  destruct (existsb _ _); [| discriminate]. exact (shape_text_nonempty _ _ E).
Qed.

Lemma typed_texts_snoc (types : list string) (shapes : list ET.element)
    (sp : ET.element) :
  typed_texts types (shapes ++ [sp])
  = typed_texts types shapes
      ++ match typed_text types sp with Some t => [t] | None => [] end.
Proof.
  unfold typed_texts. rewrite omap_app. cbn [omap list_omap].
  now destruct (typed_text types sp).
Qed.


Lemma nth_nonempty (l : list string) (n : nat) :
  Forall (fun t => PyStr.is_empty t = false) l ->
  PyStr.is_empty (List.nth n l "") = negb (Nat.ltb n (length l)).
Proof.
  intros H. revert n. induction H as [|t l Ht Hl IH]; intros n.
  - now destruct n.
  - destruct n as [|n]; [exact Ht |]. cbn [List.nth length]. apply IH.
Qed.

(** Computes the comparisons of two literal texts. *)
Ltac ground_eqb :=
  repeat match goal with
         | |- context [String.eqb ?a ?b] =>
             let v := eval vm_compute in (String.eqb a b) in
             match v with
             | true => change (String.eqb a b) with true
             | false => change (String.eqb a b) with false
             end
         end.

Lemma scan_title_shape_view (shapes : list ET.element) (sp : ET.element)
    (info : gmap string (option string)) :
  title_page_view info = title_page_of_shapes shapes ->
  title_page_view (scan_title_shape info sp) = title_page_of_shapes (shapes ++ [sp]).
Proof.
  unfold title_page_view, title_page_of_shapes. intros [= Ht Hs Ha Hi Hd].
  rewrite !typed_texts_snoc.
  pose proof (typed_texts_nonempty ["title"; "ctrTitle"] shapes) as Nt.
  pose proof (typed_texts_nonempty ["subtitle"] shapes) as Ns.
  pose proof (typed_texts_nonempty ["body"] shapes) as Nb.
  revert Ht Hs Ha Hi Hd Nt Ns Nb.
  generalize (typed_texts ["title"; "ctrTitle"] shapes) as Lt.
  generalize (typed_texts ["subtitle"] shapes) as Ls.
  generalize (typed_texts ["body"] shapes) as Lb.
  intros Lb Ls Lt Ht Hs Ha Hi Hd Nt Ns Nb.
  unfold typed_text, placeholder_type, scan_title_shape.
  destruct (ET.find_desc_child _ _ sp) as [ph |]; cbn [option_map].
  2:{ rewrite !app_nil_r. congruence. }
  generalize (default "" (ET.get ph "type")) as ty. intros ty.
  destruct (shape_text sp) as [text |].
  2:{ repeat match goal with |- context [if ?b then _ else _] => destruct b end;
      rewrite !app_nil_r; congruence. }
  cbn [existsb]. rewrite !orb_false_r, !unset_title_value, Ht, Hs, Ha, Hi, Hd.
  rewrite !nth_nonempty by assumption.
  clear Nt Ns Nb.
  destruct Lt as [|t0 Lt]; destruct Ls as [|s0 Ls];
    destruct Lb as [|b0 [|b1 [|b2 Lb]]];
    cbn [length Nat.ltb Nat.leb negb List.nth] in *;
    (destruct (ty =? "title") eqn:E1;
     [apply String.eqb_eq in E1; subst ty |
      destruct (ty =? "subtitle") eqn:E2;
      [apply String.eqb_eq in E2; subst ty |
       destruct (ty =? "ctrTitle") eqn:E3;
       [apply String.eqb_eq in E3; subst ty |
        destruct (ty =? "body") eqn:E4;
        [apply String.eqb_eq in E4; subst ty |]]]]);
    ground_eqb; cbn [andb orb]; cbv beta iota;
    rewrite ?title_value_insert; ground_eqb; cbn [andb orb]; cbv beta iota;
    cbn [app List.nth]; congruence.
Qed.

Lemma fold_title_shapes_view (shapes : list ET.element) :
  title_page_view (fold_left scan_title_shape shapes empty_title_info)
  = title_page_of_shapes shapes.
Proof.
  induction shapes as [|sp shapes IH] using rev_ind; [vm_compute; reflexivity |].
  rewrite fold_left_app. cbn [fold_left]. now apply scan_title_shape_view.
Qed.

(** X17: the title page is read off the placeholders of the first slide in
    document order: the title is the first non-empty text of a [title] or
    [ctrTitle] placeholder, the subtitle that of the first [subtitle]
    placeholder, and author, institute and date are the first, second and
    third non-empty [body] texts; a field without such a shape is empty, and
    shapes without a placeholder or beyond the third [body] are ignored. *)
Theorem title_page_fields (d : ppt_dir) (root : ET.element) :
  slide1_xml d = Some (ET.Document root) ->
  title_page_view (parse_title_page_info d)
  = title_page_of_shapes (ET.findall_desc (qname ns_p "sp") root).
Proof.
  intros H. unfold parse_title_page_info. rewrite H. cbn [ET.parse].
  apply fold_title_shapes_view.
Qed.

Lemma title_page_fields_witness :
  title_page_view (parse_title_page_info Sample2.title_deck)
  = title_page_of_shapes
      [ Sample.shape (Some "ctrTitle") "Intro";
        Sample.shape None "free text";
        Sample.shape (Some "subtitle") "Sub";
        Sample.shape (Some "body") "Dr. X";
        Sample.shape (Some "title") "Ignored";
        Sample.shape (Some "body") "Dept. Y";
        Sample.shape (Some "body") "2024";
        Sample.shape (Some "body") "extra" ].
Proof.
  apply (title_page_fields Sample2.title_deck
           (ET.Element (qname ns_p "sld") [] None
              [ ET.Element (qname ns_p "cSld") [] None
                  [ ET.Element (qname ns_p "spTree") [] None
                      [ Sample.shape (Some "ctrTitle") "Intro";
                        Sample.shape None "free text";
                        Sample.shape (Some "subtitle") "Sub";
                        Sample.shape (Some "body") "Dr. X";
                        Sample.shape (Some "title") "Ignored";
                        Sample.shape (Some "body") "Dept. Y";
                        Sample.shape (Some "body") "2024";
                        Sample.shape (Some "body") "extra" ] ] ])).
  vm_compute. reflexivity.
Defined.

Lemma scan_title_shape_lookup (info : gmap string (option string)) (sp : ET.element)
    (key : string) :
  (exists s : string, info !! key = Some (Some s)) ->
  exists s : string, scan_title_shape info sp !! key = Some (Some s).
Proof.
  intros H. unfold scan_title_shape.
  repeat match goal with
         | |- context [match ?x with _ => _ end] => destruct x
         end; try exact H;
    match goal with
    | |- context [<[?k := _]> _] =>
        destruct (decide (k = key)) as [<- | Hne];
        [rewrite lookup_insert_eq; eauto | now rewrite lookup_insert_ne]
    end.
Qed.

(** X18: the dictionary returned for the title page always holds each of
    its five keys with a text, never [None], whatever the archive holds; and
    without a first slide that parses every text is empty. *)
Theorem title_page_always_complete (d : ppt_dir) (key : string) :
  In key ["title"; "subtitle"; "author"; "institute"; "date"] ->
  (exists s : string, parse_title_page_info d !! key = Some (Some s))
  /\ (slide1_xml d = None \/ slide1_xml d = Some ET.Malformed ->
      parse_title_page_info d !! key = Some (Some "")).
Proof.
  intros Hkey.
  assert (Hempty : empty_title_info !! key = Some (Some "")).
  { cbn in Hkey. destruct Hkey as [<- | [<- | [<- | [<- | [<- | []]]]]];
      vm_compute; reflexivity. }
  split.
  - unfold parse_title_page_info.
    destruct (slide1_xml d) as [[| root] |]; cbn [ET.parse]; eauto.
    generalize (ET.findall_desc (qname ns_p "sp") root) as shapes.
    assert (H0 : exists s : string, empty_title_info !! key = Some (Some s)) by eauto.
    revert H0. generalize empty_title_info as info. intros info H0 shapes.
    revert info H0. induction shapes as [|sp shapes IH]; intros info H0; [exact H0 |].
    cbn [fold_left]. apply IH. now apply scan_title_shape_lookup.
  - unfold parse_title_page_info. intros [-> | ->]; exact Hempty.
Qed.

Lemma title_page_always_complete_witness :
  (exists s : string, parse_title_page_info Sample2.title_deck !! "author" = Some (Some s))
  /\ (slide1_xml Sample2.title_deck = None
      \/ slide1_xml Sample2.title_deck = Some ET.Malformed ->
      parse_title_page_info Sample2.title_deck !! "author" = Some (Some "")).
Proof.
  apply (title_page_always_complete Sample2.title_deck "author").
  cbn. auto.
Defined.


(** ** Recorded titles and texts are never empty *)

Lemma scan_shape_has_content (info : slide_info) (sp : ET.element) :
  has_content info -> has_content (scan_shape info sp).
Proof.
  intros [Ht Hx]. unfold scan_shape.
  destruct (omap _ _) as [|t0 ts]; [now split |].
  set (text := PyStr.strip _).
  destruct (PyStr.is_empty text) eqn:E; [now split |].
  assert (Hset : has_content (set_title text info)) by now split.
  assert (Happ : has_content (append_text text info)).
  { split; [exact Ht |]. cbn. apply Forall_app. split; [exact Hx |]. now repeat constructor. }
  repeat match goal with
         | |- context [match ?x with _ => _ end] => destruct x
         end; first [exact Hset | exact Happ | now split].
Qed.

Lemma scan_shapes_has_content (shapes : list ET.element) (info : slide_info) :
  has_content info -> has_content (fold_left scan_shape shapes info).
Proof.
  revert info. induction shapes as [|sp shapes IH]; intros info H; [exact H |].
  cbn [fold_left]. apply IH. now apply scan_shape_has_content.
Qed.

Lemma process_slide_has_content (d : ppt_dir) (f : string * ET.xml_file)
    (info : slide_info) :
  process_slide d f = OK info -> has_content info.
Proof.
  unfold process_slide. destruct (slide_group1 (fst f)) as [num | e]; cbn; [| discriminate].
  assert (H0 : has_content (default_slide_info num)) by (split; [reflexivity | constructor]).
  destruct (slides_rels d !! _) as [rf |]; [| now intros [= <-]].
  destruct (ET.parse rf) as [rel_root | e]; cbn; [| discriminate].
  intros [= <-]. unfold try_slide.
  destruct (ET.parse (snd f)) as [root | e]; [| exact H0].
  destruct (scan_pictures _ _) as [imgs r]. cbn [fst].
  destruct (scan_shapes_has_content (ET.findall_desc (qname ns_p "sp") root) _ H0)
    as [Ht Hx].
  now split.
Qed.

(** X19: every slide a run records has a non-empty title and no empty
    text, so no frame is emitted with an empty title or an empty item. *)
Theorem recorded_slides_have_content (d : ppt_dir) (slides : list slide_info) :
  parse_slides_for_content d = OK slides -> Forall has_content slides.
Proof.
  unfold parse_slides_for_content.
  destruct (slides_listing d) as [listing |]; [| intros [= <-]; constructor].
  destruct (mapM _ _) as [keyed | e]; cbn; [| discriminate].
  intros Hrun. apply mapM_Forall2 in Hrun.
  induction Hrun as [|f info l l' Hf Hl IH]; constructor; [| exact IH].
  exact (process_slide_has_content d f info Hf).
Qed.

Lemma recorded_slides_have_content_witness :
  Forall has_content
    [ {| number := "1"; images := []; title := "Intro"; texts := [] |};
      default_slide_info "2" ].
Proof.
  apply (recorded_slides_have_content Sample.broken_slide).
  vm_compute. reflexivity.
Defined.

(** ** Geometry: pictures that cover the slide, pictures without a transform *)

Lemma div_eucl_mul (a b : Z) : 0 < b -> Z.div_eucl (a * b) b = (a, 0).
Proof.
  intros Hb. pose proof (Z.div_mul a b ltac:(lia)) as Hq.
  pose proof (Z.mod_mul a b ltac:(lia)) as Hr.
  unfold Z.div, Z.modulo in Hq, Hr.
  destruct (Z.div_eucl (a * b) b) as [q r]. cbn in Hq, Hr. congruence.
Qed.

Lemma div_core_self (p : positive) :
  SFdiv_core_binary Float.prec Float.emax (Z.pos p) 0 (Z.pos p) 0
  = (2 ^ 53, -53, loc_Exact).
Proof.
  unfold SFdiv_core_binary. cbv zeta.
  replace (Zdigits2 (Z.pos p) + 0 - (Zdigits2 (Z.pos p) + 0)) with 0 by lia.
  change (Z.min (SpecFloat.fexp Float.prec Float.emax 0) (0 - 0)) with (-53).
  change (0 - 0 - -53) with 53. cbv iota.
  rewrite Z.shiftl_mul_pow2 by lia.
  rewrite (Z.mul_comm (Z.pos p)), div_eucl_mul by lia.
  unfold new_location. destruct (Z.even (Z.pos p)); reflexivity.
Qed.

(** An integer divided by itself is exactly [1.0]. *)
Lemma true_div_self (w : Z) : w <> 0 -> Float.true_div w w = OK one.
Proof.
  intros Hw. unfold Float.true_div.
  destruct (Z.eqb_spec w 0) as [-> | _]; [congruence |].
  destruct w as [|p|p]; [congruence | |]; cbn [Float.of_int SFdiv];
    rewrite div_core_self; vm_compute; reflexivity.
Qed.

(** Zero divided by a non-zero integer is a zero. *)
Lemma true_div_zero_numerator (w : Z) :
  w <> 0 -> exists s : bool, Float.true_div 0 w = OK (S754_zero s).
Proof.
  intros Hw. unfold Float.true_div.
  destruct (Z.eqb_spec w 0) as [-> | _]; [congruence |].
  destruct w as [|p|p]; [congruence | |]; cbn [Float.of_int SFdiv]; eauto.
Qed.

(** X20: a picture placed at the origin with exactly the declared slide
    size is a full-slide background whatever the slide size, and writes no
    image inclusion. *)
Theorem full_cover_never_included (img_name : string) (paper_width paper_height : Z) :
  paper_width <> 0 -> paper_height <> 0 ->
  emit_image {| name := img_name;
                position := {| Position.x := 0; Position.y := 0;
                               Position.width := paper_width;
                               Position.height := paper_height |} |}
             paper_width paper_height
  = OK [].
Proof.
  intros Hw Hh. unfold emit_image, convert_ppt_to_beamer_position.
  cbn [position Position.x Position.y Position.width Position.height].
  destruct (true_div_zero_numerator _ Hw) as [sx ->].
  destruct (true_div_zero_numerator _ Hh) as [sy ->].
  rewrite !true_div_self by assumption.
  change (OK ?a ≫= ?k) with (k a). cbv beta.
  change (OK ?a ≫= ?k) with (k a). cbv beta.
  change (OK ?a ≫= ?k) with (k a). cbv beta.
  change (OK ?a ≫= ?k) with (k a). cbv beta.
  change (OK ?a ≫= ?k) with (k a). cbv beta zeta.
  destruct (_ || _)%bool; [reflexivity |].
  replace (is_full_slide_background _ _) with true; [reflexivity |].
  destruct sx, sy; vm_compute; reflexivity.
Qed.

Lemma full_cover_never_included_witness :
  emit_image {| name := "cover.png";
                position := {| Position.x := 0; Position.y := 0;
                               Position.width := 9144000;
                               Position.height := 6858000 |} |}
             9144000 6858000
  = OK [].
Proof.
  apply (full_cover_never_included "cover.png" 9144000 6858000); lia.
Defined.

(** X21: a picture without a transform element, recorded at position
    (0, 0, 0, 0), is never taken for a background: unless its name is a TIFF
    name, its inclusion is written. *)
Theorem untransformed_picture_included (img_name : string)
    (paper_width paper_height : Z) :
  paper_width <> 0 -> paper_height <> 0 ->
  (PyStr.endswith (PyStr.lower (emf_to_pdf img_name)) ".tiff"
   || PyStr.endswith (PyStr.lower (emf_to_pdf img_name)) ".tif")%bool = false ->
  emit_image {| name := img_name; position := Position.zero |}
             paper_width paper_height
  = OK (includegraphics (emf_to_pdf img_name)).
Proof.
  intros Hw Hh Htiff. unfold emit_image, convert_ppt_to_beamer_position, Position.zero.
  cbn [position name Position.x Position.y Position.width Position.height].
  destruct (true_div_zero_numerator _ Hw) as [sx ->].
  destruct (true_div_zero_numerator _ Hh) as [sy ->].
  change (OK ?a ≫= ?k) with (k a). cbv beta.
  change (OK ?a ≫= ?k) with (k a). cbv beta.
  change (OK ?a ≫= ?k) with (k a). cbv beta.
  change (OK ?a ≫= ?k) with (k a). cbv beta.
  change (OK ?a ≫= ?k) with (k a). cbv beta zeta.
  rewrite Htiff.
  replace (is_full_slide_background _ _) with false; [reflexivity |].
  destruct sx, sy; vm_compute; reflexivity.
Qed.

Lemma untransformed_picture_included_witness :
  emit_image {| name := "logo.png"; position := Position.zero |}
             default_paper_width default_paper_height
  = OK (includegraphics (emf_to_pdf "logo.png")).
Proof.
  apply (untransformed_picture_included "logo.png"
           default_paper_width default_paper_height).
  - discriminate.
  - discriminate.
  - vm_compute. reflexivity.
Defined.

(** ** [generate_main_tex]: when it completes, and what it leaves out *)

Lemma emit_image_in_range (img : image) (paper_width paper_height : Z) :
  paper_width <> 0 -> paper_height <> 0 -> in_float_range (position img) ->
  exists ls : list string, emit_image img paper_width paper_height = OK ls.
Proof.
  intros Hw Hh Hr. unfold emit_image.
  destruct (convert_total _ _ _ Hw Hh Hr) as [p ->].
  change (OK p ≫= ?k) with (k p). cbv beta zeta.
  repeat match goal with |- context [if ?b then _ else _] => destruct b end; eauto.
Qed.

Lemma emit_images_in_range (imgs : list image) (paper_width paper_height : Z) :
  paper_width <> 0 -> paper_height <> 0 ->
  Forall (fun img => in_float_range (position img)) imgs ->
  snd (emit_images imgs paper_width paper_height) = OK ().
Proof.
  intros Hw Hh. induction 1 as [|img imgs Himg Himgs IH]; [reflexivity |].
  cbn [emit_images].
  destruct (emit_image_in_range img _ _ Hw Hh Himg) as [ls ->].
  destruct (emit_images imgs paper_width paper_height) as [more r]. exact IH.
Qed.

Lemma emit_slide_in_range (slide : slide_info) (paper_width paper_height : Z) :
  paper_width <> 0 -> paper_height <> 0 ->
  Forall (fun img => in_float_range (position img)) (images slide) ->
  snd (emit_slide slide paper_width paper_height) = OK ().
Proof.
  intros Hw Hh Hr. unfold emit_slide.
  destruct (String.eqb _ _); [reflexivity |].
  pose proof (emit_images_in_range _ _ _ Hw Hh Hr) as H.
  destruct (emit_images _ _ _) as [imgs r]. cbn in H. now rewrite H.
Qed.

Lemma last_snoc (l : list string) (x : string) : List.last (l ++ [x]) "" = x.
Proof.
  induction l as [|a l IH]; [reflexivity |].
  cbn [app]. destruct (l ++ [x]) eqn:E; [now destruct l | exact IH].
Qed.

(** X22: on a slide size with non-zero width and height and pictures whose
    coordinates are below [2^1023] in magnitude the emitter completes, and
    the text it wrote ends with the line that closes the document. *)
Theorem generate_main_tex_completes (slides_content : list slide_info)
    (paper_width paper_height : Z) (title_info : gmap string (option string)) :
  paper_width <> 0 -> paper_height <> 0 ->
  Forall (fun slide => Forall (fun img => in_float_range (position img)) (images slide))
         slides_content ->
  snd (generate_main_tex slides_content paper_width paper_height title_info) = OK ()
  /\ List.last (fst (generate_main_tex slides_content paper_width paper_height
                       title_info)) ""
     = end_document.
Proof.
  intros Hw Hh Hr. unfold generate_main_tex.
  assert (Hbody : snd (emit_slides slides_content paper_width paper_height) = OK ()).
  { induction Hr as [|slide slides Hs Hss IH]; [reflexivity |].
    cbn [emit_slides].
    pose proof (emit_slide_in_range slide _ _ Hw Hh Hs) as H1.
    destruct (emit_slide slide paper_width paper_height) as [ls r]. cbn in H1. subst r.
    destruct (emit_slides slides paper_width paper_height) as [more r']. exact IH. }
  destruct (emit_slides slides_content paper_width paper_height) as [body r].
  cbn in Hbody. subst r. cbn [fst snd]. split; [reflexivity |].
  rewrite app_assoc. apply last_snoc.
Qed.

Lemma generate_main_tex_completes_witness :
  snd (generate_main_tex
         [ {| number := "2"; images := [Sample.chart_emf; Sample.backdrop];
              title := "Methods"; texts := ["Point A"] |} ]
         12192000 6858000 ∅) = OK ()
  /\ List.last (fst (generate_main_tex
                       [ {| number := "2"; images := [Sample.chart_emf; Sample.backdrop];
                            title := "Methods"; texts := ["Point A"] |} ]
                       12192000 6858000 ∅)) ""
     = end_document.
Proof.
  apply (generate_main_tex_completes
           [ {| number := "2"; images := [Sample.chart_emf; Sample.backdrop];
                title := "Methods"; texts := ["Point A"] |} ]
           12192000 6858000 ∅).
  - lia.
  - lia.
  - repeat constructor; vm_compute; reflexivity.
Defined.

Lemma emit_images_zero_width (imgs : list image) (paper_height : Z) :
  emit_images imgs 0 paper_height
  = match imgs with
    | [] => ([], OK ())
    | _ => ([], Err ZeroDivisionError)
    end.
Proof. destruct imgs as [|img imgs]; reflexivity. Qed.

Lemma emit_slide_zero_width (slide : slide_info) (paper_height : Z) :
  snd (emit_slide slide 0 paper_height)
  = if (String.eqb (number slide) "1" || match images slide with [] => true | _ => false end)%bool
    then OK () else Err ZeroDivisionError.
Proof.
  unfold emit_slide. destruct (String.eqb _ _); [reflexivity |].
  rewrite emit_images_zero_width. now destruct (images slide).
Qed.

(** Two texts that differ within their literal prefixes. *)
Ltac differs :=
  let H := fresh "H" in
  intros H; unfold end_document in H; rewrite ?append_cons in H; discriminate H.

Lemma emit_slide_lines (slide : slide_info) (paper_width paper_height : Z)
    (line : string) :
  In line (fst (emit_slide slide paper_width paper_height)) -> line <> end_document.
Proof.
  assert (Himg : forall img ls, emit_image img paper_width paper_height = OK ls ->
                                In line ls -> line <> end_document).
  { intros img ls. unfold emit_image.
    destruct (convert_ppt_to_beamer_position _ _ _) as [p | e]; [| discriminate].
    change (OK p ≫= ?k) with (k p). cbv beta zeta.
    repeat match goal with |- context [if ?b then _ else _] => destruct b end;
      intros [= <-]; cbn [In includegraphics]; try tauto.
    intros [<- | [<- | [<- | []]]]; differs. }
  assert (Himgs : forall imgs, In line (fst (emit_images imgs paper_width paper_height)) ->
                               line <> end_document).
  { induction imgs as [|img imgs IH]; [intros [] |]. cbn [emit_images].
    destruct (emit_image img paper_width paper_height) as [ls | e] eqn:E; [| intros []].
    destruct (emit_images imgs paper_width paper_height) as [more r]. cbn [fst] in *.
    intros Hin. apply in_app_or in Hin. destruct Hin as [Hin | Hin]; eauto. }
  assert (Hitems : In line (itemize (texts slide)) -> line <> end_document).
  { unfold itemize. destruct (texts slide) as [|t ts]; [intros [] |].
    intros Hin. apply in_app_or in Hin. destruct Hin as [[<- | []] | Hin]; [differs |].
    apply in_app_or in Hin. destruct Hin as [Hin | [<- | []]]; [| differs].
    apply in_map_iff in Hin. destruct Hin as (t' & <- & _). differs. }
  unfold emit_slide. destruct (String.eqb _ _); [intros [] |].
  specialize (Himgs (images slide)).
  destruct (emit_images (images slide) paper_width paper_height) as [imgs r].
  cbn [fst] in Himgs.
  assert (Hhead : forall tail,
             In line ([ "% Slide " +:+ number slide +:+ nl;
                        "\begin{frame}" +:+ "{" +:+ escape_latex (Some (title slide))
                                        +:+ "}" +:+ nl ]
                        ++ itemize (texts slide) ++ imgs ++ tail) ->
             (forall l, In l tail -> l <> end_document) -> line <> end_document).
  { intros tail Hin Htail. cbn [app In] in Hin.
    destruct Hin as [<- | [<- | Hin]]; [differs | differs |].
    apply in_app_or in Hin. destruct Hin as [Hin | Hin]; [exact (Hitems Hin) |].
    apply in_app_or in Hin.
    destruct Hin as [Hin | Hin]; [exact (Himgs Hin) | exact (Htail _ Hin)]. }
  destruct r as [u | e]; cbn [fst]; intros Hin.
  - apply (Hhead _ Hin). intros l [<- | []]. differs.
  - rewrite <- (app_nil_r imgs) in Hin. apply (Hhead _ Hin). intros l [].
Qed.

Lemma preamble_lines (title_info : gmap string (option string)) (line : string) :
  In line (preamble title_info) -> line <> end_document.
Proof.
  unfold preamble. cbn [In]. intros H.
  repeat (destruct H as [<- | H]; [differs |]). destruct H.
Qed.

(** X23: on a presentation that declares width 0 the emitter stops with
    [ZeroDivisionError] at the first picture of a slide other than slide 1,
    and the text written so far does not hold the line that closes the
    document. *)
Theorem generate_main_tex_zero_width (slides_content : list slide_info)
    (paper_height : Z) (title_info : gmap string (option string)) :
  Exists (fun slide => number slide <> "1" /\ images slide <> []) slides_content ->
  snd (generate_main_tex slides_content 0 paper_height title_info)
  = Err ZeroDivisionError
  /\ ~ In end_document
        (fst (generate_main_tex slides_content 0 paper_height title_info)).
Proof.
  intros Hex. unfold generate_main_tex.
  assert (Hbody : snd (emit_slides slides_content 0 paper_height) = Err ZeroDivisionError
                  /\ forall line, In line (fst (emit_slides slides_content 0 paper_height)) ->
                                  line <> end_document).
  { induction slides_content as [|slide slides IH]; [inversion Hex |].
    cbn [emit_slides].
    pose proof (emit_slide_zero_width slide paper_height) as Hs.
    pose proof (emit_slide_lines slide 0 paper_height) as Hl.
    destruct (emit_slide slide 0 paper_height) as [ls r]. cbn [fst snd] in Hs, Hl.
    destruct (String.eqb (number slide) "1" || _)%bool eqn:Eskip; subst r.
    - assert (Hrest : Exists (fun s => number s <> "1" /\ images s <> []) slides).
      { inversion Hex as [? ? [Hn Hi] | ? ? Hrest]; subst; [| exact Hrest].
        apply orb_true_iff in Eskip. destruct Eskip as [E | E].
        - apply String.eqb_eq in E. congruence.
        - destruct (images slide); [congruence | discriminate]. }
      destruct (IH Hrest) as [IH1 IH2].
      destruct (emit_slides slides 0 paper_height) as [more r']. cbn [fst snd] in *.
      split; [exact IH1 |]. intros line Hin. apply in_app_or in Hin.
      destruct Hin as [Hin | Hin]; [exact (Hl line Hin) | auto].
    - cbn [fst snd]. split; [reflexivity | exact Hl]. }
  destruct (emit_slides slides_content 0 paper_height) as [body r].
  cbn [fst snd] in Hbody. destruct Hbody as [-> Hlines]. cbn [fst snd].
  split; [reflexivity |]. intros Hin. apply in_app_or in Hin.
  destruct Hin as [Hin | Hin].
  - exact (preamble_lines _ _ Hin eq_refl).
  - exact (Hlines _ Hin eq_refl).
Qed.

Lemma generate_main_tex_zero_width_witness :
  snd (generate_main_tex
         [ {| number := "2"; images := [Sample.backdrop]; title := "Methods";
              texts := [] |} ] 0 6858000 ∅)
  = Err ZeroDivisionError
  /\ ~ In end_document
        (fst (generate_main_tex
                [ {| number := "2"; images := [Sample.backdrop]; title := "Methods";
                     texts := [] |} ] 0 6858000 ∅)).
Proof.
  apply (generate_main_tex_zero_width
           [ {| number := "2"; images := [Sample.backdrop]; title := "Methods";
                texts := [] |} ] 6858000 ∅).
  constructor. split; discriminate.
Defined.

Lemma emit_slides_without_slide_one (slides : list slide_info)
    (paper_width paper_height : Z) :
  emit_slides (List.filter (fun slide => negb (String.eqb (number slide) "1")) slides)
              paper_width paper_height
  = emit_slides slides paper_width paper_height.
Proof.
  induction slides as [|slide slides IH]; [reflexivity |].
  cbn [List.filter emit_slides].
  destruct (String.eqb (number slide) "1") eqn:E; cbn [negb].
  - unfold emit_slide at 1. rewrite E.
    destruct (emit_slides slides paper_width paper_height) as [more r].
    cbn [app]. exact IH.
  - cbn [emit_slides]. destruct (emit_slide slide paper_width paper_height) as [ls r].
    destruct r as [u | e]; [| reflexivity]. now rewrite IH.
Qed.

(** X24: the slide numbered 1 never reaches the body of the document:
    dropping every slide whose number is the text [1] changes neither the
    text written nor the outcome. *)
Theorem slide_one_never_emitted (slides_content : list slide_info)
    (paper_width paper_height : Z) (title_info : gmap string (option string)) :
  generate_main_tex
    (List.filter (fun slide => negb (String.eqb (number slide) "1")) slides_content)
    paper_width paper_height title_info
  = generate_main_tex slides_content paper_width paper_height title_info.
Proof. unfold generate_main_tex. now rewrite emit_slides_without_slide_one. Qed.

(** ** [main]: from the first slide to the title page of the document *)

Lemma title_field_value (title_info : gmap string (option string)) (key : string) :
  title_field title_info key = escape_latex (Some (title_value title_info key)).
Proof.
  unfold title_field, title_value. now destruct (title_info !! key) as [[s |] |].
Qed.

(** X25: in a run that reaches the emitter, the [\author], [\title],
    [\subtitle], [\institute] and [\date] lines of the written text carry,
    escaped, the values the title page reads off the first slide: the first
    [body] text, the first title text, the first [subtitle] text and the
    second and third [body] texts. *)
Theorem title_page_written {A : Type} (d : ppt_dir)
    (media : option (list (string * option A))) (fig_dir fig_dir' : gmap string A)
    (text : list string) (r : result unit) (root : ET.element) :
  process_archive d media fig_dir = OK (fig_dir', (text, r)) ->
  slide1_xml d = Some (ET.Document root) ->
  firstn 5 (List.skipn 3 text)
  = map (fun '(command, value) =>
           command +:+ "{" +:+ escape_latex (Some value) +:+ "}" +:+ nl)
      [ ("\author", List.nth 0 (typed_texts ["body"]
                                  (ET.findall_desc (qname ns_p "sp") root)) "");
        ("\title", List.nth 0 (typed_texts ["title"; "ctrTitle"]
                                 (ET.findall_desc (qname ns_p "sp") root)) "");
        ("\subtitle", List.nth 0 (typed_texts ["subtitle"]
                                    (ET.findall_desc (qname ns_p "sp") root)) "");
        ("\institute", List.nth 1 (typed_texts ["body"]
                                     (ET.findall_desc (qname ns_p "sp") root)) "");
        ("\date", List.nth 2 (typed_texts ["body"]
                                (ET.findall_desc (qname ns_p "sp") root)) "") ].
Proof.
  intros Hrun Hslide.
  pose proof (fold_title_shapes_view (ET.findall_desc (qname ns_p "sp") root)) as Hview.
  unfold title_page_view, title_page_of_shapes in Hview.
  injection Hview as Ht Hs Ha Hi Hdt.
  unfold process_archive in Hrun.
  destruct (parse_slides_for_content d) as [slides | e]; [| discriminate].
  cbn in Hrun. injection Hrun as _ Hgen.
  unfold generate_main_tex in Hgen.
  unfold parse_title_page_info in Hgen. rewrite Hslide in Hgen. cbn [ET.parse] in Hgen.
  destruct (emit_slides _ _ _) as [body [u | e]]; injection Hgen as <- _;
    unfold preamble; rewrite !title_field_value, Ht, Hs, Ha, Hi, Hdt;
    cbn [app List.skipn firstn map]; rewrite ?append_assoc; reflexivity.
Qed.

Lemma title_page_written_witness :
  firstn 5 (List.skipn 3
              (fst (generate_main_tex
                      [ {| number := "1"; images := []; title := "Intro"; texts := [] |} ]
                      default_paper_width default_paper_height
                      (parse_title_page_info
                         {| slides_listing :=
                              Some [("slide1.xml",
                                     Sample.slide [Sample.shape (Some "ctrTitle") "Intro"])];
                            slides_rels := <["slide1.xml.rels" := Sample.rels []]> ∅;
                            presentation_xml := None |}))))
  = [ "\author{}" +:+ nl; "\title{Intro}" +:+ nl; "\subtitle{}" +:+ nl;
      "\institute{}" +:+ nl; "\date{}" +:+ nl ].
Proof.
  rewrite (@title_page_written nat
             {| slides_listing :=
                  Some [("slide1.xml",
                         Sample.slide [Sample.shape (Some "ctrTitle") "Intro"])];
                slides_rels := <["slide1.xml.rels" := Sample.rels []]> ∅;
                presentation_xml := None |}
             None ∅ ∅ _ (OK ())
             (ET.Element (qname ns_p "sld") [] None
                [ ET.Element (qname ns_p "cSld") [] None
                    [ ET.Element (qname ns_p "spTree") [] None
                        [ Sample.shape (Some "ctrTitle") "Intro" ] ] ])).
  - vm_compute. reflexivity.
  - vm_compute. reflexivity.
  - vm_compute. reflexivity.
Defined.

(** ** The picture loop after an exception *)

Lemma scan_pictures_app_error (rels : gmap (option string) (option string))
    (pics rest : list ET.element) (bad : ET.element) (e : exn) :
  snd (scan_pictures rels pics) = OK () ->
  scan_picture rels bad = Err e ->
  scan_pictures rels (pics ++ bad :: rest) = (fst (scan_pictures rels pics), Err e).
Proof.
  intros Hok Hbad. induction pics as [|pic pics IH]; cbn [app scan_pictures].
  - now rewrite Hbad.
  - cbn [scan_pictures] in Hok.
    destruct (scan_picture rels pic) as [oi | e']; [| discriminate Hok].
    destruct (scan_pictures rels pics) as [imgs r]. cbn [snd] in Hok. subst r.
    rewrite (IH eq_refl). reflexivity.
Qed.

(** X26: when reading a picture raises, the slide keeps its title, its
    texts and the images of the pictures before it; the failing picture and
    all later ones are dropped, whatever they hold. *)
Theorem pictures_after_failure_dropped (rels : gmap (option string) (option string))
    (root : ET.element) (info : slide_info) (pics rest : list ET.element)
    (bad : ET.element) (e : exn) :
  ET.findall_desc (qname ns_p "pic") root = pics ++ bad :: rest ->
  snd (scan_pictures rels pics) = OK () ->
  scan_picture rels bad = Err e ->
  fst (try_slide (ET.Document root) rels info)
  = append_images (fst (scan_pictures rels pics))
      (fold_left scan_shape (ET.findall_desc (qname ns_p "sp") root) info).
Proof.
  intros Hpics Hok Hbad. unfold try_slide. cbn [ET.parse].
  rewrite Hpics, (scan_pictures_app_error rels pics rest bad e Hok Hbad). reflexivity.
Qed.

Lemma pictures_after_failure_dropped_witness :
  fst (try_slide
         (ET.Document
            (ET.Element (qname ns_p "spTree") [] None
               [ Sample.shape (Some "title") "Methods";
                 Sample.picture "rId2" "600000" "1500000" "9000000" "4000000";
                 Sample.picture "rId2" "oops" "0" "1" "1";
                 Sample.picture "rId2" "1" "2" "3" "4" ]))
         {[ Some "rId2" := Some "../media/image1.png" ]} (default_slide_info "2"))
  = append_images
      (fst (scan_pictures {[ Some "rId2" := Some "../media/image1.png" ]}
              [Sample.picture "rId2" "600000" "1500000" "9000000" "4000000"]))
      (fold_left scan_shape
         (ET.findall_desc (qname ns_p "sp")
            (ET.Element (qname ns_p "spTree") [] None
               [ Sample.shape (Some "title") "Methods";
                 Sample.picture "rId2" "600000" "1500000" "9000000" "4000000";
                 Sample.picture "rId2" "oops" "0" "1" "1";
                 Sample.picture "rId2" "1" "2" "3" "4" ]))
         (default_slide_info "2")).
Proof.
  apply (pictures_after_failure_dropped
           {[ Some "rId2" := Some "../media/image1.png" ]}
           (ET.Element (qname ns_p "spTree") [] None
              [ Sample.shape (Some "title") "Methods";
                Sample.picture "rId2" "600000" "1500000" "9000000" "4000000";
                Sample.picture "rId2" "oops" "0" "1" "1";
                Sample.picture "rId2" "1" "2" "3" "4" ])
           (default_slide_info "2")
           [Sample.picture "rId2" "600000" "1500000" "9000000" "4000000"]
           [Sample.picture "rId2" "1" "2" "3" "4"]
           (Sample.picture "rId2" "oops" "0" "1" "1")
           ValueError).
  - vm_compute. reflexivity.
  - vm_compute. reflexivity.
  - vm_compute. reflexivity.
Defined.

(** ** A lowercase [.emf] name is referenced as [.pdf] *)

Lemma drop_all (s : string) : PyStr.drop (String.length s) s = "".
Proof. induction s as [|c s IH]; [reflexivity | exact IH]. Qed.

Lemma endswith_append (pre p : string) : PyStr.endswith (pre +:+ p) p = true.
Proof.
  unfold PyStr.endswith. rewrite length_append.
  replace (String.length pre + String.length p - String.length p)%nat
    with (String.length pre) by lia.
  rewrite drop_append_le, drop_all by lia.
  apply andb_true_iff. split; [apply Nat.leb_le; lia | apply String.eqb_refl].
Qed.

Lemma replace_fuel_empty (fuel : nat) (old new : string) :
  PyStr.replace_fuel fuel "" old new = "".
Proof. destruct fuel; reflexivity. Qed.

(** Replacing [.emf] in a text that ends with it gives a text that ends
    with [.pdf]: the last occurrence is never swallowed by an earlier one. *)
Lemma replace_emf_suffix (n : nat) (pre : string) (fuel : nat) :
  (String.length pre <= n)%nat -> (String.length pre + 4 <= fuel)%nat ->
  exists stem : string,
    PyStr.replace_fuel fuel (pre +:+ ".emf") ".emf" ".pdf" = stem +:+ ".pdf".
Proof.
  revert pre fuel. induction n as [|n IH]; intros pre fuel Hn Hfuel.
  - destruct pre; [| cbn in Hn; lia].
    destruct fuel as [|fuel]; [cbn in Hfuel; lia |].
    exists "". cbn. now rewrite replace_fuel_empty.
  - destruct pre as [|c pre].
    { destruct fuel as [|fuel]; [cbn in Hfuel; lia |].
      exists "". cbn. now rewrite replace_fuel_empty. }
    destruct fuel as [|fuel]; [cbn in Hfuel; lia |].
    cbn [String.length] in Hn, Hfuel.
    rewrite append_cons. cbn [PyStr.replace_fuel].
    destruct (PyStr.startswith (String c (pre +:+ ".emf")) ".emf") eqn:E.
    + destruct pre as [|a [|b [|c3 pre]]];
        rewrite ?append_cons in E;
        try (change ("" +:+ ".emf") with ".emf" in E;
             cbn [PyStr.startswith] in E;
             repeat match type of E with
                    | context [Ascii.eqb ?x ?y] =>
                        let v := eval vm_compute in (Ascii.eqb x y) in
                        match v with
                        | false => change (Ascii.eqb x y) with false in E
                        end
                    end;
             cbn [andb] in E; rewrite ?andb_false_r in E; discriminate E).
      rewrite !append_cons. cbn [String.length PyStr.drop].
      cbn [String.length] in Hn, Hfuel.
      destruct (IH pre fuel ltac:(lia) ltac:(lia)) as [stem ->].
      exists (".pdf" +:+ stem). now rewrite append_assoc.
    + destruct (IH pre fuel ltac:(lia) ltac:(lia)) as [stem ->].
      exists (String c stem). now rewrite append_cons.
Qed.

Lemma pdf_is_not_tiff (a : string) :
  (PyStr.endswith (a +:+ ".pdf") ".tiff" || PyStr.endswith (a +:+ ".pdf") ".tif")%bool
  = false.
Proof.
  apply orb_false_iff. split.
  - unfold PyStr.endswith. rewrite length_append. cbn [String.length].
    destruct (String.length a) as [|n] eqn:Ea; [reflexivity |].
    replace (S n + 4 - 5)%nat with n by lia.
    rewrite drop_append_le by lia.
    destruct (string_length_one (PyStr.drop n a)) as [c ->];
      [rewrite length_drop; lia |].
    rewrite append_cons. cbn. destruct (Ascii.eqb c "."); apply andb_false_r.
  - unfold PyStr.endswith. rewrite length_append. cbn [String.length].
    replace (String.length a + 4 - 4)%nat with (String.length a) by lia.
    rewrite drop_append_le, drop_all by lia. apply andb_false_r.
Qed.

(** X27: an image whose name ends in lowercase [.emf] and that is not a
    background is referenced under a name that ends in [.pdf]. *)
Theorem lowercase_emf_referenced_as_pdf (img : image) (stem0 : string)
    (paper_width paper_height : Z) (p : pos_rel) :
  name img = stem0 +:+ ".emf" ->
  convert_ppt_to_beamer_position (position img) paper_width paper_height = OK p ->
  is_full_slide_background p default_tol = false ->
  exists stem : string,
    emit_image img paper_width paper_height = OK (includegraphics (stem +:+ ".pdf")).
Proof.
  intros Hname Hpos Hbg. unfold emit_image. rewrite Hpos.
  change (OK p ≫= ?k) with (k p). cbv beta zeta.
  unfold emf_to_pdf. rewrite Hname.
  replace (PyStr.endswith (PyStr.lower (stem0 +:+ ".emf")) ".emf") with true.
  2:{ unfold PyStr.lower. rewrite map_chars_append. symmetry. apply endswith_append. }
  unfold PyStr.replace. rewrite length_append. cbn [String.length].
  destruct (replace_emf_suffix (String.length stem0) stem0 (String.length stem0 + 4)
              ltac:(lia) ltac:(lia)) as [stem ->].
  exists stem. unfold PyStr.lower. rewrite map_chars_append.
  change (PyStr.map_chars PyStr.lower_char ".pdf") with ".pdf".
  rewrite pdf_is_not_tiff, Hbg. reflexivity.
Qed.

Lemma lowercase_emf_referenced_as_pdf_witness :
  exists stem : string,
    emit_image {| name := "chart.emf"; position := position Sample.chart_emf |}
               default_paper_width default_paper_height
    = OK (includegraphics (stem +:+ ".pdf")).
Proof.
  apply (lowercase_emf_referenced_as_pdf
           {| name := "chart.emf"; position := position Sample.chart_emf |}
           "chart" default_paper_width default_paper_height
           {| x_rel := S754_finite false 7092282877748813 (-57);
              y_rel := S754_finite false 7880314308609792 (-55);
              width_rel := S754_finite false 6649015197889512 (-53);
              height_rel := S754_finite false 5253542872406528 (-53) |}).
  - reflexivity.
  - vm_compute. reflexivity.
  - vm_compute. reflexivity.
Defined.
